(** * hyperion.grid.spherical_polar_grid: the spherical-polar mesh

    A shallow embedding of the class [SphericalPolarGrid]
    (src/hyperion/grid/spherical_polar_grid.py) and the properties of its
    geometry builder, quantity check, fingerprint and container reader.

    Numbers are kept abstract: every definition is written over a type [F]
    with the arithmetic, the comparisons and the library functions the source
    applies to it (class [FloatOps]).  The program computes on binary64, the
    instance [float64_ops]; a statement proved over every [FloatOps] holds
    for it.  The real numbers ([R_ops]) are not a model of binary64: they
    serve as concrete numbers in examples, and as the arithmetic without
    rounding or overflow that a statement names when it assumes one (class
    [ExactArithmetic]).  What is said of rounding, overflow, NaN or infinity
    is proved on [float64_ops]. *)

From Stdlib Require Import ZArith List String Bool Lia Reals Lra Floats.
From stdpp Require Import base list strings gmap pretty.

Set Default Proof Using "Type".
Local Open Scope string_scope.
Local Open Scope Z_scope.

(** ** Numbers *)

(** The operations of numpy and Python on float64 that the source uses.
    [fpow] is [**]; [flog10], [fcos], [fsin] are [np.log10], [np.cos],
    [np.sin]; [fgtb a b] is [a > b]; [feqb] is [==]; [fisfinite] is
    [np.isfinite]; the constants are the literals [0.], [0.5], [2.], [3.]
    and [10.] of the source. *)
Class FloatOps (F : Type) := {
  fadd : F → F → F;
  fsub : F → F → F;
  fmul : F → F → F;
  fdiv : F → F → F;
  fpow : F → F → F;
  flog10 : F → F;
  fcos : F → F;
  fsin : F → F;
  fgtb : F → F → bool;
  feqb : F → F → bool;
  fisfinite : F → bool;
  zero : F;
  half : F;
  two : F;
  three : F;
  ten : F
}.

(** What [hashlib] and the buffer protocol contribute to the fingerprint:
    [itembytes] is the memory of one array element, [md5_hexdigest] the hex
    digest of a byte string.  The raw memory of a 1-D array is that of its
    elements, one after the other. *)
Class Hashlib (F : Type) := {
  itembytes : F → list Byte.byte;
  md5_hexdigest : list Byte.byte → string
}.

Definition tobytes {F} `{Hashlib F} (buffer : list F) : list Byte.byte :=
  concat (itembytes <$> buffer).

(** ** Exceptions and the state of a call *)

Inductive exn : Type :=
  | ValueError (msg : string)
  | IndexError (msg : string)
  | AttributeError (msg : string)
  | TypeError (msg : string)
  | Exception (msg : string).

Inductive outcome (A : Type) : Type :=
  | Return (a : A)
  | Raise (e : exn).
Arguments Return {A} a.
Arguments Raise {A} e.

(** A method body: it reads and mutates the object [S] it is called on, and
    either returns or raises.  What was assigned before an exception stays
    assigned. *)
Definition M (S A : Type) : Type := S → S * outcome A.

Definition ret {S A} (a : A) : M S A := λ s, (s, Return a).
Definition raise {S A} (e : exn) : M S A := λ s, (s, Raise e).
Definition bind {S A B} (c : M S A) (k : A → M S B) : M S B :=
  λ s, match c s with
       | (s', Return a) => k a s'
       | (s', Raise e) => (s', Raise e)
       end.
Definition get {S} : M S S := λ s, (s, Return s).
Definition modify {S} (f : S → S) : M S unit := λ s, (f s, Return tt).
Definition run {S A} (c : M S A) (s : S) : S * outcome A := c s.

Global Instance M_ret {S} : MRet (M S) := λ A, ret.
Global Instance M_bind {S} : MBind (M S) := λ A B k c, bind c k.

(** ** Arrays *)

(** 3-D arrays are nested lists, indexed [k][j][i] (azimuthal, polar,
    radial); 1-D arrays are lists. *)
Abbreviation array3 F := (list (list (list F))).

Section Arrays.
Context {F : Type} `{FloatOps F}.

(** A numpy array of any rank: its shape and its elements in row-major
    order. *)
Record ndarray : Type := NDArray {
  arr_shape : list Z;
  arr_data : list F
}.

(** The values a wall argument can be. *)
Inductive pyobj : Type :=
  | PyList (xs : list F)
  | PyTuple (xs : list F)
  | PyArray (a : ndarray)
  | PyOther (repr : string).

Definition is_list_or_tuple (o : pyobj) : bool :=
  match o with PyList _ | PyTuple _ => true | _ => false end.

(** [np.array] of a flat sequence of numbers. *)
Definition np_array (o : pyobj) : pyobj :=
  match o with
  | PyList xs | PyTuple xs =>
      PyArray (NDArray [Z.of_nat (length xs)] xs)
  | _ => o
  end.

(** Modelled from the spec: [is_numpy_array] of hyperion.util.functions is
    not in the source file; the spec has each wall input "convertible to a
    1-D floating-point array", so it accepts exactly the array values. *)
Definition is_numpy_array (o : pyobj) : bool :=
  match o with PyArray _ => true | _ => false end.

Definition ndim (o : pyobj) : Z :=
  match o with PyArray a => Z.of_nat (length (arr_shape a)) | _ => 0 end.

(** The elements of a 1-D array. *)
Definition values (o : pyobj) : list F :=
  match o with
  | PyArray a => arr_data a
  | PyList xs | PyTuple xs => xs
  | PyOther _ => []
  end.

(** Modelled from the spec: [monotonically_increasing] of
    hyperion.util.functions is not in the source file; the spec asks for
    "strictly monotonically increasing (no repeated or decreasing adjacent
    values)": every element is greater than the one before it. *)
Fixpoint monotonically_increasing (l : list F) : bool :=
  match l with
  | a :: (b :: _) as tl => fgtb b a && monotonically_increasing tl
  | _ => true
  end.

Definition len (l : list F) : Z := Z.of_nat (length l).

(** [a[:-1]] and [a[1:]]. *)
Definition but_last (l : list F) : list F := take (length l - 1)%nat l.
Definition from_1 (l : list F) : list F := drop 1 l.

(** [a[i]] on a 1-D array. *)
Definition getitem {S} (l : list F) (i : nat) : M S F :=
  match l !! i with
  | Some x => ret x
  | None => raise (IndexError "index out of bounds")
  end.

Definition map3 (f : F → F) (a : array3 F) : array3 F :=
  (λ plane : list (list F), (λ row : list F, f <$> row) <$> plane) <$> a.
Definition zip3 (f : F → F → F) (a b : array3 F) : array3 F :=
  zip_with (zip_with (zip_with f)) a b.

Definition get3 (a : array3 F) (k j i : nat) : option F :=
  a !! k ≫= λ plane, plane !! j ≫= λ row, row !! i.

(** [a[f, k, j, i]] on a stack of 3-D arrays. *)
Definition get4 (a : list (array3 F)) (f k j i : nat) : option F :=
  a !! f ≫= λ face, get3 face k j i.

(** The shape of a 3-D array held as nested lists. *)
Definition has_shape3 (a : array3 F) (n_p n_t n_r : nat) : Prop :=
  length a = n_p ∧
  Forall (λ plane, length plane = n_t ∧
                   Forall (λ row : list F, length row = n_r) plane) a.

(** Modelled from the spec: [meshgrid_nd] of hyperion.util.meshgrid is not
    in the source file; the spec's broadcast field is "a per-axis 1-D array
    expanded to a full 3-D field by outer-product replication across the
    other two axes", of shape (len z, len y, len x). *)
Definition meshgrid_nd (x y z : list F) : array3 F * array3 F * array3 F :=
  ((λ _, (λ _, x) <$> y) <$> z,
   (λ _, (λ yj, (λ _, yj) <$> x) <$> y) <$> z,
   (λ zk, (λ _, (λ _, zk) <$> x) <$> y) <$> z).

(** [np.zeros(dims)] raises on a negative dimension. *)
Definition np_zeros_check {S} (dims : list Z) : M S unit :=
  if forallb (λ d, 0 <=? d) dims then ret tt
  else raise (ValueError "negative dimensions are not allowed").

Definition zeros3 (n_p n_t n_r : Z) : array3 F :=
  replicate (Z.to_nat n_p)
    (replicate (Z.to_nat n_t) (replicate (Z.to_nat n_r) zero)).


(** [repr] of a tuple of ints and of [self.shape]. *)
Definition repr_tuple (t : list Z) : string :=
  match t with
  | [] => "()"
  | [n] => "(" +:+ pretty n +:+ ",)"
  | n :: rest =>
      "(" +:+ foldl (λ acc m, acc +:+ ", " +:+ pretty m) (pretty n) rest +:+ ")"
  end.
Definition repr_shape (s : option (list Z)) : string :=
  match s with Some t => repr_tuple t | None => "None" end.
End Arrays.

Arguments ndarray F : clear implicits.
Arguments pyobj F : clear implicits.

(** ** The mesh object *)

Section Grid.
Context {F : Type} `{FloatOps F}.

(** A value of the [quantities] dictionary: an array, a list or tuple of
    arrays, an [h5py.ExternalLink], or anything else. *)
Inductive qvalue : Type :=
  | QArray (a : ndarray F)
  | QList (items : list (ndarray F))
  | QTuple (items : list (ndarray F))
  | QLink (filename path : string)
  | QOther (repr : string).

(** The attributes that [__init__] declares, in its order; an attribute that
    is still [None] in Python is [None] here. *)
Record SphericalPolarGrid : Type := Build_Grid {
  nr : option Z;
  nt : option Z;
  np : option Z;
  shape : option (list Z);
  r_wall : option (list F);
  t_wall : option (list F);
  p_wall : option (list F);
  r : option (list F);
  t : option (list F);
  p : option (list F);
  gr : option (array3 F);
  gt : option (array3 F);
  gp : option (array3 F);
  gw : option (array3 F);
  gz : option (array3 F);
  volumes : option (array3 F);
  areas : option (list (array3 F));
  widths : option (list (array3 F));
  quantities : gmap string qvalue
}.

(** The object [__init__] leaves when it is given no walls. *)
Definition empty_grid : SphericalPolarGrid :=
  Build_Grid None None None None None None None None None None
             None None None None None None None None ∅.

(** Attribute assignment [self.name = v], one per attribute. *)
Definition set_nr (v : option Z) (g : SphericalPolarGrid) : SphericalPolarGrid :=
  Build_Grid v (nt g) (np g) (shape g) (r_wall g) (t_wall g) (p_wall g)
    (r g) (t g) (p g) (gr g) (gt g) (gp g) (gw g) (gz g) (volumes g)
    (areas g) (widths g) (quantities g).
Definition set_nt (v : option Z) (g : SphericalPolarGrid) : SphericalPolarGrid :=
  Build_Grid (nr g) v (np g) (shape g) (r_wall g) (t_wall g) (p_wall g)
    (r g) (t g) (p g) (gr g) (gt g) (gp g) (gw g) (gz g) (volumes g)
    (areas g) (widths g) (quantities g).
Definition set_np (v : option Z) (g : SphericalPolarGrid) : SphericalPolarGrid :=
  Build_Grid (nr g) (nt g) v (shape g) (r_wall g) (t_wall g) (p_wall g)
    (r g) (t g) (p g) (gr g) (gt g) (gp g) (gw g) (gz g) (volumes g)
    (areas g) (widths g) (quantities g).
Definition set_shape (v : option (list Z)) (g : SphericalPolarGrid) : SphericalPolarGrid :=
  Build_Grid (nr g) (nt g) (np g) v (r_wall g) (t_wall g) (p_wall g) (r
    g) (t g) (p g) (gr g) (gt g) (gp g) (gw g) (gz g) (volumes g) (areas
    g) (widths g) (quantities g).
Definition set_r_wall (v : option (list F)) (g : SphericalPolarGrid) : SphericalPolarGrid :=
  Build_Grid (nr g) (nt g) (np g) (shape g) v (t_wall g) (p_wall g) (r
    g) (t g) (p g) (gr g) (gt g) (gp g) (gw g) (gz g) (volumes g) (areas
    g) (widths g) (quantities g).
Definition set_t_wall (v : option (list F)) (g : SphericalPolarGrid) : SphericalPolarGrid :=
  Build_Grid (nr g) (nt g) (np g) (shape g) (r_wall g) v (p_wall g) (r
    g) (t g) (p g) (gr g) (gt g) (gp g) (gw g) (gz g) (volumes g) (areas
    g) (widths g) (quantities g).
Definition set_p_wall (v : option (list F)) (g : SphericalPolarGrid) : SphericalPolarGrid :=
  Build_Grid (nr g) (nt g) (np g) (shape g) (r_wall g) (t_wall g) v (r
    g) (t g) (p g) (gr g) (gt g) (gp g) (gw g) (gz g) (volumes g) (areas
    g) (widths g) (quantities g).
Definition set_r (v : option (list F)) (g : SphericalPolarGrid) : SphericalPolarGrid :=
  Build_Grid (nr g) (nt g) (np g) (shape g) (r_wall g) (t_wall g)
    (p_wall g) v (t g) (p g) (gr g) (gt g) (gp g) (gw g) (gz g) (volumes
    g) (areas g) (widths g) (quantities g).
Definition set_t (v : option (list F)) (g : SphericalPolarGrid) : SphericalPolarGrid :=
  Build_Grid (nr g) (nt g) (np g) (shape g) (r_wall g) (t_wall g)
    (p_wall g) (r g) v (p g) (gr g) (gt g) (gp g) (gw g) (gz g) (volumes
    g) (areas g) (widths g) (quantities g).
Definition set_p (v : option (list F)) (g : SphericalPolarGrid) : SphericalPolarGrid :=
  Build_Grid (nr g) (nt g) (np g) (shape g) (r_wall g) (t_wall g)
    (p_wall g) (r g) (t g) v (gr g) (gt g) (gp g) (gw g) (gz g) (volumes
    g) (areas g) (widths g) (quantities g).
Definition set_gr (v : option (array3 F)) (g : SphericalPolarGrid) : SphericalPolarGrid :=
  Build_Grid (nr g) (nt g) (np g) (shape g) (r_wall g) (t_wall g)
    (p_wall g) (r g) (t g) (p g) v (gt g) (gp g) (gw g) (gz g) (volumes g)
    (areas g) (widths g) (quantities g).
Definition set_gt (v : option (array3 F)) (g : SphericalPolarGrid) : SphericalPolarGrid :=
  Build_Grid (nr g) (nt g) (np g) (shape g) (r_wall g) (t_wall g)
    (p_wall g) (r g) (t g) (p g) (gr g) v (gp g) (gw g) (gz g) (volumes g)
    (areas g) (widths g) (quantities g).
Definition set_gp (v : option (array3 F)) (g : SphericalPolarGrid) : SphericalPolarGrid :=
  Build_Grid (nr g) (nt g) (np g) (shape g) (r_wall g) (t_wall g)
    (p_wall g) (r g) (t g) (p g) (gr g) (gt g) v (gw g) (gz g) (volumes g)
    (areas g) (widths g) (quantities g).
Definition set_gw (v : option (array3 F)) (g : SphericalPolarGrid) : SphericalPolarGrid :=
  Build_Grid (nr g) (nt g) (np g) (shape g) (r_wall g) (t_wall g)
    (p_wall g) (r g) (t g) (p g) (gr g) (gt g) (gp g) v (gz g) (volumes g)
    (areas g) (widths g) (quantities g).
Definition set_gz (v : option (array3 F)) (g : SphericalPolarGrid) : SphericalPolarGrid :=
  Build_Grid (nr g) (nt g) (np g) (shape g) (r_wall g) (t_wall g)
    (p_wall g) (r g) (t g) (p g) (gr g) (gt g) (gp g) (gw g) v (volumes g)
    (areas g) (widths g) (quantities g).
Definition set_volumes (v : option (array3 F)) (g : SphericalPolarGrid) : SphericalPolarGrid :=
  Build_Grid (nr g) (nt g) (np g) (shape g) (r_wall g) (t_wall g)
    (p_wall g) (r g) (t g) (p g) (gr g) (gt g) (gp g) (gw g) (gz g) v
    (areas g) (widths g) (quantities g).
Definition set_areas (v : option (list (array3 F))) (g : SphericalPolarGrid) : SphericalPolarGrid :=
  Build_Grid (nr g) (nt g) (np g) (shape g) (r_wall g) (t_wall g)
    (p_wall g) (r g) (t g) (p g) (gr g) (gt g) (gp g) (gw g) (gz g)
    (volumes g) v (widths g) (quantities g).
Definition set_widths (v : option (list (array3 F))) (g : SphericalPolarGrid) : SphericalPolarGrid :=
  Build_Grid (nr g) (nt g) (np g) (shape g) (r_wall g) (t_wall g)
    (p_wall g) (r g) (t g) (p g) (gr g) (gt g) (gp g) (gw g) (gz g)
    (volumes g) (areas g) v (quantities g).
Definition set_quantities (v : gmap string qvalue) (g : SphericalPolarGrid) : SphericalPolarGrid :=
  Build_Grid (nr g) (nt g) (np g) (shape g) (r_wall g) (t_wall g)
    (p_wall g) (r g) (t g) (p g) (gr g) (gt g) (gp g) (gw g) (gz g)
    (volumes g) (areas g) (widths g) v.


(** [self.r[i] = v]. *)
Definition setitem_r (i : nat) (v : F) : M SphericalPolarGrid unit :=
  self ← get;
  match r self with
  | Some centers =>
      if bool_decide (i < length centers)%nat
      then modify (set_r (Some (<[i:=v]> centers)))
      else raise (IndexError "index out of bounds")
  | None => raise (TypeError "'NoneType' object does not support item assignment")
  end.

(** [self.r] read back. *)
Definition getattr_r : M SphericalPolarGrid (list F) :=
  self ← get;
  match r self with
  | Some centers => mret centers
  | None => raise (TypeError "'NoneType' object is not iterable")
  end.

(** [self.areas[f, :, :, :] = x] and [self.widths[f, :, :, :] = x]. *)
Definition setitem_areas (f : nat) (x : array3 F) : M SphericalPolarGrid unit :=
  modify (λ self, set_areas ((λ a, <[f:=x]> a) <$> areas self) self).
Definition setitem_widths (f : nat) (x : array3 F) : M SphericalPolarGrid unit :=
  modify (λ self, set_widths ((λ a, <[f:=x]> a) <$> widths self) self).

(** [if cond: raise e]. *)
Definition raise_if {S} (cond : bool) (e : exn) : M S unit :=
  if cond then raise e else mret tt.

(** ** [set_walls] (lines 46-163) *)

Definition set_walls (r_wall t_wall p_wall : pyobj F) : M SphericalPolarGrid unit :=
  let r_wall := if is_list_or_tuple r_wall then np_array r_wall else r_wall in
  let t_wall := if is_list_or_tuple t_wall then np_array t_wall else t_wall in
  let p_wall := if is_list_or_tuple p_wall then np_array p_wall else p_wall in

  raise_if (negb (is_numpy_array r_wall) || negb (ndim r_wall =? 1))
    (ValueError "r_wall should be a 1-D sequence");;
  raise_if (negb (is_numpy_array t_wall) || negb (ndim t_wall =? 1))
    (ValueError "t_wall should be a 1-D sequence");;
  raise_if (negb (is_numpy_array p_wall) || negb (ndim p_wall =? 1))
    (ValueError "p_wall should be a 1-D sequence");;

  let r_wall := values r_wall in
  let t_wall := values t_wall in
  let p_wall := values p_wall in

  raise_if (negb (monotonically_increasing r_wall))
    (ValueError "r_wall should be monotonically increasing");;
  raise_if (negb (monotonically_increasing t_wall))
    (ValueError "t_wall should be monotonically increasing");;
  raise_if (negb (monotonically_increasing p_wall))
    (ValueError "p_wall should be monotonically increasing");;

  (* Find number of grid cells *)
  let n_r := len r_wall - 1 in
  let n_t := len t_wall - 1 in
  let n_p := len p_wall - 1 in
  modify (set_nr (Some n_r));;
  modify (set_nt (Some n_t));;
  modify (set_np (Some n_p));;

  modify (set_shape (Some [n_p; n_t; n_r]));;

  (* Store wall positions *)
  modify (set_r_wall (Some r_wall));;
  modify (set_t_wall (Some t_wall));;
  modify (set_p_wall (Some p_wall));;

  (* Compute cell centers *)
  modify (set_r (Some
    ((λ e, fpow ten e) <$>
       ((λ s, fdiv s two) <$>
          zip_with fadd (flog10 <$> but_last r_wall) (flog10 <$> from_1 r_wall)))));;
  r_wall_0 ← getitem r_wall 0;
  (if feqb r_wall_0 zero
   then r_wall_1 ← getitem r_wall 1; setitem_r 0 (fdiv r_wall_1 two)
   else mret tt);;
  let t_ := (λ s, fdiv s two) <$> zip_with fadd (but_last t_wall) (from_1 t_wall) in
  let p_ := (λ s, fdiv s two) <$> zip_with fadd (but_last p_wall) (from_1 p_wall) in
  modify (set_t (Some t_));;
  modify (set_p (Some p_));;

  (* Generate 3D versions of r, t, p *)
  r_ ← getattr_r;
  let '(gr_, gt_, gp_) := meshgrid_nd r_ t_ p_ in
  modify (set_gr (Some gr_));;
  modify (set_gt (Some gt_));;
  modify (set_gp (Some gp_));;

  (* Compute cell centers in cylindrical coordinates *)
  modify (set_gz (Some (zip3 fmul gr_ (map3 fcos gt_))));;
  modify (set_gw (Some (zip3 fmul gr_ (map3 fsin gt_))));;

  (* Generate 3D versions of the inner and outer wall positions *)
  let '(gr_wall_min, gt_wall_min, gp_wall_min) :=
    meshgrid_nd (but_last r_wall) (but_last t_wall) (but_last p_wall) in
  let '(gr_wall_max, gt_wall_max, gp_wall_max) :=
    meshgrid_nd (from_1 r_wall) (from_1 t_wall) (from_1 p_wall) in

  (* USEFUL QUANTITIES *)
  let dr := zip3 fsub gr_wall_max gr_wall_min in
  let dr2 := zip3 fsub (map3 (λ x, fpow x two) gr_wall_max)
                       (map3 (λ x, fpow x two) gr_wall_min) in
  let dr3 := zip3 fsub (map3 (λ x, fpow x three) gr_wall_max)
                       (map3 (λ x, fpow x three) gr_wall_min) in
  let dt := zip3 fsub gt_wall_max gt_wall_min in
  let dcost := zip3 fsub (map3 fcos gt_wall_min) (map3 fcos gt_wall_max) in
  let dp := zip3 fsub gp_wall_max gp_wall_min in

  (* CELL VOLUMES *)
  modify (set_volumes (Some
    (map3 (λ x, fdiv x three) (zip3 fmul (zip3 fmul dr3 dcost) dp))));;

  (* WALL AREAS *)
  np_zeros_check [6; n_p; n_t; n_r];;
  modify (set_areas (Some (replicate 6 (zeros3 n_p n_t n_r))));;
  setitem_areas 0
    (zip3 fmul (zip3 fmul (map3 (λ x, fpow x two) gr_wall_min) dcost) dp);;
  setitem_areas 1
    (zip3 fmul (zip3 fmul (map3 (λ x, fpow x two) gr_wall_max) dcost) dp);;
  setitem_areas 2
    (zip3 fmul (zip3 fmul (map3 (fmul half) dr2) (map3 fsin gt_wall_min)) dp);;
  setitem_areas 3
    (zip3 fmul (zip3 fmul (map3 (fmul half) dr2) (map3 fsin gt_wall_max)) dp);;
  setitem_areas 4 (zip3 fmul (map3 (fmul half) dr2) dt);;
  setitem_areas 5 (zip3 fmul (map3 (fmul half) dr2) dt);;

  (* CELL WIDTHS *)
  np_zeros_check [3; n_p; n_t; n_r];;
  modify (set_widths (Some (replicate 3 (zeros3 n_p n_t n_r))));;
  setitem_widths 0 dr;;
  setitem_widths 1 (zip3 fmul gr_ dt);;
  setitem_widths 2 (zip3 fmul (zip3 fmul gr_ (map3 fsin gt_)) dp).

(** ** [_check_array_dimensions] (lines 165-190) *)

(** [np.atleast_2d] on a shape, then [np.vstack]: concatenation along the
    first axis; it raises on an empty sequence and on items whose other axes
    differ. *)
Definition atleast_2d (s : list Z) : list Z :=
  match s with
  | [] => [1; 1]
  | [n] => [1; n]
  | _ => s
  end.

Definition np_vstack {S} (items : list (ndarray F)) : M S (ndarray F) :=
  match items with
  | [] => raise (ValueError "need at least one array to concatenate")
  | first :: _ =>
      let shapes := (λ a, atleast_2d (arr_shape a)) <$> items in
      if forallb (λ s, bool_decide (tail s = tail (atleast_2d (arr_shape first)))) shapes
      then mret (NDArray
                   (foldr Z.add 0 ((λ s, hd 0 s) <$> shapes)
                      :: tail (atleast_2d (arr_shape first)))
                   (concat (arr_data <$> items)))
      else raise (ValueError "all the input array dimensions except for the concatenation axis must match exactly")
  end.

(** [a.reshape] to a shape: the same elements under a shape of the same size. *)
Definition np_reshape {S} (a : ndarray F) (new_shape : list Z) : M S (ndarray F) :=
  if bool_decide (foldr Z.mul 1 new_shape = foldr Z.mul 1 (arr_shape a))
  then mret (NDArray new_shape (arr_data a))
  else raise (ValueError "cannot reshape array").

(** The loop [for item in array] of the list branch: the first item of a
    wrong shape raises. *)
Fixpoint check_items {S} (self_shape : option (list Z)) (items : list (ndarray F))
  : M S unit :=
  match items with
  | [] => mret tt
  | item :: rest =>
      raise_if (bool_decide (Some (arr_shape item) ≠ self_shape))
        (ValueError ("Arrays in list do not have the right dimensions: "
                     +:+ repr_tuple (arr_shape item) +:+ " instead of "
                     +:+ repr_shape self_shape));;
      check_items self_shape rest
  end.

(** The list branch after the loop: the value the local name [array] is
    rebound to ("Convert list of 3D arrays to a single 4D array"). *)
Definition stack_items {S} (self_shape : option (list Z)) (items : list (ndarray F))
  : M S (ndarray F) :=
  match self_shape with
  | None => raise (TypeError "'NoneType' object is not iterable")
  | Some dims =>
      let shape_ := Z.of_nat (length items) :: dims in
      stacked ← np_vstack items;
      np_reshape stacked shape_
  end.

(** The method: it returns nothing and assigns no attribute; the array built
    in the list branch is bound to the local name only. *)
Definition _check_array_dimensions (array : qvalue) : M SphericalPolarGrid unit :=
  self ← get;
  match array with
  | QList items | QTuple items =>
      check_items (shape self) items;;
      array ← stack_items (shape self) items;
      mret tt
  | QArray a =>
      raise_if (bool_decide (Some (arr_shape a) ≠ shape self))
        (ValueError ("Array does not have the right dimensions: "
                     +:+ repr_tuple (arr_shape a) +:+ " instead of "
                     +:+ repr_shape (shape self)))
  | _ => raise (ValueError "Array should be a list or a Numpy array")
  end.

(** [__init__] (lines 12-44): every attribute [None], the quantities empty,
    then [set_walls] when walls are given. *)
Definition init (args : option (pyobj F * pyobj F * pyobj F))
  : SphericalPolarGrid * outcome unit :=
  match args with
  | Some (r_wall, t_wall, p_wall) => run (set_walls r_wall t_wall p_wall) empty_grid
  | None => (empty_grid, Return tt)
  end.

End Grid.

(** ** The fingerprint and the container reader *)

Section Container.
Context {F : Type} `{FloatOps F} `{Hashlib F}.

(** [hashlib.md5()]: [update] appends to the bytes hashed so far,
    [hexdigest] hashes them. *)
Definition md5_new : list Byte.byte := [].
Definition md5_update (h : list Byte.byte) (buffer : list F) : list Byte.byte :=
  (h ++ tobytes buffer)%list.
Definition hexdigest (h : list Byte.byte) : string := md5_hexdigest h.

(** [get_geometry_id] (lines 287-292). *)
Definition get_geometry_id : M (SphericalPolarGrid (F:=F)) string :=
  self ← get;
  match r_wall self, t_wall self, p_wall self with
  | Some r_wall, Some t_wall, Some p_wall =>
      let geo_hash := md5_new in
      let geo_hash := md5_update geo_hash r_wall in
      let geo_hash := md5_update geo_hash t_wall in
      let geo_hash := md5_update geo_hash p_wall in
      mret (hexdigest geo_hash)
  | _, _, _ => raise (TypeError "object supporting the buffer API required")
  end.

(** The persisted container: a geometry group with its two attributes and
    three wall datasets, and a physics group of named datasets. *)
Record GeometryGroup : Type := {
  attrs_grid_type : string;
  attrs_geometry : string;
  Walls_1 : pyobj F;
  Walls_2 : pyobj F;
  Walls_3 : pyobj F
}.

Record Group : Type := {
  Geometry : GeometryGroup;
  Physics : list (string * ndarray F)
}.

(** The argument [quantities] (here [quantities_], the attribute has the
    name): ['all'] or a list of names. *)
Inductive selector : Type :=
  | All
  | Names (names : list string).

Definition selected (quantities_ : selector) (quantity : string) : bool :=
  match quantities_ with
  | All => true
  | Names names => bool_decide (quantity ∈ names)
  end.

(** The names an instance resolves.  The instance attributes are those of
    [__init__]; the methods are those of the class body. *)
Definition instance_attributes : list string :=
  ["nr"; "nt"; "np"; "shape"; "r_wall"; "t_wall"; "p_wall"; "r"; "t"; "p";
   "gr"; "gt"; "gp"; "gw"; "gz"; "volumes"; "areas"; "widths"; "quantities"].
Definition class_methods : list string :=
  ["__init__"; "set_walls"; "_check_array_dimensions"; "read"; "write";
   "get_geometry_id"].

(** Modelled from the spec: the base class [FreezableClass] of
    hyperion.util.functions is not in the source file; the spec describes it
    as "a fixed, explicitly enumerated attribute set with post-construction
    freeze against adding new fields", the guard [__init__] arms with
    [_freeze]: it brings no other method. *)
Definition FreezableClass_methods : list string := ["_freeze"].

Definition hasattr (name : string) : bool :=
  bool_decide (name ∈ (instance_attributes ++ class_methods ++ FreezableClass_methods)%list).

(** [self.name(...)]: the attribute is looked up, then called; [body] is
    what the call runs once the name resolves. *)
Definition call_method {A} (name : string) (body : M (SphericalPolarGrid (F:=F)) A)
  : M (SphericalPolarGrid (F:=F)) A :=
  if hasattr name then body
  else raise (AttributeError
                ("'SphericalPolarGrid' object has no attribute '" +:+ name +:+ "'")).

(** [dataset.array] on a member of the physics group (line 226).  The
    members are [h5py.Dataset] objects, whose data is read by indexing or by
    [np.array(dataset)]; the class has no attribute [array], so the lookup
    raises before [np.array] is called, whatever the dataset holds. *)
Definition Dataset_array (dataset : ndarray F)
  : M (SphericalPolarGrid (F:=F)) (ndarray F) :=
  raise (AttributeError "'Dataset' object has no attribute 'array'").

(** The loop over the physics group (lines 223-226). *)
Fixpoint read_quantities (quantities_ : selector) (g_physics : list (string * ndarray F))
  : M (SphericalPolarGrid (F:=F)) unit :=
  match g_physics with
  | [] => mret tt
  | (quantity, dataset) :: rest =>
      (if selected quantities_ quantity
       then array ← Dataset_array dataset;
            modify (λ self,
              set_quantities (<[quantity := QArray array]> (quantities self)) self)
       else mret tt);;
      read_quantities quantities_ rest
  end.

(** [read] (lines 192-226). *)
Definition read (group : Group) (quantities_ : selector)
  : M (SphericalPolarGrid (F:=F)) unit :=
  (* Extract HDF5 groups for geometry and physics *)
  let g_geometry := Geometry group in
  let g_physics := Physics group in

  (* Read in geometry *)
  raise_if (bool_decide (attrs_grid_type g_geometry ≠ "sph_pol"))
    (ValueError "Grid is not spherical polar");;

  call_method "set"
    (set_walls (Walls_1 g_geometry) (Walls_2 g_geometry) (Walls_3 g_geometry));;

  (* Check that advertised hash matches real hash *)
  geometry_id ← call_method "get_geometry_id" get_geometry_id;
  raise_if (bool_decide (attrs_geometry g_geometry ≠ geometry_id))
    (Exception "Calculated geometry hash does not match hash in file");;

  (* Read in physical quantities *)
  read_quantities quantities_ g_physics.

(** [read] as the call on line 215 would run if it named [set_walls], the
    method [__init__] calls on line 44. *)
Definition read_via_set_walls (group : Group) (quantities_ : selector)
  : M (SphericalPolarGrid (F:=F)) unit :=
  let g_geometry := Geometry group in
  let g_physics := Physics group in
  raise_if (bool_decide (attrs_grid_type g_geometry ≠ "sph_pol"))
    (ValueError "Grid is not spherical polar");;
  call_method "set_walls"
    (set_walls (Walls_1 g_geometry) (Walls_2 g_geometry) (Walls_3 g_geometry));;
  geometry_id ← call_method "get_geometry_id" get_geometry_id;
  raise_if (bool_decide (attrs_geometry g_geometry ≠ geometry_id))
    (Exception "Calculated geometry hash does not match hash in file");;
  read_quantities quantities_ g_physics.

End Container.

(** ** The values [set_walls] assigns, in closed form

    The local names of [set_walls] as functions of the three wall arrays;
    lemma [set_walls_Return] shows that a successful call assigns exactly
    these. *)

Section Derived.
Context {F : Type} `{FloatOps F}.
Variables r_wall t_wall p_wall : list F.

Definition log_centers : list F :=
  (λ e, fpow ten e) <$>
    ((λ s, fdiv s two) <$>
       zip_with fadd (flog10 <$> but_last r_wall) (flog10 <$> from_1 r_wall)).

Definition mid_centers (wall : list F) : list F :=
  (λ s, fdiv s two) <$> zip_with fadd (but_last wall) (from_1 wall).

(** [self.r] after the special case of line 83. *)
Definition centers_r : list F :=
  match r_wall !! 0%nat, r_wall !! 1%nat with
  | Some r_wall_0, Some r_wall_1 =>
      if feqb r_wall_0 zero then <[0%nat := fdiv r_wall_1 two]> log_centers
      else log_centers
  | _, _ => log_centers
  end.

Definition g_wall_min : array3 F * array3 F * array3 F :=
  meshgrid_nd (but_last r_wall) (but_last t_wall) (but_last p_wall).
Definition g_wall_max : array3 F * array3 F * array3 F :=
  meshgrid_nd (from_1 r_wall) (from_1 t_wall) (from_1 p_wall).

Definition v_dr : array3 F := zip3 fsub g_wall_max.1.1 g_wall_min.1.1.
Definition v_dr2 : array3 F :=
  zip3 fsub (map3 (λ x, fpow x two) g_wall_max.1.1)
            (map3 (λ x, fpow x two) g_wall_min.1.1).
Definition v_dr3 : array3 F :=
  zip3 fsub (map3 (λ x, fpow x three) g_wall_max.1.1)
            (map3 (λ x, fpow x three) g_wall_min.1.1).
Definition v_dt : array3 F := zip3 fsub g_wall_max.1.2 g_wall_min.1.2.
Definition v_dcost : array3 F :=
  zip3 fsub (map3 fcos g_wall_min.1.2) (map3 fcos g_wall_max.1.2).
Definition v_dp : array3 F := zip3 fsub g_wall_max.2 g_wall_min.2.

Definition volumes_of : array3 F :=
  map3 (λ x, fdiv x three) (zip3 fmul (zip3 fmul v_dr3 v_dcost) v_dp).

Definition areas_of : list (array3 F) :=
  [ zip3 fmul (zip3 fmul (map3 (λ x, fpow x two) g_wall_min.1.1) v_dcost) v_dp;
    zip3 fmul (zip3 fmul (map3 (λ x, fpow x two) g_wall_max.1.1) v_dcost) v_dp;
    zip3 fmul (zip3 fmul (map3 (fmul half) v_dr2) (map3 fsin g_wall_min.1.2)) v_dp;
    zip3 fmul (zip3 fmul (map3 (fmul half) v_dr2) (map3 fsin g_wall_max.1.2)) v_dp;
    zip3 fmul (map3 (fmul half) v_dr2) v_dt;
    zip3 fmul (map3 (fmul half) v_dr2) v_dt ].

Definition g_centers : array3 F * array3 F * array3 F :=
  meshgrid_nd centers_r (mid_centers t_wall) (mid_centers p_wall).

Definition widths_of : list (array3 F) :=
  [ v_dr;
    zip3 fmul g_centers.1.1 v_dt;
    zip3 fmul (zip3 fmul g_centers.1.1 (map3 fsin g_centers.1.2)) v_dp ].

(** The object a successful [set_walls] leaves. *)
Definition walls_set (g : SphericalPolarGrid) : SphericalPolarGrid :=
  Build_Grid
    (Some (len r_wall - 1)) (Some (len t_wall - 1)) (Some (len p_wall - 1))
    (Some [len p_wall - 1; len t_wall - 1; len r_wall - 1])
    (Some r_wall) (Some t_wall) (Some p_wall)
    (Some centers_r) (Some (mid_centers t_wall)) (Some (mid_centers p_wall))
    (Some g_centers.1.1) (Some g_centers.1.2) (Some g_centers.2)
    (Some (zip3 fmul g_centers.1.1 (map3 fsin g_centers.1.2)))
    (Some (zip3 fmul g_centers.1.1 (map3 fcos g_centers.1.2)))
    (Some volumes_of) (Some areas_of) (Some widths_of)
    (quantities g).

(** The object a call leaves when line 83 or 84 raises: counts, shape, walls
    and the first value of [r] are assigned, the rest is as before. *)
Definition raised_at_centers (g : SphericalPolarGrid) : SphericalPolarGrid :=
  Build_Grid
    (Some (len r_wall - 1)) (Some (len t_wall - 1)) (Some (len p_wall - 1))
    (Some [len p_wall - 1; len t_wall - 1; len r_wall - 1])
    (Some r_wall) (Some t_wall) (Some p_wall)
    (Some log_centers) (t g) (p g)
    (gr g) (gt g) (gp g) (gw g) (gz g)
    (volumes g) (areas g) (widths g) (quantities g).

(** The object a call leaves when [np.zeros] raises on line 120: everything
    up to the volumes is assigned, areas and widths are as before. *)
Definition raised_at_areas (g : SphericalPolarGrid) : SphericalPolarGrid :=
  Build_Grid
    (Some (len r_wall - 1)) (Some (len t_wall - 1)) (Some (len p_wall - 1))
    (Some [len p_wall - 1; len t_wall - 1; len r_wall - 1])
    (Some r_wall) (Some t_wall) (Some p_wall)
    (Some centers_r) (Some (mid_centers t_wall)) (Some (mid_centers p_wall))
    (Some g_centers.1.1) (Some g_centers.1.2) (Some g_centers.2)
    (Some (zip3 fmul g_centers.1.1 (map3 fsin g_centers.1.2)))
    (Some (zip3 fmul g_centers.1.1 (map3 fcos g_centers.1.2)))
    (Some volumes_of) (areas g) (widths g)
    (quantities g).

End Derived.

(** The wall arguments pass the checks of lines 55-67. *)
Definition is_1d {F} (o : pyobj F) : bool :=
  let o := if is_list_or_tuple o then np_array o else o in
  is_numpy_array o && (ndim o =? 1).
Definition valid_walls {F} `{FloatOps F} (r_wall t_wall p_wall : pyobj F) : bool :=
  is_1d r_wall && is_1d t_wall && is_1d p_wall
  && monotonically_increasing (values r_wall)
  && monotonically_increasing (values t_wall)
  && monotonically_increasing (values p_wall).

(** The volumes once more, tabulated over the pairs of adjacent walls; lemma
    [volumes_of_tab] shows the two agree. *)
Section Tabulated.
Context {F : Type} `{FloatOps F}.




End Tabulated.

(** The six checks of lines 55-67, one after the other: the exception of the
    first that fails. *)
Definition first_failed_check {F} `{FloatOps F} (a b c : pyobj F) : option exn :=
  if negb (is_1d a) then Some (ValueError "r_wall should be a 1-D sequence")
  else if negb (is_1d b) then Some (ValueError "t_wall should be a 1-D sequence")
  else if negb (is_1d c) then Some (ValueError "p_wall should be a 1-D sequence")
  else if negb (monotonically_increasing (values a))
    then Some (ValueError "r_wall should be monotonically increasing")
  else if negb (monotonically_increasing (values b))
    then Some (ValueError "t_wall should be monotonically increasing")
  else if negb (monotonically_increasing (values c))
    then Some (ValueError "p_wall should be monotonically increasing")
  else None.

(** ** The real numbers: arithmetic without rounding

    The reals do not stand for binary64: they have no rounding, no overflow,
    no NaN and no infinity.  A formula read over them is the exact value the
    doubles approximate. *)

Section RealNumbers.
Local Open Scope R_scope.

(** [x ** y] over the reals: the integer power when the exponent is a
    natural number, [exp (y * ln x)] otherwise. *)
Definition Rpow (x y : R) : R :=
  let n := Z.to_nat (up y - 1) in
  if Req_dec_T (INR n) y then x ^ n else Rpower x y.

Definition Rlog10 (x : R) : R := ln x / ln 10.

Definition Rgtb (a b : R) : bool := if Rgt_dec a b then true else false.
Definition Reqb (a b : R) : bool := if Req_dec_T a b then true else false.

(** The operations over the reals; every real number is finite. *)
#[export] Instance R_ops : FloatOps R := {|
  fadd := Rplus;
  fsub := Rminus;
  fmul := Rmult;
  fdiv := Rdiv;
  fpow := Rpow;
  flog10 := Rlog10;
  fcos := cos;
  fsin := sin;
  fgtb := Rgtb;
  feqb := Reqb;
  fisfinite := λ _, true;
  zero := 0;
  half := / 2;
  two := 2;
  three := 3;
  ten := 10
|}.




(** Walls used as examples: a lone radial wall at zero, the unit cell, and
    the sphere of radius 2 cut in two along every axis. *)
Definition lone_zero_wall : pyobj R := PyList [0].
Definition unit_walls : pyobj R := PyList [0; 1].
Definition sphere_r_wall : pyobj R := PyList [0; 1; 2].
Definition sphere_t_wall : pyobj R := PyList [0; PI / 2; PI].
Definition sphere_p_wall : pyobj R := PyList [0; PI; 2 * PI].

(** The mesh of the unit cell, and a one-cell array on it. *)
Definition unit_grid : SphericalPolarGrid (F:=R) :=
  walls_set [0; 1] [0; 1] [0; 1] empty_grid.
Definition one_cell (v : R) : ndarray R := NDArray [1; 1; 1]%Z [v].

(** A stand-in for [hashlib] over the reals, which have no bytes: nothing is
    fed and the digest is the MD5 of the empty string. *)
#[export] Instance no_bytes : Hashlib R := {|
  itembytes := λ _, [];
  md5_hexdigest := λ _, "d41d8cd98f00b204e9800998ecf8427e"
|}.

(** Two containers of the unit cell: one tagged as a spherical-polar grid,
    with a fingerprint that is not that of its walls, and one tagged as a
    cartesian grid. *)
Definition sph_pol_container : Group (F:=R) := {|
  Geometry := {| attrs_grid_type := "sph_pol";
                 attrs_geometry := "00000000000000000000000000000000";
                 Walls_1 := PyArray (NDArray [2%Z] [0; 1]);
                 Walls_2 := PyArray (NDArray [2%Z] [0; 1]);
                 Walls_3 := PyArray (NDArray [2%Z] [0; 1]) |};
  Physics := [("density", one_cell 1)]
|}.
Definition car_container : Group (F:=R) := {|
  Geometry := {| attrs_grid_type := "car";
                 attrs_geometry := "00000000000000000000000000000000";
                 Walls_1 := PyArray (NDArray [2%Z] [0; 1]);
                 Walls_2 := PyArray (NDArray [2%Z] [0; 1]);
                 Walls_3 := PyArray (NDArray [2%Z] [0; 1]) |};
  Physics := [("density", one_cell 1)]
|}.

End RealNumbers.

(** ** Numbers as expressions

    The free interpretation: every operation builds the expression it stands
    for, and only numerals are compared.  Over it the methods run inside Rocq
    and show the formula behind every entry. *)

Inductive sym : Type :=
  | SNum (n : Z)
  | SHalf
  | SAdd (e1 e2 : sym)
  | SSub (e1 e2 : sym)
  | SMul (e1 e2 : sym)
  | SDiv (e1 e2 : sym)
  | SPow (e1 e2 : sym)
  | SLog10 (e : sym)
  | SCos (e : sym)
  | SSin (e : sym).

Definition sym_gtb (e1 e2 : sym) : bool :=
  match e1, e2 with SNum n1, SNum n2 => n2 <? n1 | _, _ => false end.
Definition sym_eqb (e1 e2 : sym) : bool :=
  match e1, e2 with SNum n1, SNum n2 => n1 =? n2 | _, _ => false end.
Definition sym_isfinite (e : sym) : bool :=
  match e with SNum _ | SHalf => true | _ => false end.

#[export] Instance sym_ops : FloatOps sym := {|
  fadd := SAdd;
  fsub := SSub;
  fmul := SMul;
  fdiv := SDiv;
  fpow := SPow;
  flog10 := SLog10;
  fcos := SCos;
  fsin := SSin;
  fgtb := sym_gtb;
  feqb := sym_eqb;
  fisfinite := sym_isfinite;
  zero := SNum 0;
  half := SHalf;
  two := SNum 2;
  three := SNum 3;
  ten := SNum 10
|}.

(** Integer walls as a Python list. *)
Definition walls (ns : list Z) : pyobj sym := PyList (SNum <$> ns).

(** ** Numbers as IEEE doubles

    Python's [float] and numpy's [float64] are binary64, the format of
    Rocq's primitive floats, whose arithmetic and comparisons [SpecFloat]
    specifies.  The elementary functions come from the C library, which
    IEEE 754 does not pin down: they are the fields of [Libm]. *)

Class Libm := {
  libm_pow : float → float → float;
  libm_log10 : float → float;
  libm_cos : float → float;
  libm_sin : float → float
}.

#[export] Instance float64_ops `{Libm} : FloatOps float := {|
  fadd := PrimFloat.add;
  fsub := PrimFloat.sub;
  fmul := PrimFloat.mul;
  fdiv := PrimFloat.div;
  fpow := libm_pow;
  flog10 := libm_log10;
  fcos := libm_cos;
  fsin := libm_sin;
  fgtb x y := PrimFloat.ltb y x;
  feqb := PrimFloat.eqb;
  fisfinite := PrimFloat.is_finite;
  zero := 0%float;
  half := 0.5%float;
  two := 2%float;
  three := 3%float;
  ten := 10%float
|}.

(** The specification-level values that are neither NaN nor infinite, and
    the specification-level [2.]. *)
Definition finite_or_zero (x : spec_float) : bool :=
  match x with S754_zero _ | S754_finite _ _ _ => true | _ => false end.

Definition SF_two : spec_float := S754_finite false 4503599627370496 (-51).

(** ** [write] and the container it fills *)

(** What h5py contributes to [write] besides its data model: the exception
    that creating a dataset or a link raises when the name is taken in the
    group; its class has changed between versions of h5py. *)
Class H5py := {
  name_exists : string → exn
}.

(** A Python 2 dictionary iterates in an order the language leaves open:
    [dict_items] is that order, in which every item comes once. *)
Class PyDict := {
  dict_items : ∀ {A}, gmap string A → list (string * A);
  dict_items_perm : ∀ A (m : gmap string A), dict_items m ≡ₚ map_to_list m
}.

Section Writing.
Context {F : Type} `{FloatOps F} `{Hashlib F} `{H5py} `{PyDict}.

(** The data handed to [create_dataset]: for a wall, the one-field records
    [np.array(zip(wall), dtype=[(field, wall_dtype)])] ([zip] is Python 2's,
    the list of 1-tuples); for a quantity, the value with the requested
    [dtype].  The conversion to the dtype is not computed. *)
Inductive h5data : Type :=
  | Records (field dtype : string) (column : list F)
  | Values (value : qvalue (F:=F)) (dtype : string).

Record h5dataset : Type := {
  ds_data : h5data;
  ds_compression : bool;
  ds_attrs : gmap string string
}.

(** A member of the physics or the geometry group: a dataset, or what
    [link_or_copy] leaves. *)
Inductive h5member : Type :=
  | Dataset (d : h5dataset)
  | Copied (filename path : string)
  | Linked (filename path : string) (absolute_paths : bool).

Record h5group : Type := {
  h5_attrs : gmap string string;
  h5_members : gmap string h5member
}.

Definition new_group : h5group := {| h5_attrs := ∅; h5_members := ∅ |}.

(** The group [write] is given, as far as [write] looks at it: its members
    'Geometry' and 'Physics', when it has them, each a group. *)
Record h5root : Type := {
  root_Geometry : option h5group;
  root_Physics : option h5group
}.

(** [grp.attrs[key] = value]. *)
Definition attrs_set (key value : string) (grp : h5group) : h5group :=
  {| h5_attrs := <[key := value]> (h5_attrs grp); h5_members := h5_members grp |}.

(** [grp.create_dataset(name, data=data, compression=compression)]. *)
Definition create_dataset (name : string) (data : h5data) (compression : bool)
    (grp : h5group) : h5group * outcome unit :=
  if bool_decide (is_Some (h5_members grp !! name))
  then (grp, Raise (name_exists name))
  else ({| h5_attrs := h5_attrs grp;
           h5_members :=
             <[name := Dataset {| ds_data := data; ds_compression := compression;
                                  ds_attrs := ∅ |}]> (h5_members grp) |},
        Return tt).

(** [dset.attrs[key] = value] on the dataset just created under [name]. *)
Definition dset_attrs_set (name key value : string) (grp : h5group) : h5group :=
  {| h5_attrs := h5_attrs grp;
     h5_members :=
       alter (λ member,
                match member with
                | Dataset d =>
                    Dataset {| ds_data := ds_data d;
                               ds_compression := ds_compression d;
                               ds_attrs := <[key := value]> (ds_attrs d) |}
                | _ => member
                end) name (h5_members grp) |}.

(** Modelled from the spec: [link_or_copy] of hyperion.util.functions is not
    in the source file; the spec has a deferred reference resolved "according
    to copyPolicy (copy bytes vs. link to source) rather than materializing it
    in memory".  Either way a member is created under [name], which h5py
    refuses when the name is taken. *)
Definition link_or_copy (name filename path : string) (copy absolute_paths : bool)
    (grp : h5group) : h5group * outcome unit :=
  if bool_decide (is_Some (h5_members grp !! name))
  then (grp, Raise (name_exists name))
  else ({| h5_attrs := h5_attrs grp;
           h5_members :=
             <[name := if copy then Copied filename path
                       else Linked filename path absolute_paths]>
               (h5_members grp) |},
        Return tt).

(** The objects [write] works on once the two groups are at hand: the mesh
    and the local names [g_geometry] and [g_physics]. *)
Record writing : Type := {
  self_ : SphericalPolarGrid (F:=F);
  g_geometry : h5group;
  g_physics : h5group
}.

Definition on_self {A} (c : M (SphericalPolarGrid (F:=F)) A) : M writing A :=
  λ w, let '(self', o) := c (self_ w) in
       ({| self_ := self'; g_geometry := g_geometry w; g_physics := g_physics w |}, o).
Definition on_geometry {A} (c : h5group → h5group * outcome A) : M writing A :=
  λ w, let '(grp, o) := c (g_geometry w) in
       ({| self_ := self_ w; g_geometry := grp; g_physics := g_physics w |}, o).
Definition on_physics {A} (c : h5group → h5group * outcome A) : M writing A :=
  λ w, let '(grp, o) := c (g_physics w) in
       ({| self_ := self_ w; g_geometry := g_geometry w; g_physics := grp |}, o).
Definition assign (f : h5group → h5group) (grp : h5group) : h5group * outcome unit :=
  (f grp, Return tt).

(** Lines 264-265, and the same for the two other walls. *)
Definition write_wall (name field : string) (wall : option (list F))
    (compression : bool) (wall_dtype : string) : M writing unit :=
  match wall with
  | Some column =>
      on_geometry (create_dataset name (Records field wall_dtype column) compression);;
      on_geometry (assign (dset_attrs_set name "Unit" "cm"))
  | None => raise (TypeError "zip argument #1 must support iteration")
  end.

(** The loop of lines 275-284, over the items of [self.quantities]. *)
Fixpoint write_quantities (items : list (string * qvalue (F:=F)))
    (quantities_ : selector) (copy absolute_paths compression : bool)
    (physics_dtype : string) : M writing unit :=
  match items with
  | [] => mret tt
  | (quantity, value) :: rest =>
      (if selected quantities_ quantity then
         match value with
         | QLink filename path =>
             on_physics (link_or_copy quantity filename path copy absolute_paths)
         | _ =>
             on_self (_check_array_dimensions value);;
             on_physics (create_dataset quantity (Values value physics_dtype)
                           compression);;
             geometry_id ← on_self get_geometry_id;
             on_physics (assign (dset_attrs_set quantity "geometry" geometry_id))
         end
       else mret tt);;
      write_quantities rest quantities_ copy absolute_paths compression physics_dtype
  end.

(** Lines 259-284. *)
Definition write_body (quantities_ : selector)
    (copy absolute_paths compression : bool) (wall_dtype physics_dtype : string)
  : M writing unit :=
  (* Write out geometry *)
  on_geometry (assign (attrs_set "grid_type" "sph_pol"));;
  geometry_id ← on_self get_geometry_id;
  on_geometry (assign (attrs_set "geometry" geometry_id));;

  w ← get;
  write_wall "Walls 1" "r" (r_wall (self_ w)) compression wall_dtype;;
  write_wall "Walls 2" "t" (t_wall (self_ w)) compression wall_dtype;;
  write_wall "Walls 3" "p" (p_wall (self_ w)) compression wall_dtype;;

  (* Write out physical quantities *)
  write_quantities (dict_items (quantities (self_ w))) quantities_
    copy absolute_paths compression physics_dtype.

(** [write] (lines 228-284): the two groups are created when the container
    does not have them, and are the container's from then on, whatever
    happens next. *)
Definition write (quantities_ : selector)
    (copy absolute_paths compression : bool) (wall_dtype physics_dtype : string)
  : M (SphericalPolarGrid (F:=F) * h5root) unit :=
  λ '(self, group),
    (* Create HDF5 groups if needed *)
    let '(w, o) :=
      write_body quantities_ copy absolute_paths compression wall_dtype physics_dtype
        {| self_ := self;
           g_geometry := default new_group (root_Geometry group);
           g_physics := default new_group (root_Physics group) |} in
    ((self_ w, {| root_Geometry := Some (g_geometry w);
                  root_Physics := Some (g_physics w) |}), o).

(** *** What [write] leaves, in closed form *)

Definition with_geometry (geo : h5group) (w : writing) : writing :=
  {| self_ := self_ w; g_geometry := geo; g_physics := g_physics w |}.
Definition with_physics (phys : h5group) (w : writing) : writing :=
  {| self_ := self_ w; g_geometry := g_geometry w; g_physics := phys |}.
Definition with_members (members : gmap string h5member) (grp : h5group) : h5group :=
  {| h5_attrs := h5_attrs grp; h5_members := members |}.

(** The dataset of a wall (lines 264-271) and what a selected quantity
    becomes (lines 277-284). *)
Definition wall_dataset (field wall_dtype : string) (column : list F)
    (compression : bool) : h5member :=
  Dataset {| ds_data := Records field wall_dtype column;
             ds_compression := compression;
             ds_attrs := {["Unit" := "cm"]} |}.

Definition quantity_member (value : qvalue (F:=F)) (geometry_id : string)
    (copy absolute_paths compression : bool) (physics_dtype : string) : h5member :=
  match value with
  | QLink filename path =>
      if copy then Copied filename path else Linked filename path absolute_paths
  | _ =>
      Dataset {| ds_data := Values value physics_dtype;
                 ds_compression := compression;
                 ds_attrs := {["geometry" := geometry_id]} |}
  end.

(** The geometry group after lines 261-271. *)
Definition written_geometry (geometry_id wall_dtype : string) (compression : bool)
    (x y z : list F) (geo : h5group) : h5group :=
  {| h5_attrs := <["geometry" := geometry_id]>
                   (<["grid_type" := "sph_pol"]> (h5_attrs geo));
     h5_members :=
       <["Walls 3" := wall_dataset "p" wall_dtype z compression]>
         (<["Walls 2" := wall_dataset "t" wall_dtype y compression]>
            (<["Walls 1" := wall_dataset "r" wall_dtype x compression]>
               (h5_members geo))) |}.

(** The members of the physics group after the loop. *)
Definition written_members (items : list (string * qvalue (F:=F)))
    (quantities_ : selector) (geometry_id : string)
    (copy absolute_paths compression : bool) (physics_dtype : string)
    (members : gmap string h5member) : gmap string h5member :=
  foldl (λ acc item,
           if selected quantities_ item.1
           then <[item.1 := quantity_member item.2 geometry_id copy absolute_paths
                              compression physics_dtype]> acc
           else acc) members items.

(** A quantity that [write] can write: a link, or a value that passes
    [_check_array_dimensions]. *)
Definition writable (g : SphericalPolarGrid (F:=F)) (value : qvalue (F:=F)) : Prop :=
  (∃ filename path, value = QLink filename path) ∨
  run (_check_array_dimensions value) g = (g, Return tt).

(** What makes [write] return: the walls are set, the names of the three
    wall datasets are free in the geometry group, and every selected quantity
    has its name free in the physics group and is writable. *)
Definition can_write (quantities_ : selector) (g : SphericalPolarGrid (F:=F))
    (group : h5root) : Prop :=
  is_Some (r_wall g) ∧ is_Some (t_wall g) ∧ is_Some (p_wall g) ∧
  h5_members (default new_group (root_Geometry group)) !! "Walls 1" = None ∧
  h5_members (default new_group (root_Geometry group)) !! "Walls 2" = None ∧
  h5_members (default new_group (root_Geometry group)) !! "Walls 3" = None ∧
  (∀ quantity value,
     quantities g !! quantity = Some value → selected quantities_ quantity = true →
     h5_members (default new_group (root_Physics group)) !! quantity = None ∧
     writable g value).

(** A step of [write] that leaves the mesh alone. *)
Definition keeps_self {A} (c : M writing A) : Prop :=
  ∀ w, self_ (c w).1 = self_ w.

End Writing.

(** *** Examples *)

Section MoreExamples.
Local Open Scope R_scope.

(** h5py 3 raises [ValueError] on a name that exists, and a dictionary read
    in the order of its keys. *)
#[export] Instance h5py_3 : H5py := {|
  name_exists := λ name, ValueError "Unable to create dataset (name already exists)"
|}.

#[export] Instance key_order : PyDict := {|
  dict_items := λ A, map_to_list;
  dict_items_perm := λ A m, Permutation_refl (map_to_list m)
|}.

(** The sphere of radius 2 as a mesh, the unit cell with a density, with a
    density of the wrong shape and before its walls are set, and a container
    with nothing in it. *)
Definition sphere_grid : SphericalPolarGrid (F:=R) :=
  walls_set [0; 1; 2] [0; PI / 2; PI] [0; PI; 2 * PI] empty_grid.
Definition density_grid : SphericalPolarGrid (F:=R) :=
  set_quantities {["density" := QArray (one_cell 1)]} unit_grid.
Definition misshapen_grid : SphericalPolarGrid (F:=R) :=
  set_quantities {["density" := QArray (NDArray [2; 1; 1]%Z [1; 2])]} unit_grid.
Definition unset_grid : SphericalPolarGrid (F:=R) :=
  set_quantities {["density" := QArray (one_cell 1)]} empty_grid.
Definition empty_container : h5root (F:=R) :=
  {| root_Geometry := None; root_Physics := None |}.

(** Walls of doubles: the unit cell, radial walls that double, a radial
    outer wall at infinity, and two finite azimuthal walls, -2**1023 and
    2**1023, whose distance is above every finite double. *)
Definition unit_walls64 : pyobj float := PyList [0; 1]%float.
Definition doubling_walls : pyobj float := PyList [1; 2; 4]%float.
Definition outer_wall_at_infinity : pyobj float := PyList [0; infinity]%float.

(** A C library none of whose elementary functions is available: each
    returns NaN.  [set_walls] runs with it, and what it computes without them
    is as with any other. *)
Definition nan_libm : Libm := {|
  libm_pow := λ _ _, PrimFloat.nan;
  libm_log10 := λ _, PrimFloat.nan;
  libm_cos := λ _, PrimFloat.nan;
  libm_sin := λ _, PrimFloat.nan
|}.

End MoreExamples.

(** * Properties *)

(** ** Running the methods *)

Section Running.
Context {F : Type} `{FloatOps F}.
Implicit Types (g : SphericalPolarGrid (F:=F)) (a b c : pyobj F).

Lemma values_converted a :
  values (if is_list_or_tuple a then np_array a else a) = values a.
Proof. by destruct a. Qed.

Lemma length_but_last (l : list F) : length (but_last l) = (length l - 1)%nat.
Proof. unfold but_last. rewrite length_take. lia. Qed.

Lemma length_from_1 (l : list F) : length (from_1 l) = (length l - 1)%nat.
Proof. unfold from_1. by rewrite length_drop. Qed.

Lemma length_log_centers (l : list F) : length (log_centers l) = (length l - 1)%nat.
Proof.
  unfold log_centers.
  rewrite !length_fmap, length_zip_with, !length_fmap, length_but_last, length_from_1.
  lia.
Qed.

Lemma length_mid_centers (l : list F) : length (mid_centers l) = (length l - 1)%nat.
Proof.
  unfold mid_centers.
  rewrite length_fmap, length_zip_with, length_but_last, length_from_1. lia.
Qed.

Lemma raise_if_true_bind {S B} e (k : unit → M S B) s :
  (raise_if true e ≫= k) s = (s, Raise e).
Proof. done. Qed.

Lemma raise_if_false_bind {S B} e (k : unit → M S B) s :
  (raise_if false e ≫= k) s = k tt s.
Proof. done. Qed.

Lemma modify_bind_eq {S B} (f : S → S) (k : unit → M S B) s :
  (modify f ≫= k) s = k tt (f s).
Proof. done. Qed.

Lemma getitem_bind_eq {S B} (l : list F) i (k : F → M S B) s :
  (getitem l i ≫= k) s =
  match l !! i with
  | Some x => k x s
  | None => (s, Raise (IndexError "index out of bounds"))
  end.
Proof. unfold getitem. by destruct (l !! i). Qed.

Lemma bind_eq {S A B} (m : M S A) (k : A → M S B) s :
  (m ≫= k) s =
  match m s with
  | (s', Return x) => k x s'
  | (s', Raise e) => (s', Raise e)
  end.
Proof. done. Qed.

Lemma np_zeros_check_bind_eq {S B} dims (k : unit → M S B) s :
  (np_zeros_check dims ≫= k) s =
  if forallb (λ d, 0 <=? d) dims then k tt s
  else (s, Raise (ValueError "negative dimensions are not allowed")).
Proof. unfold np_zeros_check. by destruct (forallb _ dims). Qed.

Lemma setitem_areas_bind_eq {B} f x (k : unit → M (SphericalPolarGrid (F:=F)) B) g :
  (setitem_areas f x ≫= k) g =
  k tt (set_areas ((λ arr, <[f:=x]> arr) <$> areas g) g).
Proof. done. Qed.

Lemma setitem_widths_bind_eq {B} f x (k : unit → M (SphericalPolarGrid (F:=F)) B) g :
  (setitem_widths f x ≫= k) g =
  k tt (set_widths ((λ arr, <[f:=x]> arr) <$> widths g) g).
Proof. done. Qed.

Lemma dims_check (n : Z) (dims : list Z) :
  0 <= n →
  forallb (λ d, 0 <=? d) (n :: dims) = forallb (λ d, 0 <=? d) dims.
Proof. intros Hn. simpl. by apply Z.leb_le in Hn as ->. Qed.

Lemma is_1d_cond a :
  negb (is_numpy_array (if is_list_or_tuple a then np_array a else a))
  || negb (ndim (if is_list_or_tuple a then np_array a else a) =? 1)
  = negb (is_1d a).
Proof. unfold is_1d. by rewrite negb_andb. Qed.

Lemma lookup_1_length (l : list F) : is_Some (l !! 1%nat) → (0 < length l - 1)%nat.
Proof. intros [x Hx]. apply lookup_lt_Some in Hx. lia. Qed.

(** Lines 83-84, run on the object line 82 leaves. *)
Lemma special_case_run (r_wall : list F) r_wall_0 g :
  r_wall !! 0%nat = Some r_wall_0 →
  (if feqb r_wall_0 zero
   then r_wall_1 ← getitem r_wall 1; setitem_r 0 (fdiv r_wall_1 two)
   else mret tt) (set_r (Some (log_centers r_wall)) g) =
  if feqb r_wall_0 zero && negb (bool_decide (is_Some (r_wall !! 1%nat)))
  then (set_r (Some (log_centers r_wall)) g,
        Raise (IndexError "index out of bounds"))
  else (set_r (Some (centers_r r_wall)) g, Return tt).
Proof.
  intros H0. unfold centers_r. rewrite H0.
  destruct (feqb r_wall_0 zero); simpl.
  - rewrite getitem_bind_eq.
    destruct (r_wall !! 1%nat) as [r_wall_1|] eqn:H1.
    + rewrite bool_decide_true by eauto. simpl.
      unfold setitem_r. rewrite bind_eq. simpl.
      rewrite bool_decide_true; [done|].
      rewrite length_log_centers. apply lookup_1_length. eauto.
    + rewrite bool_decide_false; [done|]. by intros [? ?].
  - by destruct (r_wall !! 1%nat).
Qed.

(** The whole of [set_walls], outcome by outcome. *)
Lemma set_walls_run a b c g :
  run (set_walls a b c) g =
  match first_failed_check a b c with
  | Some e => (g, Raise e)
  | None =>
      match values a !! 0%nat with
      | None => (raised_at_centers (values a) (values b) (values c) g,
                 Raise (IndexError "index out of bounds"))
      | Some r_wall_0 =>
          if feqb r_wall_0 zero && negb (bool_decide (is_Some (values a !! 1%nat)))
          then (raised_at_centers (values a) (values b) (values c) g,
                Raise (IndexError "index out of bounds"))
          else if forallb (λ d, 0 <=? d)
                    [len (values c) - 1; len (values b) - 1; len (values a) - 1]
          then (walls_set (values a) (values b) (values c) g, Return tt)
          else (raised_at_areas (values a) (values b) (values c) g,
                Raise (ValueError "negative dimensions are not allowed"))
      end
  end.
Proof.
  unfold set_walls, run, first_failed_check. cbv zeta.
  rewrite !values_converted, !is_1d_cond.
  destruct (negb (is_1d a)); [reflexivity|]. rewrite raise_if_false_bind.
  destruct (negb (is_1d b)); [reflexivity|]. rewrite raise_if_false_bind.
  destruct (negb (is_1d c)); [reflexivity|]. rewrite raise_if_false_bind.
  destruct (negb (monotonically_increasing (values a))); [reflexivity|].
  rewrite raise_if_false_bind.
  destruct (negb (monotonically_increasing (values b))); [reflexivity|].
  rewrite raise_if_false_bind.
  destruct (negb (monotonically_increasing (values c))); [reflexivity|].
  rewrite raise_if_false_bind.
  rewrite !modify_bind_eq.
  rewrite getitem_bind_eq.
  destruct (values a !! 0%nat) as [r_wall_0|] eqn:H0; [|reflexivity].
  rewrite bind_eq.
  change ((λ e : F, fpow ten e) <$> _) with (log_centers (values a)).
  rewrite (special_case_run _ _ _ H0).
  destruct (feqb r_wall_0 zero && negb (bool_decide (is_Some (values a !! 1%nat))));
    [reflexivity|].
  rewrite !modify_bind_eq, bind_eq.
  unfold getattr_r. rewrite bind_eq. cbn [get r set_p set_t set_r].
  cbn [mret M_ret ret].
  fold (mid_centers (values b)) (mid_centers (values c)).
  destruct (meshgrid_nd (centers_r (values a)) _ _) as [[gr_ gt_] gp_] eqn:Hm.
  rewrite !modify_bind_eq.
  destruct (meshgrid_nd (but_last _) _ _) as [[gr_wall_min gt_wall_min] gp_wall_min] eqn:Hmin.
  destruct (meshgrid_nd (from_1 _) _ _) as [[gr_wall_max gt_wall_max] gp_wall_max] eqn:Hmax.
  rewrite modify_bind_eq, np_zeros_check_bind_eq.
  rewrite (dims_check 6) by done.
  destruct (forallb (λ d, 0 <=? d) _) eqn:Hdims; [|].
  - rewrite modify_bind_eq, !setitem_areas_bind_eq, np_zeros_check_bind_eq.
    rewrite (dims_check 3), Hdims by done.
    rewrite modify_bind_eq, !setitem_widths_bind_eq.
    unfold setitem_widths, modify. f_equal.
    unfold walls_set, volumes_of, areas_of, widths_of, v_dr, v_dr2, v_dr3,
      v_dt, v_dcost, v_dp, g_centers, g_wall_min, g_wall_max.
    rewrite Hm, Hmin, Hmax. reflexivity.
  - f_equal.
    unfold raised_at_areas, volumes_of, v_dr3, v_dcost, v_dp, g_centers,
      g_wall_min, g_wall_max.
    rewrite Hm, Hmin, Hmax. reflexivity.
Qed.

Lemma first_failed_check_None a b c :
  first_failed_check a b c = None ↔ valid_walls a b c = true.
Proof.
  unfold first_failed_check, valid_walls.
  destruct (is_1d a), (is_1d b), (is_1d c), (monotonically_increasing (values a)),
    (monotonically_increasing (values b)), (monotonically_increasing (values c));
    simpl; split; congruence.
Qed.

Lemma first_failed_check_Some a b c e :
  first_failed_check a b c = Some e → ∃ msg, e = ValueError msg.
Proof.
  unfold first_failed_check.
  repeat (case_match; [intros [= <-]; eauto|]). done.
Qed.

(** A call that returns has passed every check, found the elements lines 83
    and 84 index, and left the object [walls_set]. *)
Lemma set_walls_Return a b c g g' :
  run (set_walls a b c) g = (g', Return tt) →
  valid_walls a b c = true ∧
  (∃ r_wall_0, values a !! 0%nat = Some r_wall_0 ∧
     (feqb r_wall_0 zero = true → is_Some (values a !! 1%nat))) ∧
  (0 < length (values b))%nat ∧ (0 < length (values c))%nat ∧
  g' = walls_set (values a) (values b) (values c) g.
Proof.
  rewrite set_walls_run.
  destruct (first_failed_check a b c) eqn:Hcheck; [done|].
  apply first_failed_check_None in Hcheck.
  destruct (values a !! 0%nat) as [r_wall_0|] eqn:H0; [|done].
  destruct (feqb r_wall_0 zero && _) eqn:Hspecial; [done|].
  destruct (forallb _ _) eqn:Hdims; [|done].
  intros [= <-]. split_and!; [done| |..|done].
  - exists r_wall_0. split; [done|]. intros Hz. rewrite Hz in Hspecial.
    simpl in Hspecial. apply negb_false_iff, bool_decide_eq_true in Hspecial. done.
  - simpl in Hdims. unfold len in Hdims. apply andb_prop in Hdims as [_ Hdims].
    apply andb_prop in Hdims as [Hdims _]. lia.
  - simpl in Hdims. unfold len in Hdims. apply andb_prop in Hdims as [Hdims _]. lia.
Qed.

(** Walls that pass the checks, with a second radial wall when the first is
    zero and at least one polar and one azimuthal wall, make the call return. *)
Lemma set_walls_succeeds a b c g r_wall_0 :
  valid_walls a b c = true →
  values a !! 0%nat = Some r_wall_0 →
  (feqb r_wall_0 zero = true → is_Some (values a !! 1%nat)) →
  (0 < length (values b))%nat → (0 < length (values c))%nat →
  run (set_walls a b c) g = (walls_set (values a) (values b) (values c) g, Return tt).
Proof.
  intros Hvalid H0 Hsecond Hb Hc. rewrite set_walls_run.
  apply first_failed_check_None in Hvalid. rewrite Hvalid, H0.
  assert (feqb r_wall_0 zero && negb (bool_decide (is_Some (values a !! 1%nat)))
          = false) as ->.
  { destruct (feqb r_wall_0 zero); [|done]. simpl.
    by rewrite bool_decide_true by auto. }
  assert (forallb (λ d, 0 <=? d)
            [len (values c) - 1; len (values b) - 1; len (values a) - 1] = true)
    as ->; [|done].
  apply lookup_lt_Some in H0. unfold len. simpl.
  rewrite !andb_true_iff, !Z.leb_le. lia.
Qed.

(** Walls that fail a check raise [ValueError] and leave the object as it
    was. *)
Lemma set_walls_invalid a b c g :
  valid_walls a b c = false →
  ∃ msg, run (set_walls a b c) g = (g, Raise (ValueError msg)).
Proof.
  intros Hinvalid. rewrite set_walls_run.
  destruct (first_failed_check a b c) as [e|] eqn:Hcheck.
  - apply first_failed_check_Some in Hcheck as [msg ->]. eauto.
  - apply first_failed_check_None in Hcheck. congruence.
Qed.

(** Whatever the outcome, the quantities are those of before the call. *)
Lemma set_walls_quantities a b c g :
  quantities (run (set_walls a b c) g).1 = quantities g.
Proof.
  rewrite set_walls_run. repeat case_match; done.
Qed.

End Running.

(** ** Elements and shapes of the derived arrays *)

Section Geometry.
Context {F : Type} `{FloatOps F}.
Implicit Types (g : SphericalPolarGrid (F:=F)) (a b c : pyobj F).
Implicit Types (x y z l : list F) (u v : array3 F).

Lemma get3_map3 (f : F → F) u k j i :
  get3 (map3 f u) k j i = f <$> get3 u k j i.
Proof.
  unfold get3, map3. rewrite list_lookup_fmap.
  destruct (u !! k) as [plane|]; [|done]. simpl.
  rewrite list_lookup_fmap. destruct (plane !! j) as [row|]; [|done]. simpl.
  by rewrite list_lookup_fmap.
Qed.

Lemma get3_zip3 (f : F → F → F) u v k j i :
  get3 (zip3 f u v) k j i =
  get3 u k j i ≫= λ s, get3 v k j i ≫= λ s', Some (f s s').
Proof.
  unfold get3, zip3. rewrite lookup_zip_with.
  destruct (u !! k) as [pu|], (v !! k) as [pv|]; simpl; try done.
  - rewrite lookup_zip_with.
    destruct (pu !! j) as [ru|], (pv !! j) as [rv|]; simpl; try done.
    + rewrite lookup_zip_with. by destruct (ru !! i), (rv !! i).
    + by destruct (ru !! i).
  - destruct (pu !! j) as [ru|]; simpl; [|done]. by destruct (ru !! i).
Qed.

Lemma get3_meshgrid_x x y z k j i :
  z !! k ≠ None → y !! j ≠ None →
  get3 (meshgrid_nd x y z).1.1 k j i = x !! i.
Proof.
  intros Hk Hj. unfold get3, meshgrid_nd. simpl.
  rewrite list_lookup_fmap. destruct (z !! k); [|done]. simpl.
  rewrite list_lookup_fmap. by destruct (y !! j).
Qed.

Lemma get3_meshgrid_y x y z k j i yj :
  z !! k ≠ None → y !! j = Some yj → x !! i ≠ None →
  get3 (meshgrid_nd x y z).1.2 k j i = Some yj.
Proof.
  intros Hk Hj Hi. unfold get3, meshgrid_nd. simpl.
  rewrite list_lookup_fmap. destruct (z !! k); [|done]. simpl.
  rewrite list_lookup_fmap, Hj. simpl.
  rewrite list_lookup_fmap. by destruct (x !! i).
Qed.

Lemma get3_meshgrid_z x y z k j i zk :
  z !! k = Some zk → y !! j ≠ None → x !! i ≠ None →
  get3 (meshgrid_nd x y z).2 k j i = Some zk.
Proof.
  intros Hk Hj Hi. unfold get3, meshgrid_nd. simpl.
  rewrite list_lookup_fmap, Hk. simpl.
  rewrite list_lookup_fmap. destruct (y !! j); [|done]. simpl.
  rewrite list_lookup_fmap. by destruct (x !! i).
Qed.

Lemma lookup_but_last l i s s' :
  l !! i = Some s → l !! S i = Some s' → but_last l !! i = Some s.
Proof.
  intros Hi HS. unfold but_last. rewrite lookup_take_lt; [done|].
  apply lookup_lt_Some in HS. lia.
Qed.

Lemma lookup_from_1 l i : from_1 l !! i = l !! S i.
Proof. unfold from_1. by rewrite lookup_drop. Qed.

Lemma has_shape3_map3 (f : F → F) u n_p n_t n_r :
  has_shape3 u n_p n_t n_r → has_shape3 (map3 f u) n_p n_t n_r.
Proof.
  unfold has_shape3, map3. intros [Hlen Hall]. split; [by rewrite length_fmap|].
  apply Forall_fmap. eapply Forall_impl; [done|]. simpl.
  intros plane [Hplane Hrows]. split; [by rewrite length_fmap|].
  apply Forall_fmap. eapply Forall_impl; [done|]. simpl.
  intros row Hrow. by rewrite length_fmap.
Qed.

Lemma has_shape3_zip3 (f : F → F → F) u v n_p n_t n_r :
  has_shape3 u n_p n_t n_r → has_shape3 v n_p n_t n_r →
  has_shape3 (zip3 f u v) n_p n_t n_r.
Proof.
  unfold has_shape3, zip3. intros [Hlu Hu] [Hlv Hv]. split.
  { rewrite length_zip_with. lia. }
  apply Forall_lookup. intros k plane Hk.
  apply lookup_zip_with_Some in Hk as (pu & pv & -> & Hpu & Hpv).
  rewrite Forall_lookup in Hu, Hv.
  destruct (Hu _ _ Hpu) as [Hlpu Hru], (Hv _ _ Hpv) as [Hlpv Hrv]. split.
  { rewrite length_zip_with. lia. }
  apply Forall_lookup. intros j row Hj.
  apply lookup_zip_with_Some in Hj as (ru & rv & -> & Hru' & Hrv').
  rewrite Forall_lookup in Hru, Hrv.
  rewrite length_zip_with, (Hru _ _ Hru'), (Hrv _ _ Hrv'). lia.
Qed.

Lemma has_shape3_meshgrid x y z :
  let m := meshgrid_nd x y z in
  has_shape3 m.1.1 (length z) (length y) (length x) ∧
  has_shape3 m.1.2 (length z) (length y) (length x) ∧
  has_shape3 m.2 (length z) (length y) (length x).
Proof.
  unfold has_shape3, meshgrid_nd. cbn [fst snd].
  split_and!; rewrite ?length_fmap; try done;
    (apply Forall_fmap, Forall_true; intros ?; unfold compose;
     split; [by rewrite length_fmap|];
     apply Forall_fmap, Forall_true; intros ?; unfold compose;
     by rewrite ?length_fmap).
Qed.

Lemma has_shape3_wall_min x y z :
  let m := g_wall_min x y z in
  let n_r := (length x - 1)%nat in
  let n_t := (length y - 1)%nat in
  let n_p := (length z - 1)%nat in
  has_shape3 m.1.1 n_p n_t n_r ∧ has_shape3 m.1.2 n_p n_t n_r ∧
  has_shape3 m.2 n_p n_t n_r.
Proof.
  pose proof (has_shape3_meshgrid (but_last x) (but_last y) (but_last z)) as Hm.
  by rewrite !length_but_last in Hm.
Qed.

Lemma has_shape3_wall_max x y z :
  let m := g_wall_max x y z in
  let n_r := (length x - 1)%nat in
  let n_t := (length y - 1)%nat in
  let n_p := (length z - 1)%nat in
  has_shape3 m.1.1 n_p n_t n_r ∧ has_shape3 m.1.2 n_p n_t n_r ∧
  has_shape3 m.2 n_p n_t n_r.
Proof.
  pose proof (has_shape3_meshgrid (from_1 x) (from_1 y) (from_1 z)) as Hm.
  by rewrite !length_from_1 in Hm.
Qed.

(** The six wall fields at a cell whose walls exist. *)
Section Cell.
Variables (x y z : list F) (k j i : nat).
Variables (ri ri1 tj tj1 pk pk1 : F).
Hypothesis (Hri : x !! i = Some ri) (Hri1 : x !! S i = Some ri1).
Hypothesis (Htj : y !! j = Some tj) (Htj1 : y !! S j = Some tj1).
Hypothesis (Hpk : z !! k = Some pk) (Hpk1 : z !! S k = Some pk1).

Lemma cell_min :
  get3 (g_wall_min x y z).1.1 k j i = Some ri ∧
  get3 (g_wall_min x y z).1.2 k j i = Some tj ∧
  get3 (g_wall_min x y z).2 k j i = Some pk.
Proof using All.
  pose proof (lookup_but_last _ _ _ _ Hri Hri1) as Hx.
  pose proof (lookup_but_last _ _ _ _ Htj Htj1) as Hy.
  pose proof (lookup_but_last _ _ _ _ Hpk Hpk1) as Hz.
  unfold g_wall_min. split_and!.
  - rewrite get3_meshgrid_x; congruence.
  - apply get3_meshgrid_y; congruence.
  - apply get3_meshgrid_z; congruence.
Qed.

Lemma cell_max :
  get3 (g_wall_max x y z).1.1 k j i = Some ri1 ∧
  get3 (g_wall_max x y z).1.2 k j i = Some tj1 ∧
  get3 (g_wall_max x y z).2 k j i = Some pk1.
Proof using All.
  unfold g_wall_max. split_and!.
  - rewrite get3_meshgrid_x; rewrite ?lookup_from_1; congruence.
  - apply get3_meshgrid_y; rewrite ?lookup_from_1; congruence.
  - apply get3_meshgrid_z; rewrite ?lookup_from_1; congruence.
Qed.

Lemma cell_dr3 :
  get3 (v_dr3 x y z) k j i = Some (fsub (fpow ri1 three) (fpow ri three)).
Proof using All.
  destruct cell_min as (Hm & _), cell_max as (HM & _).
  unfold v_dr3. by rewrite get3_zip3, !get3_map3, Hm, HM.
Qed.

Lemma cell_dr2 :
  get3 (v_dr2 x y z) k j i = Some (fsub (fpow ri1 two) (fpow ri two)).
Proof using All.
  destruct cell_min as (Hm & _), cell_max as (HM & _).
  unfold v_dr2. by rewrite get3_zip3, !get3_map3, Hm, HM.
Qed.

Lemma cell_dcost :
  get3 (v_dcost x y z) k j i = Some (fsub (fcos tj) (fcos tj1)).
Proof using All.
  destruct cell_min as (_ & Hm & _), cell_max as (_ & HM & _).
  unfold v_dcost. by rewrite get3_zip3, !get3_map3, Hm, HM.
Qed.

Lemma cell_dt : get3 (v_dt x y z) k j i = Some (fsub tj1 tj).
Proof using All.
  destruct cell_min as (_ & Hm & _), cell_max as (_ & HM & _).
  unfold v_dt. by rewrite get3_zip3, Hm, HM.
Qed.

Lemma cell_dp : get3 (v_dp x y z) k j i = Some (fsub pk1 pk).
Proof using All.
  destruct cell_min as (_ & _ & Hm), cell_max as (_ & _ & HM).
  unfold v_dp. by rewrite get3_zip3, Hm, HM.
Qed.

Lemma cell_volume :
  get3 (volumes_of x y z) k j i =
  Some (fdiv (fmul (fmul (fsub (fpow ri1 three) (fpow ri three))
                         (fsub (fcos tj) (fcos tj1)))
                   (fsub pk1 pk))
             three).
Proof using All.
  unfold volumes_of.
  by rewrite get3_map3, !get3_zip3, cell_dr3, cell_dcost, cell_dp.
Qed.

End Cell.

Lemma has_shape3_volumes x y z :
  has_shape3 (volumes_of x y z)
    (length z - 1) (length y - 1) (length x - 1).
Proof.
  destruct (has_shape3_wall_min x y z) as (? & ? & ?).
  destruct (has_shape3_wall_max x y z) as (? & ? & ?).
  unfold volumes_of, v_dr3, v_dcost, v_dp.
  repeat first [apply has_shape3_map3 | apply has_shape3_zip3]; done.
Qed.

Lemma has_shape3_areas x y z :
  Forall (λ face, has_shape3 face (length z - 1) (length y - 1) (length x - 1))
    (areas_of x y z).
Proof.
  destruct (has_shape3_wall_min x y z) as (? & ? & ?).
  destruct (has_shape3_wall_max x y z) as (? & ? & ?).
  unfold areas_of, v_dr2, v_dcost, v_dp, v_dt.
  repeat apply Forall_cons_2; [..|apply Forall_nil_2];
    repeat first [apply has_shape3_map3 | apply has_shape3_zip3]; done.
Qed.

(** C1. For every triple of walls that [set_walls] accepts, [volumes] is
    afterwards a 3-D array of shape (np, nt, nr), with np, nt, nr one less
    than the numbers of azimuthal, polar and radial walls, and its element
    (k, j, i) is
    (r_wall[i+1]**3 - r_wall[i]**3) * (cos t_wall[j] - cos t_wall[j+1])
      * (p_wall[k+1] - p_wall[k]) / 3,
    the volume of the wedge between those walls. *)
Theorem volumes_exact_wedge a b c g g' :
  run (set_walls a b c) g = (g', Return tt) →
  ∃ vol,
    volumes g' = Some vol ∧
    shape g' = Some [len (values c) - 1; len (values b) - 1; len (values a) - 1] ∧
    has_shape3 vol (length (values c) - 1) (length (values b) - 1)
                   (length (values a) - 1) ∧
    ∀ k j i ri ri1 tj tj1 pk pk1,
      values a !! i = Some ri → values a !! S i = Some ri1 →
      values b !! j = Some tj → values b !! S j = Some tj1 →
      values c !! k = Some pk → values c !! S k = Some pk1 →
      get3 vol k j i =
      Some (fdiv (fmul (fmul (fsub (fpow ri1 three) (fpow ri three))
                             (fsub (fcos tj) (fcos tj1)))
                       (fsub pk1 pk))
                 three).
Proof.
  intros Hrun. apply set_walls_Return in Hrun as (_ & _ & _ & _ & ->).
  exists (volumes_of (values a) (values b) (values c)).
  split_and!; [done | done | apply has_shape3_volumes |].
  intros. by apply cell_volume.
Qed.

(** C3. On walls that pass the checks and hold the elements lines 83-84
    index (a first radial wall, and a second one when the first is zero; at
    least one polar and one azimuthal wall), [set_walls] returns, and [areas]
    then has shape (6, np, nt, nr); at cell (k, j, i) faces 0 and 1 are
    r_wall**2 * dcost * dp at the inner and the outer radial wall, faces 2 and
    3 are 0.5 * dr2 * sin(t_wall) * dp at the lower and the upper polar wall,
    and faces 4 and 5 are both 0.5 * dr2 * dt.  These are the only walls on
    which the call returns (lemma [set_walls_Return]). *)
Theorem areas_six_faces a b c g r_wall_0 :
  valid_walls a b c = true →
  values a !! 0%nat = Some r_wall_0 →
  (feqb r_wall_0 zero = true → is_Some (values a !! 1%nat)) →
  (0 < length (values b))%nat → (0 < length (values c))%nat →
  ∃ g' ar,
    run (set_walls a b c) g = (g', Return tt) ∧
    areas g' = Some ar ∧ length ar = 6%nat ∧
    Forall (λ face, has_shape3 face (length (values c) - 1)
                      (length (values b) - 1) (length (values a) - 1)) ar ∧
    ∀ k j i ri ri1 tj tj1 pk pk1,
      values a !! i = Some ri → values a !! S i = Some ri1 →
      values b !! j = Some tj → values b !! S j = Some tj1 →
      values c !! k = Some pk → values c !! S k = Some pk1 →
      let dr2 := fsub (fpow ri1 two) (fpow ri two) in
      let dt := fsub tj1 tj in
      let dcost := fsub (fcos tj) (fcos tj1) in
      let dp := fsub pk1 pk in
      get4 ar 0 k j i = Some (fmul (fmul (fpow ri two) dcost) dp) ∧
      get4 ar 1 k j i = Some (fmul (fmul (fpow ri1 two) dcost) dp) ∧
      get4 ar 2 k j i = Some (fmul (fmul (fmul half dr2) (fsin tj)) dp) ∧
      get4 ar 3 k j i = Some (fmul (fmul (fmul half dr2) (fsin tj1)) dp) ∧
      get4 ar 4 k j i = Some (fmul (fmul half dr2) dt) ∧
      get4 ar 5 k j i = Some (fmul (fmul half dr2) dt).
Proof.
  intros Hvalid H0 Hsecond Hb Hc.
  exists (walls_set (values a) (values b) (values c) g),
         (areas_of (values a) (values b) (values c)).
  split; [by eapply set_walls_succeeds|].
  split_and!; [done | done | apply has_shape3_areas |].
  intros k j i ri ri1 tj tj1 pk pk1 Hri Hri1 Htj Htj1 Hpk Hpk1.
  destruct (cell_min _ _ _ _ _ _ _ _ _ _ _ _ Hri Hri1 Htj Htj1 Hpk Hpk1)
    as (Hrmin & Htmin & Hpmin).
  destruct (cell_max _ _ _ _ _ _ _ _ _ _ _ _ Hri Hri1 Htj Htj1 Hpk Hpk1)
    as (Hrmax & Htmax & Hpmax).
  pose proof (cell_dr2 _ _ _ _ _ _ _ _ _ _ _ _ Hri Hri1 Htj Htj1 Hpk Hpk1).
  pose proof (cell_dcost _ _ _ _ _ _ _ _ _ _ _ _ Hri Hri1 Htj Htj1 Hpk Hpk1).
  pose proof (cell_dt _ _ _ _ _ _ _ _ _ _ _ _ Hri Hri1 Htj Htj1 Hpk Hpk1).
  pose proof (cell_dp _ _ _ _ _ _ _ _ _ _ _ _ Hri Hri1 Htj Htj1 Hpk Hpk1).
  unfold get4, areas_of. simpl.
  split_and!; rewrite !get3_zip3, ?get3_map3, ?get3_zip3; simplify_option_eq; done.
Qed.

Lemma lookup_log_centers x i ri ri1 :
  x !! i = Some ri → x !! S i = Some ri1 →
  log_centers x !! i =
  Some (fpow ten (fdiv (fadd (flog10 ri) (flog10 ri1)) two)).
Proof.
  intros Hri Hri1. unfold log_centers.
  rewrite !list_lookup_fmap, lookup_zip_with, !list_lookup_fmap.
  by rewrite (lookup_but_last _ _ _ _ Hri Hri1), lookup_from_1, Hri1.
Qed.

Lemma lookup_mid_centers x i s s' :
  x !! i = Some s → x !! S i = Some s' →
  mid_centers x !! i = Some (fdiv (fadd s s') two).
Proof.
  intros Hs Hs'. unfold mid_centers.
  rewrite list_lookup_fmap, lookup_zip_with.
  by rewrite (lookup_but_last _ _ _ _ Hs Hs'), lookup_from_1, Hs'.
Qed.

Lemma lookup_centers_r_zero x r0 r1 :
  x !! 0%nat = Some r0 → x !! 1%nat = Some r1 → feqb r0 zero = true →
  centers_r x !! 0%nat = Some (fdiv r1 two).
Proof.
  intros H0 H1 Hz. unfold centers_r. rewrite H0, H1, Hz.
  apply list_lookup_insert_eq. rewrite length_log_centers.
  apply lookup_lt_Some in H1. lia.
Qed.

End Geometry.

(** ** The centres on doubles

    The finiteness of the first centre rests on one fact of binary64
    arithmetic, derived here from the specification of the division: a
    double divided by [2.] is finite exactly when it is finite itself. *)

Section Binary64.

Lemma SFeqb_refl_finite s m e :
  SFeqb (S754_finite s m e) (S754_finite s m e) = true.
Proof.
  unfold SFeqb, SFcompare.
  rewrite Z.compare_refl, Pos.compare_cont_refl. by destruct s.
Qed.

Lemma is_finite_spec (x : float) : is_finite x = finite_or_zero (Prim2SF x).
Proof.
  unfold is_finite, is_nan, is_infinity.
  rewrite !FloatAxioms.eqb_spec, abs_spec.
  change (Prim2SF infinity) with (S754_infinity false).
  destruct (Prim2SF x) as [s|s| |s m e]; try done.
  - by destruct s.
  - simpl SFabs. by rewrite SFeqb_refl_finite.
Qed.

Lemma digits2_pos_size p : digits2_pos p = Pos.size p.
Proof. induction p; simpl; congruence. Qed.

Lemma Zdigits2_nonneg m : 0 <= Zdigits2 m.
Proof. destruct m; simpl; lia. Qed.

Lemma Zdigits2_gt m : 0 <= m → m < 2 ^ Zdigits2 m.
Proof.
  destruct m as [|p|p]; [done| |lia]. intros _. simpl.
  rewrite digits2_pos_size.
  pose proof (Pos.size_gt p) as Hp.
  apply Pos2Z.pos_lt_pos in Hp. by rewrite Pos2Z.inj_pow in Hp.
Qed.

Lemma Zdigits2_ge m : 0 < m → 2 ^ (Zdigits2 m - 1) <= m.
Proof.
  destruct m as [|p|p]; [lia| |lia]. intros _. simpl.
  rewrite digits2_pos_size.
  pose proof (Pos.size_le p) as Hp.
  apply Pos2Z.pos_le_pos in Hp. rewrite Pos2Z.inj_pow in Hp.
  change (Z.pos p~0) with (2 * Z.pos p) in Hp.
  replace (Z.pos (Pos.size p)) with (Z.pos (Pos.size p) - 1 + 1) in Hp by lia.
  rewrite Z.pow_add_r in Hp by lia. lia.
Qed.

(** A non-negative number below 2^k has at most k digits. *)
Lemma Zdigits2_le m k : 0 <= k → 0 <= m → m < 2 ^ k → Zdigits2 m <= k.
Proof.
  intros Hk Hm Hlt.
  destruct (Z.eq_dec m 0) as [->|Hne]; [done|].
  pose proof (Zdigits2_ge m ltac:(lia)) as Hge.
  destruct (Z.le_gt_cases (Zdigits2 m) k) as [|Hgt]; [done|].
  assert (2 ^ k <= 2 ^ (Zdigits2 m - 1)); [|lia].
  apply Z.pow_le_mono_r; lia.
Qed.

Lemma shr_1_nonneg mrs : 0 <= shr_m mrs → shr_m (shr_1 mrs) = shr_m mrs / 2.
Proof.
  destruct mrs as [[|[p|p|]|p] r s]; cbn [shr_1 shr_m]; intros Hm; try lia.
  - done.
  - rewrite Pos2Z.inj_xI. apply Z.div_unique with 1; lia.
  - rewrite Pos2Z.inj_xO. apply Z.div_unique with 0; lia.
  - done.
Qed.

Lemma pow2_xI p : 2 ^ Z.pos p~1 = 2 * 2 ^ Z.pos p * 2 ^ Z.pos p.
Proof.
  replace (Z.pos p~1) with (1 + Z.pos p + Z.pos p) by lia.
  by rewrite !Z.pow_add_r, Z.pow_1_r by lia.
Qed.

Lemma pow2_xO p : 2 ^ Z.pos p~0 = 2 ^ Z.pos p * 2 ^ Z.pos p.
Proof.
  replace (Z.pos p~0) with (Z.pos p + Z.pos p) by lia.
  by rewrite Z.pow_add_r by lia.
Qed.

Lemma iter_shr_1 p mrs :
  0 <= shr_m mrs →
  shr_m (SpecFloat.iter_pos shr_1 p mrs) = shr_m mrs / 2 ^ Z.pos p.
Proof.
  revert mrs. induction p as [p IH|p IH|]; intros mrs Hm; simpl SpecFloat.iter_pos.
  - assert (0 <= shr_m (shr_1 mrs)) by (rewrite shr_1_nonneg by done; by apply Z.div_pos).
    assert (0 <= shr_m (SpecFloat.iter_pos shr_1 p (shr_1 mrs)))
      by (rewrite IH by done; apply Z.div_pos; lia).
    rewrite !IH, shr_1_nonneg by done.
    rewrite !Z.div_div by lia. rewrite pow2_xI. f_equal. lia.
  - assert (0 <= shr_m (SpecFloat.iter_pos shr_1 p mrs))
      by (rewrite IH by done; apply Z.div_pos; lia).
    rewrite !IH by done. rewrite Z.div_div by lia. by rewrite pow2_xO.
  - rewrite shr_1_nonneg by done. by rewrite Z.pow_1_r.
Qed.

Lemma shr_spec mrs e n :
  0 <= shr_m mrs →
  shr_m (shr mrs e n).1 = shr_m mrs / 2 ^ Z.max n 0 ∧
  (shr mrs e n).2 = e + Z.max n 0.
Proof.
  intros Hm. destruct n as [|p|p]; simpl.
  - rewrite Z.div_1_r. lia.
  - by rewrite iter_shr_1.
  - rewrite Z.div_1_r. lia.
Qed.

Lemma shr_m_record_of_loc m l : shr_m (shr_record_of_loc m l) = m.
Proof. by destruct l as [|[]]. Qed.

Lemma round_nearest_even_bounds m l :
  0 <= m → m <= round_nearest_even m l <= m + 1.
Proof. intros Hm. destruct l as [|[]]; simpl; try case_match; lia. Qed.


Lemma Zdigits2_div_pow2 m k :
  0 <= m → 0 <= k → Zdigits2 (m / 2 ^ k) <= Z.max (Zdigits2 m - k) 0.
Proof.
  intros Hm Hk. pose proof (Zdigits2_gt m Hm) as Hlt.
  pose proof (Zdigits2_nonneg m) as Hd.
  assert (0 < 2 ^ k) by (apply Z.pow_pos_nonneg; lia).
  destruct (Z.le_gt_cases k (Zdigits2 m)) as [Hle|Hgt].
  - apply Zdigits2_le; [lia|by apply Z.div_pos|].
    apply Z.div_lt_upper_bound; [done|].
    rewrite Z.max_l, <-Z.pow_add_r by lia.
    by replace (k + (Zdigits2 m - k)) with (Zdigits2 m) by lia.
  - rewrite Z.div_small; [simpl; lia|]. split; [done|].
    apply Z.lt_le_trans with (2 ^ Zdigits2 m); [done|].
    apply Z.pow_le_mono_r; lia.
Qed.

Lemma Zdigits2_round m m1 : 0 <= m → m <= m1 <= m + 1 → Zdigits2 m1 <= Zdigits2 m + 1.
Proof.
  intros Hm Hm1. pose proof (Zdigits2_gt m Hm) as Hlt.
  pose proof (Zdigits2_nonneg m) as Hd.
  apply Zdigits2_le; [lia..|].
  rewrite Z.pow_add_r, Z.pow_1_r by lia. lia.
Qed.

Lemma shr_fexp_spec m e l :
  0 <= m →
  let n := Z.max (fexp 53 1024 (Zdigits2 m + e) - e) 0 in
  shr_m (shr_fexp 53 1024 m e l).1 = m / 2 ^ n ∧ (shr_fexp 53 1024 m e l).2 = e + n.
Proof.
  intros Hm n. unfold shr_fexp.
  pose proof (shr_spec (shr_record_of_loc m l) e (fexp 53 1024 (Zdigits2 m + e) - e)) as Hs.
  rewrite shr_m_record_of_loc in Hs. by apply Hs.
Qed.

(** Rounding a non-negative mantissa that stays below [2 ^ 1023] overflows
    neither in the shift nor in the carry of the rounding. *)
Lemma binary_round_aux_finite sx mx ex lx :
  0 <= mx → ex <= 971 → Zdigits2 mx + ex <= 1023 →
  finite_or_zero (binary_round_aux 53 1024 sx mx ex lx) = true.
Proof.
  intros Hm He Hd. unfold binary_round_aux.
  pose proof (shr_fexp_spec mx ex lx Hm) as [Hm1 He1].
  destruct (shr_fexp 53 1024 mx ex lx) as [mrs1 e1]. simpl in Hm1, He1.
  set (n1 := Z.max (fexp 53 1024 (Zdigits2 mx + ex) - ex) 0) in *.
  assert (0 <= n1) by lia.
  assert (0 <= shr_m mrs1)
    by (rewrite Hm1; apply Z.div_pos; [done|apply Z.pow_pos_nonneg; lia]).
  pose proof (Zdigits2_div_pow2 mx n1 Hm ltac:(done)) as Hd1. rewrite <-Hm1 in Hd1.
  pose proof (round_nearest_even_bounds (shr_m mrs1) (loc_of_shr_record mrs1) ltac:(done)) as Hr.
  set (m2 := round_nearest_even (shr_m mrs1) (loc_of_shr_record mrs1)) in *.
  pose proof (Zdigits2_round (shr_m mrs1) m2 ltac:(done) Hr) as Hd2.
  pose proof (shr_fexp_spec m2 e1 loc_Exact ltac:(lia)) as [Hm3 He3].
  destruct (shr_fexp 53 1024 m2 e1 loc_Exact) as [mrs3 e3]. simpl in Hm3, He3.
  set (n3 := Z.max (fexp 53 1024 (Zdigits2 m2 + e1) - e1) 0) in *.
  assert (0 <= shr_m mrs3)
    by (rewrite Hm3; apply Z.div_pos; [lia|apply Z.pow_pos_nonneg; lia]).
  assert (e3 <= 971) by (unfold fexp, SpecFloat.emin in *; lia).
  destruct (shr_m mrs3) as [|p|p]; [done| |lia].
  by destruct (Z.leb_spec e3 (1024 - 53)); [|lia].
Qed.

Lemma SFdiv_two_finite x :
  SpecFloat.valid_binary 53 1024 x = true → finite_or_zero x = true →
  finite_or_zero (SFdiv 53 1024 x SF_two) = true.
Proof.
  destruct x as [s|s| |s m e]; try done. intros Hv _.
  simpl in Hv. apply andb_prop in Hv as [Hc He].
  unfold canonical_mantissa in Hc. apply Z.eqb_eq in Hc. apply Z.leb_le in He.
  unfold SF_two, SFdiv, SFdiv_core_binary.
  change (Zdigits2 (Z.pos m)) with (Z.pos (digits2_pos m)).
  change (Zdigits2 4503599627370496) with 53.
  set (d := Z.pos (digits2_pos m)) in *.
  assert (0 < d) by (unfold d; lia).
  set (e' := Z.min (fexp 53 1024 (d + e - (53 + -51))) (e - -51)).
  set (s' := e - -51 - e').
  assert (51 <= s') by (unfold s', e', fexp, SpecFloat.emin in *; lia).
  assert (e' <= 971) by (unfold s', e', fexp, SpecFloat.emin in *; lia).
  assert (d + e - 1 - e' = d + s' - 52) as Hds by (unfold s'; lia).
  assert (d + e - 1 <= 1023) by (unfold fexp, SpecFloat.emin in *; lia).
  destruct s' as [|ps|ps] eqn:Es; [lia| |lia]. rewrite <-Es in *.
  rewrite Z.shiftl_mul_pow2 by lia.
  destruct (Z.div_eucl (Z.pos m * 2 ^ s') 4503599627370496) as [q r] eqn:Ediv.
  assert (q = Z.pos m * 2 ^ s' / 2 ^ 52) as Hq
    by (unfold Z.div; change (2 ^ 52) with 4503599627370496; by rewrite Ediv).
  assert (0 < 2 ^ s') by (apply Z.pow_pos_nonneg; lia).
  assert (0 <= q) by (rewrite Hq; apply Z.div_pos; lia).
  apply binary_round_aux_finite; [done..|].
  assert (Zdigits2 q <= d + s' - 52); [|lia].
  apply Zdigits2_le; [lia|done|].
  rewrite Hq. apply Z.div_lt_upper_bound; [lia|].
  rewrite <-Z.pow_add_r by lia. replace (52 + (d + s' - 52)) with (d + s') by lia.
  rewrite Z.pow_add_r by lia.
  pose proof (Zdigits2_gt (Z.pos m) ltac:(lia)) as Hlt.
  change (Zdigits2 (Z.pos m)) with d in Hlt. nia.
Qed.

(** Halving a finite double gives a finite double. *)
Lemma halving_finite (x : float) :
  is_finite x = true → is_finite (x / 2) = true.
Proof.
  rewrite !is_finite_spec, div_spec. intros Hx.
  change (Prim2SF 2) with SF_two.
  apply SFdiv_two_finite; [apply Prim2SF_valid|done].
Qed.

Lemma halving_not_finite (x : float) :
  is_finite x = false → is_finite (x / 2) = false.
Proof.
  rewrite !is_finite_spec, div_spec.
  change (Prim2SF 2) with SF_two.
  by destruct (Prim2SF x) as [s|s| |s m e].
Qed.

Lemma halving_is_finite (x : float) : is_finite (x / 2) = is_finite x.
Proof.
  destruct (is_finite x) eqn:Hx;
    [by apply halving_finite | by apply halving_not_finite].
Qed.

(** C2, as the code has it on binary64, whatever the C library computes.  On
    walls that pass the checks and hold the elements lines 83-84 index,
    [set_walls] returns, and then: the radial centre r[i] is
    10 ** ((log10 r_wall[i] + log10 r_wall[i+1]) / 2), except that when
    r_wall[0] == 0 the first centre is r_wall[1] / 2, a value that involves no
    logarithm and is finite exactly when r_wall[1] is finite; the polar and
    azimuthal centres are (wall[j] + wall[j+1]) / 2. *)
Theorem centers_geometric_and_midpoint `{Libm} (a b c : pyobj float) g r_wall_0 :
  valid_walls a b c = true →
  values a !! 0%nat = Some r_wall_0 →
  (feqb r_wall_0 zero = true → is_Some (values a !! 1%nat)) →
  (0 < length (values b))%nat → (0 < length (values c))%nat →
  ∃ g' rc tc pc,
    run (set_walls a b c) g = (g', Return tt) ∧
    r g' = Some rc ∧ t g' = Some tc ∧ p g' = Some pc ∧
    (∀ i ri ri1,
       values a !! i = Some ri → values a !! S i = Some ri1 →
       (i = 0%nat → feqb r_wall_0 zero = false) →
       rc !! i = Some (fpow ten (fdiv (fadd (flog10 ri) (flog10 ri1)) two))) ∧
    (∀ r_wall_1,
       values a !! 1%nat = Some r_wall_1 → feqb r_wall_0 zero = true →
       rc !! 0%nat = Some (fdiv r_wall_1 two) ∧
       fisfinite (fdiv r_wall_1 two) = fisfinite r_wall_1) ∧
    (∀ j tj tj1,
       values b !! j = Some tj → values b !! S j = Some tj1 →
       tc !! j = Some (fdiv (fadd tj tj1) two)) ∧
    (∀ k pk pk1,
       values c !! k = Some pk → values c !! S k = Some pk1 →
       pc !! k = Some (fdiv (fadd pk pk1) two)).
Proof.
  intros Hvalid H0 Hsecond Hb Hc.
  exists (walls_set (values a) (values b) (values c) g).
  eexists _, _, _. split; [by eapply set_walls_succeeds|].
  split_and!; [done | done | done | | | |].
  - intros i ri ri1 Hri Hri1 Hnz. unfold centers_r. rewrite H0.
    destruct (values a !! 1%nat) as [r1|] eqn:H1;
      [|by apply lookup_log_centers].
    destruct i as [|i].
    + rewrite Hnz by done. by apply lookup_log_centers.
    + destruct (feqb r_wall_0 zero); [|by apply lookup_log_centers].
      rewrite list_lookup_insert_ne by done. by apply lookup_log_centers.
  - intros r_wall_1 H1 Hz. split.
    + by apply (lookup_centers_r_zero _ r_wall_0).
    + apply halving_is_finite.
  - intros. by apply lookup_mid_centers.
  - intros. by apply lookup_mid_centers.
Qed.

(** X23. On doubles, whatever the C library computes: the first centre that
    [set_walls] assigns when the innermost wall is zero is finite, neither
    NaN nor infinite, whenever r_wall[1] is. *)
Lemma float64_first_center_finite `{Libm} (a b c : pyobj float) g g' rc r0 r1
    center :
  run (set_walls a b c) g = (g', Return tt) →
  values a !! 0%nat = Some r0 → values a !! 1%nat = Some r1 →
  feqb r0 zero = true → fisfinite r1 = true →
  r g' = Some rc → rc !! 0%nat = Some center →
  fisfinite center = true.
Proof.
  intros Hrun H0 H1 Hz Hfinite Hr Hcenter.
  apply set_walls_Return in Hrun as (_ & _ & _ & _ & ->).
  simpl in Hr. injection Hr as <-.
  rewrite (lookup_centers_r_zero _ _ _ H0 H1 Hz) in Hcenter.
  injection Hcenter as <-. by apply halving_finite.
Qed.


Lemma SFmul_not_finite_l x y :
  finite_or_zero x = false → finite_or_zero (SFmul 53 1024 x y) = false.
Proof. destruct x as [?|?| |? ? ?], y as [?|?| |? ? ?]; done. Qed.


Lemma mul_not_finite_l (x y : float) :
  is_finite x = false → is_finite (x * y) = false.
Proof. rewrite !is_finite_spec, mul_spec. apply SFmul_not_finite_l. Qed.







End Binary64.

(** ** The state of the mesh across [set_walls] *)

Section MeshState.
Context {F : Type} `{FloatOps F}.
Implicit Types (g : SphericalPolarGrid (F:=F)) (a b c : pyobj F).

Lemma walls_set_quantities (x y z : list F) q g :
  walls_set x y z (set_quantities q g) = set_quantities q (walls_set x y z g).
Proof. done. Qed.

(** C10. A call of [set_walls] that returns leaves [quantities] as it was,
    and nothing in the call looks at the stored quantities: over any other
    mapping, whatever the shapes of its arrays, the same call returns as well
    and leaves that mapping. *)
Theorem set_walls_keeps_quantities a b c g g' :
  run (set_walls a b c) g = (g', Return tt) →
  quantities g' = quantities g ∧
  ∀ q, run (set_walls a b c) (set_quantities q g) = (set_quantities q g', Return tt).
Proof.
  intros Hrun. split.
  - by rewrite <- (set_walls_quantities a b c g), Hrun.
  - intros q.
    apply set_walls_Return in Hrun
      as (Hvalid & (r_wall_0 & H0 & Hsecond) & Hb & Hc & ->).
    rewrite <- walls_set_quantities. by eapply set_walls_succeeds.
Qed.

End MeshState.

(** ** The quantity check *)

Section Quantities.
Context {F : Type} `{FloatOps F}.
Implicit Types (g : SphericalPolarGrid (F:=F)) (items : list (ndarray F)).

Lemma check_items_ok {S} dims items (s : S) :
  Forall (λ item, arr_shape item = dims) items →
  check_items (Some dims) items s = (s, Return tt).
Proof.
  induction 1 as [|item items Hitem _ IH]; [done|]. simpl.
  rewrite bool_decide_false by congruence.
  by rewrite raise_if_false_bind.
Qed.

Lemma check_items_bad {S} dims items bad rest (s : S) :
  Forall (λ item, arr_shape item = dims) items →
  arr_shape bad ≠ dims →
  check_items (Some dims) (items ++ bad :: rest) s =
  (s, Raise (ValueError ("Arrays in list do not have the right dimensions: "
                         +:+ repr_tuple (arr_shape bad) +:+ " instead of "
                         +:+ repr_tuple dims))).
Proof.
  intros Hitems Hbad. induction Hitems as [|item items Hitem _ IH]; simpl.
  - rewrite bool_decide_true by congruence. by rewrite raise_if_true_bind.
  - rewrite bool_decide_false by congruence. by rewrite raise_if_false_bind.
Qed.

Lemma sum_first_axis (n_p n_t n_r : Z) items :
  Forall (λ item, arr_shape item = [n_p; n_t; n_r]) items →
  foldr Z.add 0 ((λ s, hd 0 s) <$> ((λ item, atleast_2d (arr_shape item)) <$> items))
  = Z.of_nat (length items) * n_p.
Proof.
  induction 1 as [|item items Hitem _ IH]; [done|].
  cbn [fmap list_fmap foldr length]. rewrite IH, Hitem. simpl hd. lia.
Qed.

Lemma stack_items_ok {S} (n_p n_t n_r : Z) items (s : S) :
  items ≠ [] →
  Forall (λ item, arr_shape item = [n_p; n_t; n_r]) items →
  stack_items (Some [n_p; n_t; n_r]) items s =
  (s, Return (NDArray (Z.of_nat (length items) :: [n_p; n_t; n_r])
                      (concat (arr_data <$> items)))).
Proof.
  intros Hne Hitems. unfold stack_items. rewrite bind_eq.
  unfold np_vstack. destruct items as [|first items']; [done|].
  set (items := first :: items') in *.
  assert (arr_shape first = [n_p; n_t; n_r]) as Hfirst by by inversion Hitems.
  assert (forallb
            (λ s0, bool_decide (tail s0 = tail (atleast_2d (arr_shape first))))
            ((λ item, atleast_2d (arr_shape item)) <$> items) = true) as ->.
  { apply forallb_forall. intros s0 Hin. apply bool_decide_eq_true.
    apply list_elem_of_In, list_elem_of_fmap in Hin as (item & -> & Hin).
    rewrite Forall_forall in Hitems. by rewrite (Hitems _ Hin), Hfirst. }
  cbn [mret M_ret ret]. unfold np_reshape. cbn [arr_shape arr_data].
  rewrite (sum_first_axis _ _ _ _ Hitems), Hfirst.
  rewrite bool_decide_true; [done|]. simpl. lia.
Qed.

(** The four outcomes of the check on a mesh whose shape is set. *)
Lemma check_array_ok g dims (arr : ndarray F) :
  shape g = Some dims → arr_shape arr = dims →
  run (_check_array_dimensions (QArray arr)) g = (g, Return tt).
Proof.
  intros Hshape Harr. unfold run, _check_array_dimensions.
  rewrite bind_eq. cbn [get]. rewrite Hshape.
  by rewrite bool_decide_false by congruence.
Qed.

Lemma check_array_bad g dims (arr : ndarray F) :
  shape g = Some dims → arr_shape arr ≠ dims →
  run (_check_array_dimensions (QArray arr)) g =
  (g, Raise (ValueError ("Array does not have the right dimensions: "
                         +:+ repr_tuple (arr_shape arr) +:+ " instead of "
                         +:+ repr_tuple dims))).
Proof.
  intros Hshape Harr. unfold run, _check_array_dimensions.
  rewrite bind_eq. cbn [get]. rewrite Hshape.
  by rewrite bool_decide_true by congruence.
Qed.

Lemma check_sequence_ok g (n_p n_t n_r : Z) items array :
  shape g = Some [n_p; n_t; n_r] →
  array = QList items ∨ array = QTuple items →
  items ≠ [] →
  Forall (λ item, arr_shape item = [n_p; n_t; n_r]) items →
  run (_check_array_dimensions array) g = (g, Return tt).
Proof.
  intros Hshape Harray Hne Hitems. unfold run, _check_array_dimensions.
  destruct Harray as [-> | ->]; rewrite bind_eq; cbn [get];
    rewrite Hshape, bind_eq, (check_items_ok _ _ _ Hitems), bind_eq,
      (stack_items_ok _ _ _ _ _ Hne Hitems); done.
Qed.

Lemma check_sequence_bad g dims items bad rest array :
  shape g = Some dims →
  array = QList (items ++ bad :: rest) ∨ array = QTuple (items ++ bad :: rest) →
  Forall (λ item, arr_shape item = dims) items →
  arr_shape bad ≠ dims →
  run (_check_array_dimensions array) g =
  (g, Raise (ValueError ("Arrays in list do not have the right dimensions: "
                         +:+ repr_tuple (arr_shape bad) +:+ " instead of "
                         +:+ repr_tuple dims))).
Proof.
  intros Hshape Harray Hitems Hbad. unfold run, _check_array_dimensions.
  destruct Harray as [-> | ->]; rewrite bind_eq; cbn [get];
    rewrite Hshape, bind_eq, (check_items_bad _ _ _ _ _ Hitems Hbad); done.
Qed.

(** C4, as the code has it.  On a mesh of shape (np, nt, nr),
    [_check_array_dimensions] returns for a single array of that shape, and
    for a non-empty list or tuple of arrays that all have it; in the second
    case the (k, np, nt, nr) array stacked from the items is the value of a
    local name only.  An array of another shape, and a list or tuple whose
    first item of another shape is [bad], raise [ValueError] with a message
    that gives the offending shape and then the shape of the mesh.  In every
    case the mesh, its quantities included, is left as it was. *)
Theorem check_array_dimensions_shapes g (n_p n_t n_r : Z) :
  shape g = Some [n_p; n_t; n_r] →
  (∀ arr, arr_shape arr = [n_p; n_t; n_r] →
     run (_check_array_dimensions (QArray arr)) g = (g, Return tt)) ∧
  (∀ arr, arr_shape arr ≠ [n_p; n_t; n_r] →
     run (_check_array_dimensions (QArray arr)) g =
     (g, Raise (ValueError ("Array does not have the right dimensions: "
                            +:+ repr_tuple (arr_shape arr) +:+ " instead of "
                            +:+ repr_tuple [n_p; n_t; n_r])))) ∧
  (∀ items array,
     array = QList items ∨ array = QTuple items →
     items ≠ [] →
     Forall (λ item, arr_shape item = [n_p; n_t; n_r]) items →
     run (_check_array_dimensions array) g = (g, Return tt) ∧
     run (stack_items (shape g) items) g =
     (g, Return (NDArray (Z.of_nat (length items) :: [n_p; n_t; n_r])
                         (concat (arr_data <$> items))))) ∧
  (∀ items bad rest array,
     array = QList (items ++ bad :: rest) ∨ array = QTuple (items ++ bad :: rest) →
     Forall (λ item, arr_shape item = [n_p; n_t; n_r]) items →
     arr_shape bad ≠ [n_p; n_t; n_r] →
     run (_check_array_dimensions array) g =
     (g, Raise (ValueError ("Arrays in list do not have the right dimensions: "
                            +:+ repr_tuple (arr_shape bad) +:+ " instead of "
                            +:+ repr_tuple [n_p; n_t; n_r])))).
Proof.
  intros Hshape. split_and!.
  - intros arr Harr. by eapply check_array_ok.
  - intros arr Harr. by eapply check_array_bad.
  - intros items array Harray Hne Hitems. split.
    + by eapply check_sequence_ok.
    + rewrite Hshape. by apply stack_items_ok.
  - intros items bad rest array Harray Hitems Hbad.
    by eapply check_sequence_bad.
Qed.

(** Whatever it is given, the check leaves the mesh as it was. *)
Lemma check_array_dimensions_pure array g :
  (run (_check_array_dimensions array) g).1 = g.
Proof.
  assert (∀ self_shape items, (check_items (S:=SphericalPolarGrid) self_shape items g).1 = g)
    as Hcheck.
  { intros self_shape items. induction items as [|item items IH]; [done|].
    simpl. destruct (bool_decide _); [done|]. by rewrite raise_if_false_bind. }
  assert (∀ self_shape items,
            (stack_items (S:=SphericalPolarGrid) self_shape items g).1 = g) as Hstack.
  { intros [dims|] items; [|done]. unfold stack_items, np_vstack, np_reshape.
    rewrite bind_eq. destruct items as [|first items]; [done|].
    destruct (forallb _ _); [|done]. cbn [mret M_ret ret].
    by destruct (bool_decide _). }
  unfold run, _check_array_dimensions. rewrite bind_eq. cbn [get].
  destruct array as [arr|items|items| |]; try done.
  - unfold raise_if. by case_match.
  - rewrite bind_eq. specialize (Hcheck (shape g) items).
    specialize (Hstack (shape g) items).
    destruct (check_items _ _ _) as [g1 [[]|e]]; simpl in Hcheck; subst g1; [|done].
    rewrite bind_eq. by destruct (stack_items _ _ _) as [g2 [?|e]].
  - rewrite bind_eq. specialize (Hcheck (shape g) items).
    specialize (Hstack (shape g) items).
    destruct (check_items _ _ _) as [g1 [[]|e]]; simpl in Hcheck; subst g1; [|done].
    rewrite bind_eq. by destruct (stack_items _ _ _) as [g2 [?|e]].
Qed.

End Quantities.

(** ** The fingerprint and [read] *)

Section Reading.
Context {F : Type} `{FloatOps F} `{Hashlib F}.
Implicit Types (g : SphericalPolarGrid (F:=F)) (group : Group (F:=F)).

(** The fingerprint is the digest of the bytes of the radial, the polar and
    the azimuthal walls, in that order. *)
Lemma get_geometry_id_run g (x y z : list F) :
  r_wall g = Some x → t_wall g = Some y → p_wall g = Some z →
  run get_geometry_id g =
  (g, Return (md5_hexdigest (tobytes x ++ tobytes y ++ tobytes z)%list)).
Proof.
  intros Hx Hy Hz. unfold run, get_geometry_id. rewrite bind_eq. cbn [get].
  rewrite Hx, Hy, Hz. unfold hexdigest, md5_update, md5_new. simpl.
  by rewrite <- app_assoc.
Qed.

(** Two meshes whose walls have the same bytes have the same fingerprint. *)
Lemma get_geometry_id_deterministic g1 g2 (x1 y1 z1 x2 y2 z2 : list F) :
  r_wall g1 = Some x1 → t_wall g1 = Some y1 → p_wall g1 = Some z1 →
  r_wall g2 = Some x2 → t_wall g2 = Some y2 → p_wall g2 = Some z2 →
  tobytes x1 = tobytes x2 → tobytes y1 = tobytes y2 → tobytes z1 = tobytes z2 →
  (run get_geometry_id g1).2 = (run get_geometry_id g2).2.
Proof.
  intros ?????? Hx Hy Hz.
  rewrite (get_geometry_id_run g1 x1 y1 z1), (get_geometry_id_run g2 x2 y2 z2) by done.
  simpl. by rewrite Hx, Hy, Hz.
Qed.

(** Replacing one element of an array changes its bytes, when distinct
    elements have distinct bytes. *)
Lemma tobytes_insert_ne (l : list F) i s s' :
  (∀ e e' : F, itembytes e = itembytes e' → e = e') →
  l !! i = Some s → s' ≠ s →
  tobytes (<[i:=s']> l) ≠ tobytes l.
Proof.
  intros Hinj. unfold tobytes. revert i.
  induction l as [|e l IH]; intros [|i] Hi Hne; simplify_eq/=.
  - intros Heq%app_inv_tail. by apply Hne, Hinj.
  - intros Heq%app_inv_head. by eapply IH.
Qed.

(** Replacing one element of one wall either changes the fingerprint or
    exhibits two different byte strings with the same MD5 digest. *)
Lemma get_geometry_id_change_or_collision g1 g2 (x1 y1 z1 x2 y2 z2 : list F) i s s' :
  (∀ e e' : F, itembytes e = itembytes e' → e = e') →
  r_wall g1 = Some x1 → t_wall g1 = Some y1 → p_wall g1 = Some z1 →
  r_wall g2 = Some x2 → t_wall g2 = Some y2 → p_wall g2 = Some z2 →
  s' ≠ s →
  (x1 !! i = Some s ∧ x2 = <[i:=s']> x1 ∧ y2 = y1 ∧ z2 = z1) ∨
  (y1 !! i = Some s ∧ x2 = x1 ∧ y2 = <[i:=s']> y1 ∧ z2 = z1) ∨
  (z1 !! i = Some s ∧ x2 = x1 ∧ y2 = y1 ∧ z2 = <[i:=s']> z1) →
  (run get_geometry_id g1).2 ≠ (run get_geometry_id g2).2 ∨
  ∃ bytes1 bytes2,
    bytes1 ≠ bytes2 ∧ md5_hexdigest bytes1 = md5_hexdigest bytes2.
Proof.
  intros Hinj Hx1 Hy1 Hz1 Hx2 Hy2 Hz2 Hne Hchange.
  rewrite (get_geometry_id_run g1 x1 y1 z1), (get_geometry_id_run g2 x2 y2 z2)
    by done.
  cbn [snd].
  destruct (decide (md5_hexdigest (tobytes x1 ++ tobytes y1 ++ tobytes z1)%list
                    = md5_hexdigest (tobytes x2 ++ tobytes y2 ++ tobytes z2)%list))
    as [Hsame|Hdiff]; [right|left; congruence].
  eexists _, _. split; [|exact Hsame].
  destruct Hchange as [(Hi & -> & -> & ->) | [(Hi & -> & -> & ->) | (Hi & -> & -> & ->)]].
  - intros Heq%app_inv_tail. symmetry in Heq.
    by eapply tobytes_insert_ne.
  - intros Heq%app_inv_head%app_inv_tail. symmetry in Heq.
    by eapply tobytes_insert_ne.
  - intros Heq%app_inv_head%app_inv_head. symmetry in Heq.
    by eapply tobytes_insert_ne.
Qed.

Lemma hasattr_set : hasattr "set" = false.
Proof. by apply bool_decide_eq_false; vm_compute; intros ?%list_elem_of_In; simpl in *; intuition discriminate. Qed.

(** The loop stores nothing: it raises at the first selected dataset. *)
Lemma read_quantities_run sel physics g :
  read_quantities sel physics g =
  (g, if existsb (λ item, selected sel item.1) physics
      then Raise (AttributeError "'Dataset' object has no attribute 'array'")
      else Return tt).
Proof.
  induction physics as [|[quantity dataset] rest IH]; [done|].
  simpl. rewrite bind_eq. destruct (selected sel quantity); [done|].
  simpl. apply IH.
Qed.

(** C6. On a container whose geometry group is tagged with a grid type
    other than sph_pol, [read] raises the [ValueError] of line 213 and leaves
    the mesh as it was; with the outcome the same for all wall datasets, none
    of them has been looked at. *)
Theorem read_rejects_other_grid_type group sel g :
  attrs_grid_type (Geometry group) ≠ "sph_pol" →
  run (read group sel) g = (g, Raise (ValueError "Grid is not spherical polar")).
Proof.
  intros Htag. unfold run, read. cbv zeta.
  rewrite bool_decide_true by done. by rewrite raise_if_true_bind.
Qed.

(** C5, what the code does.  On a container tagged sph_pol, [read] reaches
    line 215 and calls [self.set], a name the class does not define (its
    method is [set_walls]): the call raises [AttributeError], the walls are
    not set and the fingerprint comparison of line 218 is never reached,
    whatever fingerprint the container stores. *)
Theorem read_calls_undefined_set group sel g :
  attrs_grid_type (Geometry group) = "sph_pol" →
  run (read group sel) g =
  (g, Raise (AttributeError "'SphericalPolarGrid' object has no attribute 'set'")).
Proof.
  intros Htag. unfold run, read. cbv zeta.
  rewrite bool_decide_false by (by intros ?).
  rewrite raise_if_false_bind. unfold call_method.
  by rewrite hasattr_set.
Qed.

(** With [set_walls] in the place of [set], the reader compares the
    fingerprints as C5 says: once the walls are set, it raises the [Exception]
    of line 219 exactly when the stored fingerprint is not that of the walls,
    and then no quantity has been stored.  When the fingerprints agree it goes
    on to the loop of lines 223-226, which raises at the first selected
    dataset. *)
Lemma read_via_set_walls_fingerprint group sel g g1 :
  attrs_grid_type (Geometry group) = "sph_pol" →
  run (set_walls (Walls_1 (Geometry group)) (Walls_2 (Geometry group))
         (Walls_3 (Geometry group))) g = (g1, Return tt) →
  let fingerprint :=
    md5_hexdigest (tobytes (values (Walls_1 (Geometry group)))
                   ++ tobytes (values (Walls_2 (Geometry group)))
                   ++ tobytes (values (Walls_3 (Geometry group))))%list in
  (attrs_geometry (Geometry group) ≠ fingerprint →
   run (read_via_set_walls group sel) g =
   (g1, Raise (Exception "Calculated geometry hash does not match hash in file"))
   ∧ quantities g1 = quantities g) ∧
  (attrs_geometry (Geometry group) = fingerprint →
   run (read_via_set_walls group sel) g =
   (g1, if existsb (λ item, selected sel item.1) (Physics group)
        then Raise (AttributeError "'Dataset' object has no attribute 'array'")
        else Return tt)).
Proof.
  intros Htag Hset fingerprint.
  assert (quantities g1 = quantities g) as Hq.
  { pose proof (set_walls_quantities (Walls_1 (Geometry group))
      (Walls_2 (Geometry group)) (Walls_3 (Geometry group)) g) as Hq.
    by rewrite Hset in Hq. }
  assert (run get_geometry_id g1 = (g1, Return fingerprint)) as Hid.
  { apply set_walls_Return in Hset as (_ & _ & _ & _ & ->).
    by apply get_geometry_id_run. }
  assert (run (read_via_set_walls group sel) g =
            (if bool_decide (attrs_geometry (Geometry group) ≠ fingerprint)
             then (g1, Raise (Exception
                    "Calculated geometry hash does not match hash in file"))
             else read_quantities sel (Physics group) g1)) as Hread.
  { unfold run, read_via_set_walls. cbv zeta.
    rewrite bool_decide_false by (by intros ?).
    rewrite raise_if_false_bind. unfold call_method.
    change (hasattr "set_walls") with true.
    change (hasattr "get_geometry_id") with true. cbv iota.
    unfold run in Hset, Hid. rewrite bind_eq, Hset, bind_eq, Hid.
    destruct (bool_decide _); [by rewrite raise_if_true_bind|].
    by rewrite raise_if_false_bind. }
  split.
  - intros Hne. by rewrite Hread, bool_decide_true.
  - intros Heq. rewrite Hread, bool_decide_false by (by intros ?).
    apply read_quantities_run.
Qed.

End Reading.

(** ** The sum of the volumes *)

Section Tabulation.
Context {F : Type} `{FloatOps F}.






End Tabulation.

Section RealVolumes.
Local Open Scope R_scope.

Lemma Rpow_nat (x : R) (n : nat) : Rpow x (INR n) = x ^ n.
Proof.
  unfold Rpow.
  assert (up (INR n) = (Z.of_nat n + 1)%Z) as ->.
  { symmetry. apply tech_up; rewrite plus_IZR, <- INR_IZR_INZ; lra. }
  replace (Z.to_nat (Z.of_nat n + 1 - 1)) with n by lia.
  by destruct (Req_dec_T (INR n) (INR n)).
Qed.

Lemma Rpow_3 (x : R) : Rpow x 3 = x ^ 3.
Proof. rewrite <- (Rpow_nat x 3). f_equal; simpl; lra. Qed.

Lemma Rpow_2 (x : R) : Rpow x 2 = x ^ 2.
Proof. rewrite <- (Rpow_nat x 2). f_equal; simpl; lra. Qed.

End RealVolumes.

Section ExactVolumes.
Context {F : Type} `{FloatOps F} `{!ExactArithmetic F}.
Local Open Scope R_scope.
Implicit Types (g : SphericalPolarGrid (F:=F)) (a b c : pyobj F).









End ExactVolumes.


Section RealMesh.
Local Open Scope R_scope.
Implicit Types (g : SphericalPolarGrid (F:=R)) (a b c : pyobj R).

Lemma Rgtb_true (s s' : R) : s > s' → Rgtb s s' = true.
Proof. intros Hgt. unfold Rgtb. by destruct (Rgt_dec s s'). Qed.

Lemma Reqb_refl (s : R) : Reqb s s = true.
Proof. unfold Reqb. by destruct (Req_dec_T s s). Qed.

(** The unit cell is set by [set_walls], through the special case of a zero
    inner wall. *)
Lemma unit_grid_run :
  run (set_walls unit_walls unit_walls unit_walls) empty_grid = (unit_grid, Return tt).
Proof.
  unfold unit_grid.
  apply (set_walls_succeeds unit_walls unit_walls unit_walls _ 0);
    simpl; try lia; [|done|eauto].
  unfold valid_walls. simpl. rewrite Rgtb_true by lra. done.
Qed.

Lemma sphere_run :
  run (set_walls sphere_r_wall sphere_t_wall sphere_p_wall) empty_grid =
  (walls_set [0; 1; 2] [0; PI / 2; PI] [0; PI; 2 * PI] empty_grid, Return tt).
Proof.
  pose proof PI_RGT_0.
  apply (set_walls_succeeds sphere_r_wall sphere_t_wall sphere_p_wall _ 0);
    simpl; try lia; [|done|eauto].
  unfold valid_walls. simpl. rewrite !Rgtb_true by lra. done.
Qed.

(** C7, where it fails.  The walls [0.], [0., 1.], [0., 1.] are 1-D and
    strictly increasing, and pass every check; line 84 then reads
    r_wall[1], which does not exist.  The call raises [IndexError] after the
    counts, the shape, the walls and [r] have been assigned, while the other
    centres, the volumes, the areas and the widths are still unset. *)
Theorem set_walls_lone_zero_wall_not_atomic :
  valid_walls lone_zero_wall unit_walls unit_walls = true ∧
  ∃ g', run (set_walls lone_zero_wall unit_walls unit_walls) empty_grid
        = (g', Raise (IndexError "index out of bounds")) ∧
        g' ≠ empty_grid ∧
        nr g' = Some 0%Z ∧ shape g' = Some [1; 1; 0]%Z ∧
        r_wall g' = Some [0] ∧ r g' = Some [] ∧
        t g' = None ∧ volumes g' = None ∧ areas g' = None ∧ widths g' = None.
Proof.
  assert (valid_walls lone_zero_wall unit_walls unit_walls = true) as Hvalid.
  { unfold valid_walls. simpl. rewrite Rgtb_true by lra. done. }
  split; [done|].
  exists (raised_at_centers [0] [0; 1] [0; 1] empty_grid). split.
  - rewrite set_walls_run. apply first_failed_check_None in Hvalid.
    rewrite Hvalid. simpl. by rewrite Reqb_refl.
  - split_and!; done.
Qed.

(** C4, where it fails.  A list of two arrays of the shape of the mesh is
    accepted, but the call returns nothing and the mesh holds no quantity
    afterwards: the stacked array is stored nowhere.  The empty list, whose
    items all have the shape of the mesh, is not accepted. *)
Lemma check_array_dimensions_stores_nothing :
  let array := QList [one_cell 1; one_cell 2] in
  run (_check_array_dimensions array) unit_grid = (unit_grid, Return tt) ∧
  (¬ ∃ name stored,
       quantities (run (_check_array_dimensions array) unit_grid).1 !! name
       = Some stored) ∧
  run (_check_array_dimensions (QList [])) unit_grid =
  (unit_grid, Raise (ValueError "need at least one array to concatenate")).
Proof.
  assert (run (_check_array_dimensions (QList [one_cell 1; one_cell 2])) unit_grid
          = (unit_grid, Return tt)) as Hrun.
  { apply (check_sequence_ok unit_grid 1 1 1 [one_cell 1; one_cell 2]);
      [done | by left | done | by repeat constructor]. }
  cbv zeta. rewrite Hrun. split_and!; [done | | done].
  intros (name & stored & Hstored).
  simpl in Hstored. by rewrite lookup_empty in Hstored.
Qed.

End RealMesh.

Section SectorVolume.
Local Open Scope R_scope.


End SectorVolume.

(** ** Counts, fields, widths and faces *)

(** Reading an attribute off the mesh that [walls_set] builds. *)
Ltac fields := cbn [nr nt np shape r_wall t_wall p_wall r t p gr gt gp gw gz
                    volumes areas widths quantities walls_set].

Section Fields.
Context {F : Type} `{FloatOps F}.
Implicit Types (g : SphericalPolarGrid (F:=F)) (a b c : pyobj F).
Implicit Types (x y z l : list F) (u v : array3 F).

Lemma length_centers_r x : length (centers_r x) = (length x - 1)%nat.
Proof.
  unfold centers_r. repeat case_match; rewrite ?length_insert; apply length_log_centers.
Qed.

Lemma has_shape3_centers x y z :
  let m := g_centers x y z in
  has_shape3 m.1.1 (length z - 1) (length y - 1) (length x - 1) ∧
  has_shape3 m.1.2 (length z - 1) (length y - 1) (length x - 1) ∧
  has_shape3 m.2 (length z - 1) (length y - 1) (length x - 1).
Proof.
  pose proof (has_shape3_meshgrid (centers_r x) (mid_centers y) (mid_centers z)) as Hm.
  by rewrite length_centers_r, !length_mid_centers in Hm.
Qed.

Lemma get4_0 u (faces : list (array3 F)) k j i :
  get4 (u :: faces) 0 k j i = get3 u k j i.
Proof. done. Qed.

Lemma get4_S u (faces : list (array3 F)) f k j i :
  get4 (u :: faces) (S f) k j i = get4 faces f k j i.
Proof. done. Qed.

(** The three broadcast fields at a cell whose centres exist. *)
Lemma cell_centers x y z k j i r_i t_j p_k :
  centers_r x !! i = Some r_i → mid_centers y !! j = Some t_j →
  mid_centers z !! k = Some p_k →
  get3 (g_centers x y z).1.1 k j i = Some r_i ∧
  get3 (g_centers x y z).1.2 k j i = Some t_j ∧
  get3 (g_centers x y z).2 k j i = Some p_k.
Proof.
  intros Hi Hj Hk. unfold g_centers. split_and!.
  - rewrite get3_meshgrid_x; congruence.
  - apply get3_meshgrid_y; congruence.
  - apply get3_meshgrid_z; congruence.
Qed.

(** X1. A call of [set_walls] that returns leaves cell counts that are not
    negative, the shape (np, nt, nr), the three walls with the elements it
    was given, one more wall than cells along every axis, and centre arrays
    [r], [t], [p] of nr, nt and np elements. *)
Theorem counts_walls_and_centers a b c g g' :
  run (set_walls a b c) g = (g', Return tt) →
  ∃ n_r n_t n_p rc tc pc,
    nr g' = Some n_r ∧ nt g' = Some n_t ∧ np g' = Some n_p ∧
    shape g' = Some [n_p; n_t; n_r] ∧
    0 <= n_r ∧ 0 <= n_t ∧ 0 <= n_p ∧
    r_wall g' = Some (values a) ∧ t_wall g' = Some (values b) ∧
    p_wall g' = Some (values c) ∧
    len (values a) = n_r + 1 ∧ len (values b) = n_t + 1 ∧
    len (values c) = n_p + 1 ∧
    r g' = Some rc ∧ t g' = Some tc ∧ p g' = Some pc ∧
    len rc = n_r ∧ len tc = n_t ∧ len pc = n_p.
Proof.
  intros Hrun.
  apply set_walls_Return in Hrun as (_ & (r0 & H0 & _) & Hb & Hc & ->).
  apply lookup_lt_Some in H0.
  eexists _, _, _, _, _, _. simpl.
  split_and!; try done; unfold len;
    rewrite ?length_centers_r, ?length_mid_centers; lia.
Qed.

(** X2. After [set_walls], [gr], [gt], [gp], [gz] and [gw] all have the shape
    (np, nt, nr); at cell (k, j, i) the first three hold r[i], t[j] and p[k],
    and the cylindrical coordinates are gz = r[i] * cos t[j] and
    gw = r[i] * sin t[j]. *)
Theorem broadcast_fields a b c g g' :
  run (set_walls a b c) g = (g', Return tt) →
  ∃ rc tc pc gr_ gt_ gp_ gz_ gw_,
    r g' = Some rc ∧ t g' = Some tc ∧ p g' = Some pc ∧
    gr g' = Some gr_ ∧ gt g' = Some gt_ ∧ gp g' = Some gp_ ∧
    gz g' = Some gz_ ∧ gw g' = Some gw_ ∧
    Forall (λ field, has_shape3 field (length pc) (length tc) (length rc))
      [gr_; gt_; gp_; gz_; gw_] ∧
    ∀ k j i r_i t_j p_k,
      rc !! i = Some r_i → tc !! j = Some t_j → pc !! k = Some p_k →
      get3 gr_ k j i = Some r_i ∧
      get3 gt_ k j i = Some t_j ∧
      get3 gp_ k j i = Some p_k ∧
      get3 gz_ k j i = Some (fmul r_i (fcos t_j)) ∧
      get3 gw_ k j i = Some (fmul r_i (fsin t_j)).
Proof.
  intros Hrun. apply set_walls_Return in Hrun as (_ & _ & _ & _ & ->).
  eexists _, _, _, _, _, _, _, _. fields.
  split_and!; try done.
  - rewrite length_centers_r, !length_mid_centers.
    destruct (has_shape3_centers (values a) (values b) (values c)) as (? & ? & ?).
    repeat apply Forall_cons_2; [..|apply Forall_nil_2];
      repeat first [apply has_shape3_map3 | apply has_shape3_zip3]; done.
  - intros k j i r_i t_j p_k Hi Hj Hk.
    destruct (cell_centers _ _ _ _ _ _ _ _ _ Hi Hj Hk) as (Hr & Ht & Hp).
    split_and!; try done; by rewrite get3_zip3, get3_map3, Hr, Ht.
Qed.

(** X3. After [set_walls], [widths] has shape (3, np, nt, nr); at cell
    (k, j, i) its three entries are r_wall[i+1] - r_wall[i],
    r[i] * (t_wall[j+1] - t_wall[j]) and
    r[i] * sin t[j] * (p_wall[k+1] - p_wall[k]), with r[i] and t[j] the cell
    centres. *)
Theorem widths_three_directions a b c g g' :
  run (set_walls a b c) g = (g', Return tt) →
  ∃ wd rc tc,
    widths g' = Some wd ∧ r g' = Some rc ∧ t g' = Some tc ∧
    length wd = 3%nat ∧
    Forall (λ direction, has_shape3 direction (length (values c) - 1)
              (length (values b) - 1) (length (values a) - 1)) wd ∧
    ∀ k j i ri ri1 tj tj1 pk pk1 r_i t_j,
      values a !! i = Some ri → values a !! S i = Some ri1 →
      values b !! j = Some tj → values b !! S j = Some tj1 →
      values c !! k = Some pk → values c !! S k = Some pk1 →
      rc !! i = Some r_i → tc !! j = Some t_j →
      get4 wd 0 k j i = Some (fsub ri1 ri) ∧
      get4 wd 1 k j i = Some (fmul r_i (fsub tj1 tj)) ∧
      get4 wd 2 k j i = Some (fmul (fmul r_i (fsin t_j)) (fsub pk1 pk)).
Proof.
  intros Hrun. apply set_walls_Return in Hrun as (_ & _ & _ & _ & ->).
  eexists _, _, _. fields. split_and!; try done.
  - destruct (has_shape3_centers (values a) (values b) (values c)) as (? & ? & ?).
    destruct (has_shape3_wall_min (values a) (values b) (values c)) as (? & ? & ?).
    destruct (has_shape3_wall_max (values a) (values b) (values c)) as (? & ? & ?).
    unfold widths_of, v_dr, v_dt, v_dp.
    repeat apply Forall_cons_2; [..|apply Forall_nil_2];
      repeat first [apply has_shape3_map3 | apply has_shape3_zip3]; done.
  - intros k j i ri ri1 tj tj1 pk pk1 r_i t_j Hri Hri1 Htj Htj1 Hpk Hpk1 Hi Hj.
    pose proof (lookup_mid_centers _ _ _ _ Hpk Hpk1) as Hk.
    destruct (cell_centers _ _ _ _ _ _ _ _ _ Hi Hj Hk) as (Hr & Ht & _).
    destruct (cell_min _ _ _ _ _ _ _ _ _ _ _ _ Hri Hri1 Htj Htj1 Hpk Hpk1)
      as (Hrmin & _ & _).
    destruct (cell_max _ _ _ _ _ _ _ _ _ _ _ _ Hri Hri1 Htj Htj1 Hpk Hpk1)
      as (Hrmax & _ & _).
    pose proof (cell_dt _ _ _ _ _ _ _ _ _ _ _ _ Hri Hri1 Htj Htj1 Hpk Hpk1) as Hdt.
    pose proof (cell_dp _ _ _ _ _ _ _ _ _ _ _ _ Hri Hri1 Htj Htj1 Hpk Hpk1) as Hdp.
    unfold widths_of. rewrite !get4_S, !get4_0. split_and!.
    + unfold v_dr. by rewrite get3_zip3, Hrmax, Hrmin.
    + by rewrite get3_zip3, Hr, Hdt.
    + by rewrite !get3_zip3, get3_map3, Hr, Ht, Hdp.
Qed.

(** The six faces of a cell whose walls exist. *)
Lemma cell_areas x y z k j i ri ri1 tj tj1 pk pk1 :
  x !! i = Some ri → x !! S i = Some ri1 →
  y !! j = Some tj → y !! S j = Some tj1 →
  z !! k = Some pk → z !! S k = Some pk1 →
  let dr2 := fsub (fpow ri1 two) (fpow ri two) in
  let dt := fsub tj1 tj in
  let dcost := fsub (fcos tj) (fcos tj1) in
  let dp := fsub pk1 pk in
  get4 (areas_of x y z) 0 k j i = Some (fmul (fmul (fpow ri two) dcost) dp) ∧
  get4 (areas_of x y z) 1 k j i = Some (fmul (fmul (fpow ri1 two) dcost) dp) ∧
  get4 (areas_of x y z) 2 k j i = Some (fmul (fmul (fmul half dr2) (fsin tj)) dp) ∧
  get4 (areas_of x y z) 3 k j i = Some (fmul (fmul (fmul half dr2) (fsin tj1)) dp) ∧
  get4 (areas_of x y z) 4 k j i = Some (fmul (fmul half dr2) dt) ∧
  get4 (areas_of x y z) 5 k j i = Some (fmul (fmul half dr2) dt).
Proof.
  intros Hri Hri1 Htj Htj1 Hpk Hpk1.
  destruct (cell_min _ _ _ _ _ _ _ _ _ _ _ _ Hri Hri1 Htj Htj1 Hpk Hpk1)
    as (Hrmin & Htmin & Hpmin).
  destruct (cell_max _ _ _ _ _ _ _ _ _ _ _ _ Hri Hri1 Htj Htj1 Hpk Hpk1)
    as (Hrmax & Htmax & Hpmax).
  pose proof (cell_dr2 _ _ _ _ _ _ _ _ _ _ _ _ Hri Hri1 Htj Htj1 Hpk Hpk1) as Hdr2.
  pose proof (cell_dcost _ _ _ _ _ _ _ _ _ _ _ _ Hri Hri1 Htj Htj1 Hpk Hpk1) as Hdc.
  pose proof (cell_dt _ _ _ _ _ _ _ _ _ _ _ _ Hri Hri1 Htj Htj1 Hpk Hpk1) as Hdt.
  pose proof (cell_dp _ _ _ _ _ _ _ _ _ _ _ _ Hri Hri1 Htj Htj1 Hpk Hpk1) as Hdp.
  unfold areas_of. rewrite !get4_S, !get4_0.
  split_and!; rewrite !get3_zip3, ?get3_map3, ?get3_zip3;
    rewrite ?Hrmin, ?Hrmax, ?Htmin, ?Htmax, ?Hdr2, ?Hdc, ?Hdt, ?Hdp; done.
Qed.

(** X4. After [set_walls], two cells that share a face store the same area
    for it: the outer radial face of cell (k, j, i) is the inner radial face
    of cell (k, j, i+1), and likewise along the polar and the azimuthal
    axes. *)
Theorem adjacent_cells_share_face_areas a b c g g' :
  run (set_walls a b c) g = (g', Return tt) →
  ∃ ar,
    areas g' = Some ar ∧
    ∀ k j i,
      is_Some (values a !! S i) → is_Some (values b !! S j) →
      is_Some (values c !! S k) →
      (is_Some (values a !! S (S i)) →
       is_Some (get4 ar 1 k j i) ∧ get4 ar 1 k j i = get4 ar 0 k j (S i)) ∧
      (is_Some (values b !! S (S j)) →
       is_Some (get4 ar 3 k j i) ∧ get4 ar 3 k j i = get4 ar 2 k (S j) i) ∧
      (is_Some (values c !! S (S k)) →
       is_Some (get4 ar 5 k j i) ∧ get4 ar 5 k j i = get4 ar 4 (S k) j i).
Proof.
  intros Hrun. apply set_walls_Return in Hrun as (_ & _ & _ & _ & ->).
  eexists. split; [done|].
  intros k j i [ri1 Hri1] [tj1 Htj1] [pk1 Hpk1].
  destruct (lookup_lt_is_Some_2 (values a) i) as [ri Hri];
    [apply lookup_lt_Some in Hri1; lia|].
  destruct (lookup_lt_is_Some_2 (values b) j) as [tj Htj];
    [apply lookup_lt_Some in Htj1; lia|].
  destruct (lookup_lt_is_Some_2 (values c) k) as [pk Hpk];
    [apply lookup_lt_Some in Hpk1; lia|].
  destruct (cell_areas _ _ _ _ _ _ _ _ _ _ _ _ Hri Hri1 Htj Htj1 Hpk Hpk1)
    as (_ & Hrmax & _ & Htmax & _ & Hpmax).
  split_and!.
  - intros [ri2 Hri2].
    destruct (cell_areas _ _ _ _ _ _ _ _ _ _ _ _ Hri1 Hri2 Htj Htj1 Hpk Hpk1)
      as (Hrmin & _).
    rewrite Hrmax, Hrmin. eauto.
  - intros [tj2 Htj2].
    destruct (cell_areas _ _ _ _ _ _ _ _ _ _ _ _ Hri Hri1 Htj1 Htj2 Hpk Hpk1)
      as (_ & _ & Htmin & _).
    rewrite Htmax, Htmin. eauto.
  - intros [pk2 Hpk2].
    destruct (cell_areas _ _ _ _ _ _ _ _ _ _ _ _ Hri Hri1 Htj Htj1 Hpk1 Hpk2)
      as (_ & _ & _ & _ & Hpmin & _).
    rewrite Hpmax, Hpmin. eauto.
Qed.

End Fields.

(** ** The outcomes of [set_walls] *)

Section Calls.
Context {F : Type} `{FloatOps F}.
Implicit Types (g : SphericalPolarGrid (F:=F)) (a b c : pyobj F).
Implicit Types (x y z l : list F) (u v : array3 F).

(** X5. The checks of lines 55-67 run in the order r, t, p for the
    dimension and then r, t, p for the order of the elements: the first one
    that fails gives the message of the [ValueError], and the mesh is left as
    it was. *)
Theorem set_walls_checks_in_order a b c g :
  let fails msg := run (set_walls a b c) g = (g, Raise (ValueError msg)) in
  (is_1d a = false → fails "r_wall should be a 1-D sequence") ∧
  (is_1d a = true → is_1d b = false → fails "t_wall should be a 1-D sequence") ∧
  (is_1d a = true → is_1d b = true → is_1d c = false →
   fails "p_wall should be a 1-D sequence") ∧
  (is_1d a = true → is_1d b = true → is_1d c = true →
   monotonically_increasing (values a) = false →
   fails "r_wall should be monotonically increasing") ∧
  (is_1d a = true → is_1d b = true → is_1d c = true →
   monotonically_increasing (values a) = true →
   monotonically_increasing (values b) = false →
   fails "t_wall should be monotonically increasing") ∧
  (is_1d a = true → is_1d b = true → is_1d c = true →
   monotonically_increasing (values a) = true →
   monotonically_increasing (values b) = true →
   monotonically_increasing (values c) = false →
   fails "p_wall should be monotonically increasing").
Proof.
  intros fails. subst fails. cbv beta. rewrite set_walls_run. unfold first_failed_check.
  split_and!; intros; repeat match goal with Hc : _ = _ |- _ => rewrite Hc; clear Hc end;
    done.
Qed.

(** X6. A list, a tuple and a 1-D array with the same elements are the same
    argument to [set_walls], in each of the three positions. *)
Theorem set_walls_list_tuple_array a b c x y z g :
  a = PyList x ∨ a = PyTuple x ∨ a = PyArray (NDArray [len x] x) →
  b = PyList y ∨ b = PyTuple y ∨ b = PyArray (NDArray [len y] y) →
  c = PyList z ∨ c = PyTuple z ∨ c = PyArray (NDArray [len z] z) →
  run (set_walls a b c) g = run (set_walls (PyList x) (PyList y) (PyList z)) g.
Proof.
  intros [->|[->| ->]] [->|[->| ->]] [->|[->| ->]]; reflexivity.
Qed.

(** X7. [set_walls] returns exactly when its arguments pass the six checks,
    there is a first radial wall, there is a second one when the first is
    zero, and there is at least one polar and one azimuthal wall. *)
Theorem set_walls_returns_iff a b c g :
  (∃ g', run (set_walls a b c) g = (g', Return tt)) ↔
  valid_walls a b c = true ∧
  (∃ r_wall_0, values a !! 0%nat = Some r_wall_0 ∧
     (feqb r_wall_0 zero = true → is_Some (values a !! 1%nat))) ∧
  values b ≠ [] ∧ values c ≠ [].
Proof.
  split.
  - intros [g' Hrun].
    apply set_walls_Return in Hrun as (Hvalid & Hr & Hb & Hc & _).
    split_and!; [done | done | |]; intros Hnil; rewrite Hnil in *; simpl in *; lia.
  - intros (Hvalid & (r_wall_0 & H0 & Hsecond) & Hb & Hc).
    eexists. apply (set_walls_succeeds _ _ _ _ r_wall_0); try done.
    + destruct (values b); [done | simpl; lia].
    + destruct (values c); [done | simpl; lia].
Qed.

(** X8. A call of [set_walls] that returns leaves nothing of an earlier one:
    called after another call that returned, it leaves the mesh it leaves
    when called in its place. *)
Theorem set_walls_again a b c a' b' c' g g1 g2 :
  run (set_walls a' b' c') g = (g1, Return tt) →
  run (set_walls a b c) g = (g2, Return tt) →
  run (set_walls a b c) g1 = (g2, Return tt).
Proof.
  intros Hfirst Hsecond.
  apply set_walls_Return in Hfirst as (_ & _ & _ & _ & ->).
  apply set_walls_Return in Hsecond as (Hvalid & (r_wall_0 & H0 & Hnext) & Hb & Hc & ->).
  by rewrite (set_walls_succeeds _ _ _ _ r_wall_0).
Qed.

End Calls.

(** ** What the quantity check accepts, and the loop of [read] *)

Section Checks.
Context {F : Type} `{FloatOps F}.
Implicit Types (g : SphericalPolarGrid (F:=F)) (items : list (ndarray F)).

Lemma check_items_Return {S} self_shape items (s s' : S) :
  check_items self_shape items s = (s', Return tt) →
  Forall (λ item, Some (arr_shape item) = self_shape) items.
Proof.
  induction items as [|item items IH]; [done|]. simpl.
  destruct (decide (Some (arr_shape item) = self_shape)) as [Heq|Hne].
  - rewrite bool_decide_false by (by intros ?). rewrite raise_if_false_bind.
    intros Hrest. constructor; auto.
  - rewrite bool_decide_true by done. by rewrite raise_if_true_bind.
Qed.

Lemma check_sequence_Return g (n_p n_t n_r : Z) items array :
  shape g = Some [n_p; n_t; n_r] →
  array = QList items ∨ array = QTuple items →
  run (_check_array_dimensions array) g = (g, Return tt) →
  items ≠ [] ∧ Forall (λ item, arr_shape item = [n_p; n_t; n_r]) items.
Proof.
  intros Hshape Harray. unfold run, _check_array_dimensions.
  rewrite bind_eq. cbn [get]. rewrite Hshape.
  assert ((check_items (Some [n_p; n_t; n_r]) items
             ≫= λ _ : (), stack_items (Some [n_p; n_t; n_r]) items
             ≫= λ _ : ndarray F, mret ()) g = (g, Return tt) →
          items ≠ [] ∧ Forall (λ item, arr_shape item = [n_p; n_t; n_r]) items)
    as Hcase.
  { rewrite bind_eq.
    destruct (check_items _ _ _) as [g1 [[]|e]] eqn:Hcheck; [|done].
    apply check_items_Return in Hcheck. intros Hstack. split.
    - intros ->. by rewrite bind_eq in Hstack.
    - eapply Forall_impl; [done|]. simpl. congruence. }
  destruct Harray as [-> | ->]; exact Hcase.
Qed.

(** X9. On a mesh whose shape is set, [_check_array_dimensions] returns for
    an array of that shape and for a list or tuple, not empty, of arrays of
    that shape, and for nothing else; whatever it is given, it leaves the
    mesh as it was. *)
Theorem check_array_dimensions_accepts_exactly g (n_p n_t n_r : Z) array :
  shape g = Some [n_p; n_t; n_r] →
  (run (_check_array_dimensions array) g).1 = g ∧
  (run (_check_array_dimensions array) g = (g, Return tt) ↔
   (∃ arr, array = QArray arr ∧ arr_shape arr = [n_p; n_t; n_r]) ∨
   (∃ items, (array = QList items ∨ array = QTuple items) ∧ items ≠ [] ∧
             Forall (λ item, arr_shape item = [n_p; n_t; n_r]) items)).
Proof.
  intros Hshape. split; [apply check_array_dimensions_pure|]. split.
  - intros Hrun. destruct array as [arr|items|items|filename path|repr].
    + left. exists arr. split; [done|].
      destruct (decide (arr_shape arr = [n_p; n_t; n_r])) as [|Hne]; [done|].
      by rewrite (check_array_bad _ _ _ Hshape Hne) in Hrun.
    + right. exists items. split; [by left|].
      eapply check_sequence_Return; eauto.
    + right. exists items. split; [by right|].
      eapply check_sequence_Return; eauto.
    + done.
    + done.
  - intros [(arr & -> & Harr) | (items & Harray & Hne & Hitems)].
    + by eapply check_array_ok.
    + by eapply check_sequence_ok.
Qed.

(** X10. On a mesh whose shape is still [None], [_check_array_dimensions]
    raises for every argument: an array, or the first item of a list or
    tuple, is reported against None, the empty list or tuple raises
    [TypeError], and any other value is not a list or a Numpy array. *)
Theorem check_array_dimensions_unset_mesh g array :
  shape g = None →
  ∃ e, run (_check_array_dimensions array) g = (g, Raise e) ∧
       e = match array with
           | QArray arr =>
               ValueError ("Array does not have the right dimensions: "
                           +:+ repr_tuple (arr_shape arr) +:+ " instead of None")
           | QList (item :: _) | QTuple (item :: _) =>
               ValueError ("Arrays in list do not have the right dimensions: "
                           +:+ repr_tuple (arr_shape item) +:+ " instead of None")
           | QList [] | QTuple [] =>
               TypeError "'NoneType' object is not iterable"
           | _ => ValueError "Array should be a list or a Numpy array"
           end.
Proof.
  intros Hshape. eexists. split; [|done].
  unfold run, _check_array_dimensions. rewrite bind_eq. cbn [get]. rewrite Hshape.
  destruct array as [arr|[|item items]|[|item items]|filename path|repr];
    try done; simpl; by rewrite ?bool_decide_true.
Qed.

End Checks.

Section Fingerprints.
Context {F : Type} `{FloatOps F} `{Hashlib F}.
Implicit Types (g : SphericalPolarGrid (F:=F)) (a b c : pyobj F).

Lemma tobytes_app (x y : list F) : tobytes (x ++ y) = (tobytes x ++ tobytes y)%list.
Proof. unfold tobytes. by rewrite fmap_app, concat_app. Qed.

(** X11. After a call of [set_walls] that returns, [get_geometry_id] returns
    the digest of the bytes of the radial, polar and azimuthal walls it was
    given, one after the other, and leaves the mesh as it is. *)
Theorem fingerprint_after_set_walls a b c g g' :
  run (set_walls a b c) g = (g', Return tt) →
  run get_geometry_id g' =
  (g', Return (md5_hexdigest (tobytes (values a ++ values b ++ values c)))).
Proof.
  intros Hrun. apply set_walls_Return in Hrun as (_ & _ & _ & _ & ->).
  rewrite !tobytes_app. by apply get_geometry_id_run.
Qed.

(** X12. The fingerprint does not see where one wall array ends and the next
    begins: two meshes whose walls, put end to end, are the same sequence
    have the same fingerprint. *)
Theorem fingerprint_ignores_wall_boundaries a b c a' b' c' g1 g1' g2 g2' :
  run (set_walls a b c) g1 = (g1', Return tt) →
  run (set_walls a' b' c') g2 = (g2', Return tt) →
  (values a ++ values b ++ values c = values a' ++ values b' ++ values c')%list →
  ∃ geometry_id,
    run get_geometry_id g1' = (g1', Return geometry_id) ∧
    run get_geometry_id g2' = (g2', Return geometry_id).
Proof.
  intros Hrun1 Hrun2 Hsame.
  apply set_walls_Return in Hrun1 as (_ & _ & _ & _ & ->).
  apply set_walls_Return in Hrun2 as (_ & _ & _ & _ & ->).
  eexists. split; [by apply get_geometry_id_run|].
  rewrite <-!tobytes_app, Hsame, !tobytes_app. by apply get_geometry_id_run.
Qed.

Implicit Types (physics : list (string * ndarray F)).

(** X13. The loop of lines 223-226 stores no quantity.  It leaves the mesh
    as it was, it returns exactly when no dataset of the physics group is
    selected, and otherwise it raises the [AttributeError] of the lookup
    [.array] on the first selected dataset. *)
Theorem read_quantities_stores_nothing sel physics g :
  ∃ result,
    run (read_quantities sel physics) g = (g, result) ∧
    (result = Return tt ↔
     ∀ quantity dataset,
       (quantity, dataset) ∈ physics → selected sel quantity = false) ∧
    (result ≠ Return tt →
     result = Raise (AttributeError "'Dataset' object has no attribute 'array'")).
Proof.
  unfold run. rewrite read_quantities_run. eexists. split; [done|].
  destruct (existsb _ physics) eqn:Hsel.
  - split; [|done]. split; [done|]. intros Hnone.
    apply existsb_exists in Hsel as ([quantity dataset] & Hin & Hq).
    apply list_elem_of_In in Hin. simpl in Hq.
    by rewrite (Hnone _ _ Hin) in Hq.
  - split; [|done]. split; [|done]. intros _ quantity dataset Hin.
    destruct (selected sel quantity) eqn:Hq; [|done].
    rewrite <-Hsel. symmetry. apply existsb_exists.
    exists (quantity, dataset). split; [by apply list_elem_of_In|done].
Qed.

End Fingerprints.

(** ** [write] *)

Section WritingProofs.
Context {F : Type} `{FloatOps F} `{Hashlib F} `{H5py} `{PyDict}.
Local Abbreviation keeps_self := (keeps_self (F:=F)) (only parsing).
Implicit Types (g : SphericalPolarGrid (F:=F)) (w : writing (F:=F)).
Implicit Types (grp geo phys : h5group (F:=F)) (group : h5root (F:=F)).
Implicit Types (value : qvalue (F:=F)) (items : list (string * qvalue (F:=F))).

Lemma get_geometry_id_None g :
  r_wall g = None ∨ t_wall g = None ∨ p_wall g = None →
  run get_geometry_id g =
  (g, Raise (TypeError "object supporting the buffer API required")).
Proof.
  intros Hnone. unfold run, get_geometry_id. rewrite bind_eq. cbn [get].
  destruct (r_wall g), (t_wall g), (p_wall g); try done;
    destruct Hnone as [?|[?|?]]; done.
Qed.

Lemma get_geometry_id_pure g : (run get_geometry_id g).1 = g.
Proof.
  unfold run, get_geometry_id. rewrite bind_eq. cbn [get].
  by destruct (r_wall g), (t_wall g), (p_wall g).
Qed.

Lemma keeps_self_bind {A B} (c : M (writing (F:=F)) A) (k : A → M (writing (F:=F)) B) :
  keeps_self c → (∀ x, keeps_self (k x)) → keeps_self (c ≫= k).
Proof.
  intros Hc Hk w. rewrite bind_eq. specialize (Hc w).
  destruct (c w) as [w1 [x|e]]; simpl in *; [|done].
  by rewrite Hk.
Qed.

Lemma keeps_self_ret {A} (x : A) : keeps_self (mret x).
Proof. done. Qed.

Lemma keeps_self_raise {A} e : keeps_self (raise (A:=A) e).
Proof. done. Qed.

Lemma keeps_self_get : keeps_self get.
Proof. done. Qed.

Lemma keeps_self_on_geometry {A} (c : h5group (F:=F) → h5group (F:=F) * outcome A) :
  keeps_self (on_geometry c).
Proof. intros w. unfold on_geometry. by destruct (c _). Qed.

Lemma keeps_self_on_physics {A} (c : h5group (F:=F) → h5group (F:=F) * outcome A) :
  keeps_self (on_physics c).
Proof. intros w. unfold on_physics. by destruct (c _). Qed.

Lemma keeps_self_on_self {A} (c : M SphericalPolarGrid A) :
  (∀ g, (c g).1 = g) → keeps_self (on_self c).
Proof. intros Hc w. unfold on_self. specialize (Hc (self_ w)). by destruct (c _). Qed.

Lemma keeps_self_write_wall name field wall compression wall_dtype :
  keeps_self (write_wall name field wall compression wall_dtype).
Proof.
  destruct wall; [|apply keeps_self_raise].
  apply keeps_self_bind; intros; apply keeps_self_on_geometry.
Qed.

Lemma keeps_self_write_quantities items sel copy absolute_paths compression dtype :
  keeps_self (write_quantities items sel copy absolute_paths compression dtype).
Proof.
  induction items as [|[quantity value] rest IH]; [apply keeps_self_ret|].
  cbn [write_quantities]. apply keeps_self_bind; [|done].
  destruct (selected sel quantity); [|apply keeps_self_ret].
  assert (keeps_self
            (on_self (_check_array_dimensions value);;
             on_physics (create_dataset quantity (Values value dtype) compression);;
             geometry_id ← on_self get_geometry_id;
             on_physics (assign (dset_attrs_set quantity "geometry" geometry_id)))).
  { apply keeps_self_bind; [|intros _].
    { apply keeps_self_on_self, check_array_dimensions_pure. }
    apply keeps_self_bind; [apply keeps_self_on_physics|intros _].
    apply keeps_self_bind; [|intros; apply keeps_self_on_physics].
    apply keeps_self_on_self, get_geometry_id_pure. }
  destruct value; try done. apply keeps_self_on_physics.
Qed.

Lemma keeps_self_write_body sel copy absolute_paths compression wall_dtype dtype :
  keeps_self (write_body sel copy absolute_paths compression wall_dtype dtype).
Proof.
  unfold write_body.
  apply keeps_self_bind; [apply keeps_self_on_geometry|intros _].
  apply keeps_self_bind; [apply keeps_self_on_self, get_geometry_id_pure|intros id].
  apply keeps_self_bind; [apply keeps_self_on_geometry|intros _].
  apply keeps_self_bind; [apply keeps_self_get|intros w].
  repeat (apply keeps_self_bind; [apply keeps_self_write_wall|intros _]).
  apply keeps_self_write_quantities.
Qed.

(** X17. Whatever its arguments and its outcome, [write] leaves the mesh as
    it was. *)
Theorem write_keeps_mesh sel copy absolute_paths compression wall_dtype dtype g group :
  (run (write sel copy absolute_paths compression wall_dtype dtype) (g, group)).1.1 = g.
Proof.
  unfold run, write.
  pose proof (keeps_self_write_body sel copy absolute_paths compression wall_dtype dtype
                {| self_ := g; g_geometry := default new_group (root_Geometry group);
                   g_physics := default new_group (root_Physics group) |}) as Hkeep.
  by destruct (write_body _ _ _ _ _ _ _) as [w o].
Qed.

Lemma on_geometry_assign_bind {B} f (k : unit → M (writing (F:=F)) B) w :
  (on_geometry (assign f) ≫= k) w = k tt (with_geometry (f (g_geometry w)) w).
Proof. by rewrite bind_eq. Qed.

Lemma on_physics_assign_bind {B} f (k : unit → M (writing (F:=F)) B) w :
  (on_physics (assign f) ≫= k) w = k tt (with_physics (f (g_physics w)) w).
Proof. by rewrite bind_eq. Qed.

Lemma with_geometry_id w : with_geometry (g_geometry w) w = w.
Proof. by destruct w. Qed.

Lemma with_physics_id w : with_physics (g_physics w) w = w.
Proof. by destruct w. Qed.

Lemma on_self_fingerprint_bind {B} (k : string → M (writing (F:=F)) B) w x y z :
  r_wall (self_ w) = Some x → t_wall (self_ w) = Some y → p_wall (self_ w) = Some z →
  (on_self get_geometry_id ≫= k) w =
  k (md5_hexdigest (tobytes x ++ tobytes y ++ tobytes z)%list) w.
Proof.
  intros Hx Hy Hz. rewrite bind_eq. unfold on_self.
  pose proof (get_geometry_id_run _ _ _ _ Hx Hy Hz) as Hid. unfold run in Hid.
  rewrite Hid. by destruct w.
Qed.

Lemma create_dataset_bind {B} name data compression (k : unit → M (writing (F:=F)) B) w :
  (on_geometry (create_dataset name data compression) ≫= k) w =
  if bool_decide (is_Some (h5_members (g_geometry w) !! name))
  then (w, Raise (name_exists name))
  else k tt (with_geometry
               (with_members
                  (<[name := Dataset {| ds_data := data; ds_compression := compression;
                                        ds_attrs := ∅ |}]> (h5_members (g_geometry w)))
                  (g_geometry w)) w).
Proof.
  rewrite bind_eq. unfold on_geometry, create_dataset.
  destruct (bool_decide _); [by destruct w|done].
Qed.

Lemma write_wall_bind {B} name field column compression wall_dtype
    (k : unit → M (writing (F:=F)) B) w :
  (write_wall name field (Some column) compression wall_dtype ≫= k) w =
  if bool_decide (is_Some (h5_members (g_geometry w) !! name))
  then (w, Raise (name_exists name))
  else k tt (with_geometry
               (with_members
                  (<[name := wall_dataset field wall_dtype column compression]>
                     (h5_members (g_geometry w)))
                  (g_geometry w)) w).
Proof.
  unfold write_wall. rewrite bind_eq, create_dataset_bind.
  destruct (bool_decide _); [done|].
  unfold on_geometry, assign, dset_attrs_set, with_geometry, with_members.
  cbn [g_geometry self_ g_physics h5_attrs h5_members].
  rewrite alter_insert_eq. cbn [ds_data ds_compression ds_attrs].
  by rewrite insert_empty.
Qed.

Lemma write_link_bind {B} quantity filename path copy absolute_paths
    (k : unit → M (writing (F:=F)) B) w :
  (on_physics (link_or_copy quantity filename path copy absolute_paths) ≫= k) w =
  if bool_decide (is_Some (h5_members (g_physics w) !! quantity))
  then (w, Raise (name_exists quantity))
  else k tt (with_physics
               (with_members
                  (<[quantity := if copy then Copied filename path
                                 else Linked filename path absolute_paths]>
                     (h5_members (g_physics w)))
                  (g_physics w)) w).
Proof.
  rewrite bind_eq. unfold on_physics, link_or_copy.
  destruct (bool_decide _); [by destruct w|done].
Qed.

Lemma write_dataset_bind {B} quantity value compression dtype
    (k : unit → M (writing (F:=F)) B) w x y z :
  r_wall (self_ w) = Some x → t_wall (self_ w) = Some y → p_wall (self_ w) = Some z →
  ((on_self (_check_array_dimensions value);;
    on_physics (create_dataset quantity (Values value dtype) compression);;
    geometry_id ← on_self get_geometry_id;
    on_physics (assign (dset_attrs_set quantity "geometry" geometry_id))) ≫= k) w =
  match (run (_check_array_dimensions value) (self_ w)).2 with
  | Return _ =>
      if bool_decide (is_Some (h5_members (g_physics w) !! quantity))
      then (w, Raise (name_exists quantity))
      else k tt (with_physics
                   (with_members
                      (<[quantity :=
                           Dataset {| ds_data := Values value dtype;
                                      ds_compression := compression;
                                      ds_attrs :=
                                        {["geometry" :=
                                            md5_hexdigest
                                              (tobytes x ++ tobytes y ++ tobytes z)%list]} |}]>
                         (h5_members (g_physics w)))
                      (g_physics w)) w)
  | Raise e => (w, Raise e)
  end.
Proof.
  intros Hx Hy Hz. rewrite bind_eq, bind_eq. unfold on_self at 1.
  pose proof (check_array_dimensions_pure value (self_ w)) as Hpure.
  unfold run in *.
  destruct (_check_array_dimensions value (self_ w)) as [s [[]|e]];
    simpl in Hpure; subst s; cbn [snd];
    replace {| self_ := self_ w; g_geometry := g_geometry w; g_physics := g_physics w |}
      with w by (by destruct w); [|done].
  rewrite bind_eq. unfold on_physics at 1, create_dataset.
  destruct (bool_decide _); [by destruct w|].
  rewrite (on_self_fingerprint_bind _ _ x y z) by done.
  unfold on_physics, assign, dset_attrs_set, with_physics, with_members.
  cbn [g_geometry self_ g_physics h5_attrs h5_members].
  rewrite alter_insert_eq. cbn [ds_data ds_compression ds_attrs].
  by rewrite insert_empty.
Qed.

Lemma write_quantities_ok items sel copy absolute_paths compression dtype w x y z :
  r_wall (self_ w) = Some x → t_wall (self_ w) = Some y → p_wall (self_ w) = Some z →
  NoDup items.*1 →
  (∀ quantity value,
     (quantity, value) ∈ items → selected sel quantity = true →
     h5_members (g_physics w) !! quantity = None ∧ writable (self_ w) value) →
  write_quantities items sel copy absolute_paths compression dtype w =
  (with_physics
     (with_members
        (written_members items sel
           (md5_hexdigest (tobytes x ++ tobytes y ++ tobytes z)%list)
           copy absolute_paths compression dtype (h5_members (g_physics w)))
        (g_physics w)) w,
   Return tt).
Proof.
  intros Hx Hy Hz. revert w Hx Hy Hz.
  induction items as [|[quantity value] rest IH]; intros w Hx Hy Hz Hnodup Hok.
  { by destruct w as [? ? []]. }
  apply NoDup_cons in Hnodup as [Hfresh Hnodup]. cbn [fmap list_fmap fst] in Hfresh.
  assert (∀ w1 : writing,
            self_ w1 = self_ w →
            (∀ q, q ≠ quantity →
                  h5_members (g_physics w1) !! q = h5_members (g_physics w) !! q) →
            ∀ q v, (q, v) ∈ rest → selected sel q = true →
                   h5_members (g_physics w1) !! q = None ∧ writable (self_ w1) v)
    as Hrest.
  { intros w1 Hself Hother q v Hin Hsel.
    rewrite Hself, Hother; [apply Hok; [by right|done]|].
    intros ->. apply Hfresh. apply list_elem_of_fmap. by exists (quantity, v). }
  cbn [write_quantities written_members foldl fst snd].
  destruct (selected sel quantity) eqn:Hsel.
  - destruct (Hok quantity value) as [Hfree Hwritable]; [by left|done|].
    assert (bool_decide (is_Some (h5_members (g_physics w) !! quantity)) = false)
      as Htaken by (rewrite Hfree; apply bool_decide_eq_false; by intros [? ?]).
    destruct Hwritable as [(filename & path & ->)|Hcheck].
    + rewrite write_link_bind, Htaken.
      rewrite IH; [done|done..| |].
      * done.
      * apply Hrest; [done|]. intros q Hq. cbn. by rewrite lookup_insert_ne.
    + assert (∀ B (k : unit → M (writing (F:=F)) B),
                (match value with
                 | QLink filename path =>
                     on_physics (link_or_copy quantity filename path copy absolute_paths)
                 | _ =>
                     on_self (_check_array_dimensions value);;
                     on_physics (create_dataset quantity (Values value dtype)
                                   compression);;
                     geometry_id ← on_self get_geometry_id;
                     on_physics (assign (dset_attrs_set quantity "geometry" geometry_id))
                 end ≫= k) w =
                k tt (with_physics
                        (with_members
                           (<[quantity :=
                                quantity_member value
                                  (md5_hexdigest (tobytes x ++ tobytes y ++ tobytes z)%list)
                                  copy absolute_paths compression dtype]>
                              (h5_members (g_physics w)))
                           (g_physics w)) w)) as Hstep.
      { intros B k.
        destruct value as [arr|vs|vs|filename path|repr];
          try (rewrite (write_dataset_bind _ _ _ _ _ _ x y z) by done;
               rewrite Hcheck, Htaken; done).
        unfold run, _check_array_dimensions in Hcheck. by rewrite bind_eq in Hcheck. }
      rewrite Hstep. rewrite IH; [done|done..| |].
      * done.
      * apply Hrest; [done|]. intros q Hq. cbn. by rewrite lookup_insert_ne.
  - change ((mret tt ≫= λ _ : (), write_quantities rest sel copy absolute_paths
                                    compression dtype) w)
      with (write_quantities rest sel copy absolute_paths compression dtype w).
    apply IH; try done. apply Hrest; done.
Qed.

Lemma write_quantities_Return items sel copy absolute_paths compression dtype w w' x y z :
  r_wall (self_ w) = Some x → t_wall (self_ w) = Some y → p_wall (self_ w) = Some z →
  write_quantities items sel copy absolute_paths compression dtype w = (w', Return tt) →
  ∀ quantity value,
    (quantity, value) ∈ items → selected sel quantity = true →
    h5_members (g_physics w) !! quantity = None ∧ writable (self_ w) value.
Proof.
  intros Hx Hy Hz. revert w Hx Hy Hz.
  induction items as [|[quantity value] rest IH]; intros w Hx Hy Hz Hrun q v Hin Hsel.
  { by apply elem_of_nil in Hin. }
  cbn [write_quantities] in Hrun.
  assert (∀ member,
            write_quantities rest sel copy absolute_paths compression dtype
              (with_physics
                 (with_members (<[quantity := member]> (h5_members (g_physics w)))
                    (g_physics w)) w) = (w', Return tt) →
            (q, v) ∈ rest →
            h5_members (g_physics w) !! q = None ∧ writable (self_ w) v) as Hrest.
  { intros member Hrun' Hin'.
    pose proof (λ Hx' Hy' Hz', IH _ Hx' Hy' Hz' Hrun' q v Hin' Hsel) as Hih.
    destruct (Hih Hx Hy Hz) as [Hfree Hwritable].
    split; [|done]. cbn in Hfree. by apply lookup_insert_None in Hfree as [? _]. }
  destruct (selected sel quantity) eqn:Hselq.
  - assert ((∃ filename path, value = QLink filename path) ∨
            ¬ ∃ filename path, value = QLink filename path)
      as [(filename & path & ->)|Hnolink]
      by (destruct value; eauto; right; by intros (? & ? & ?)).
    + rewrite write_link_bind in Hrun.
      destruct (bool_decide _) eqn:Htaken; [done|].
      apply bool_decide_eq_false in Htaken.
      apply elem_of_cons in Hin as [[= -> ->]|Hin]; [|by eapply Hrest].
      split; [|left; eauto].
      destruct (h5_members (g_physics w) !! quantity); [|done].
      by destruct Htaken.
    + assert (((on_self (_check_array_dimensions value);;
                on_physics (create_dataset quantity (Values value dtype) compression);;
                geometry_id ← on_self get_geometry_id;
                on_physics (assign (dset_attrs_set quantity "geometry" geometry_id)))
               ≫= λ _ : (), write_quantities rest sel copy absolute_paths compression
                              dtype) w = (w', Return tt)) as Hrun'.
      { destruct value; try done. destruct Hnolink; eauto. }
      clear Hrun. rewrite (write_dataset_bind _ _ _ _ _ _ x y z) in Hrun' by done.
      pose proof (check_array_dimensions_pure value (self_ w)) as Hpure.
      destruct (run (_check_array_dimensions value) (self_ w)) as [s [[]|e]] eqn:Hcheck;
        [|done]. simpl in Hpure. subst s. cbn [snd] in Hrun'.
      destruct (bool_decide _) eqn:Htaken; [done|].
      apply bool_decide_eq_false in Htaken.
      apply elem_of_cons in Hin as [[= -> ->]|Hin]; [|by eapply Hrest].
      split; [|by right].
      destruct (h5_members (g_physics w) !! quantity); [|done].
      by destruct Htaken.
  - apply elem_of_cons in Hin as [[= -> ->]|Hin]; [congruence|].
    eapply IH; eauto.
Qed.

(** The loop leaves the geometry group alone. *)
Lemma write_quantities_geometry items sel copy absolute_paths compression dtype w :
  g_geometry (write_quantities items sel copy absolute_paths compression dtype w).1
  = g_geometry w.
Proof.
  revert w. induction items as [|[quantity value] rest IH]; intros w; [done|].
  cbn [write_quantities]. rewrite bind_eq.
  assert (∀ (c : M (writing (F:=F)) unit), (∀ w0, g_geometry (c w0).1 = g_geometry w0) →
            g_geometry
              (match c w with
               | (s', Return x) =>
                   write_quantities rest sel copy absolute_paths compression dtype s'
               | (s', Raise e) => (s', Raise e)
               end).1 = g_geometry w) as Hstep.
  { intros c Hc. specialize (Hc w). destruct (c w) as [w1 [[]|e]]; simpl in *; [|done].
    by rewrite IH. }
  apply Hstep. intros w0.
  destruct (selected sel quantity); [|done].
  assert (∀ A (c : h5group (F:=F) → h5group (F:=F) * outcome A) w1,
            g_geometry (on_physics c w1).1 = g_geometry w1) as Hphysics.
  { intros A c w1. unfold on_physics. by destruct (c _). }
  assert (∀ A (c : M SphericalPolarGrid A) w1,
            g_geometry (on_self c w1).1 = g_geometry w1) as Hself.
  { intros A c w1. unfold on_self. by destruct (c _). }
  assert (g_geometry
            ((on_self (_check_array_dimensions value);;
              on_physics (create_dataset quantity (Values value dtype) compression);;
              geometry_id ← on_self get_geometry_id;
              on_physics (assign (dset_attrs_set quantity "geometry" geometry_id))) w0).1
          = g_geometry w0) as Hdataset.
  { rewrite bind_eq.
    pose proof (Hself _ (_check_array_dimensions value) w0) as Hg1.
    destruct (on_self _ w0) as [w1 [[]|e]]; simpl in Hg1; [|done]. rewrite <-Hg1.
    rewrite bind_eq.
    pose proof (Hphysics _ (create_dataset quantity (Values value dtype) compression)
                  w1) as Hg2.
    destruct (on_physics _ w1) as [w2 [[]|e]]; simpl in Hg2; [|done]. rewrite <-Hg2.
    rewrite bind_eq. pose proof (Hself _ get_geometry_id w2) as Hg3.
    destruct (on_self _ w2) as [w3 [id|e]]; simpl in Hg3; [|done]. rewrite <-Hg3.
    apply Hphysics. }
  destruct value; first [done | apply Hphysics].
Qed.

Lemma lookup_written_members items sel geometry_id copy absolute_paths compression
    dtype members :
  NoDup items.*1 →
  (∀ quantity value,
     (quantity, value) ∈ items → selected sel quantity = true →
     written_members items sel geometry_id copy absolute_paths compression dtype members
       !! quantity
     = Some (quantity_member value geometry_id copy absolute_paths compression dtype)) ∧
  (∀ quantity,
     quantity ∉ items.*1 ∨ selected sel quantity = false →
     written_members items sel geometry_id copy absolute_paths compression dtype members
       !! quantity
     = members !! quantity).
Proof.
  revert members. induction items as [|[q v] rest IH]; intros members Hnodup.
  { split; [|done]. intros ?? Hin. by apply elem_of_nil in Hin. }
  apply NoDup_cons in Hnodup as [Hfresh Hnodup]. cbn [fmap list_fmap fst] in Hfresh.
  unfold written_members. cbn [foldl fst snd].
  fold (written_members rest sel geometry_id copy absolute_paths compression dtype).
  split.
  - intros quantity value [[= -> ->]|Hin]%elem_of_cons Hsel.
    + rewrite Hsel. destruct (IH (<[q:=quantity_member v geometry_id copy absolute_paths
                                       compression dtype]> members) Hnodup) as [_ Hout].
      rewrite Hout by auto. apply lookup_insert_eq.
    + destruct (IH (if selected sel q
                    then <[q:=quantity_member v geometry_id copy absolute_paths
                                compression dtype]> members
                    else members) Hnodup) as [Hin' _].
      by apply Hin'.
  - intros quantity Hq.
    destruct (IH (if selected sel q
                  then <[q:=quantity_member v geometry_id copy absolute_paths
                              compression dtype]> members
                  else members) Hnodup) as [_ Hout].
    rewrite Hout.
    + destruct (selected sel q) eqn:Hsel; [|done].
      apply lookup_insert_ne. intros ->.
      destruct Hq as [Hq|Hq]; [|congruence]. apply Hq. cbn. left.
    + destruct Hq as [Hq|Hq]; [left|by right].
      intros Hq'. apply Hq. cbn. by right.
Qed.

Lemma not_taken (members : gmap string (h5member (F:=F))) name :
  members !! name = None → bool_decide (is_Some (members !! name)) = false.
Proof. intros ->. apply bool_decide_eq_false. by intros [? ?]. Qed.

Lemma taken_Some (members : gmap string (h5member (F:=F))) name :
  bool_decide (is_Some (members !! name)) = false → members !! name = None.
Proof.
  intros Htaken%bool_decide_eq_false. destruct (members !! name); [|done].
  by destruct Htaken.
Qed.

Lemma write_body_run sel copy absolute_paths compression wall_dtype dtype w x y z :
  r_wall (self_ w) = Some x → t_wall (self_ w) = Some y → p_wall (self_ w) = Some z →
  let geometry_id := md5_hexdigest (tobytes x ++ tobytes y ++ tobytes z)%list in
  let geo1 := attrs_set "geometry" geometry_id
                (attrs_set "grid_type" "sph_pol" (g_geometry w)) in
  let members := h5_members (g_geometry w) in
  let wall1 := wall_dataset "r" wall_dtype x compression in
  let wall2 := wall_dataset "t" wall_dtype y compression in
  write_body sel copy absolute_paths compression wall_dtype dtype w =
  if bool_decide (is_Some (members !! "Walls 1"))
  then (with_geometry geo1 w, Raise (name_exists "Walls 1"))
  else if bool_decide (is_Some (members !! "Walls 2"))
  then (with_geometry (with_members (<["Walls 1" := wall1]> members) geo1) w,
        Raise (name_exists "Walls 2"))
  else if bool_decide (is_Some (members !! "Walls 3"))
  then (with_geometry
          (with_members (<["Walls 2" := wall2]> (<["Walls 1" := wall1]> members)) geo1) w,
        Raise (name_exists "Walls 3"))
  else write_quantities (dict_items (quantities (self_ w))) sel copy absolute_paths
         compression dtype
         (with_geometry
            (written_geometry geometry_id wall_dtype compression x y z (g_geometry w)) w).
Proof.
  intros Hx Hy Hz geometry_id geo1 members wall1 wall2. unfold write_body.
  rewrite on_geometry_assign_bind.
  rewrite (on_self_fingerprint_bind _ _ x y z) by done.
  rewrite on_geometry_assign_bind.
  rewrite bind_eq. cbn [get with_geometry self_ g_geometry g_physics].
  rewrite Hx, Hy, Hz.
  rewrite write_wall_bind. cbn [with_geometry self_ g_geometry g_physics attrs_set h5_members].
  fold members. destruct (bool_decide (is_Some (members !! "Walls 1"))); [done|].
  rewrite write_wall_bind.
  cbn [with_geometry with_members self_ g_geometry g_physics attrs_set h5_members h5_attrs].
  rewrite lookup_insert_ne by done.
  destruct (bool_decide (is_Some (members !! "Walls 2"))); [done|].
  rewrite write_wall_bind.
  cbn [with_geometry with_members self_ g_geometry g_physics attrs_set h5_members h5_attrs].
  rewrite !lookup_insert_ne by done.
  destruct (bool_decide (is_Some (members !! "Walls 3"))); [done|].
  done.
Qed.

Lemma dict_items_lookup (m : gmap string (qvalue (F:=F))) quantity value :
  (quantity, value) ∈ dict_items m ↔ m !! quantity = Some value.
Proof. by rewrite dict_items_perm, elem_of_map_to_list. Qed.

Lemma dict_items_NoDup (m : gmap string (qvalue (F:=F))) : NoDup (dict_items m).*1.
Proof. rewrite dict_items_perm. apply NoDup_fst_map_to_list. Qed.

Lemma dict_items_keys (m : gmap string (qvalue (F:=F))) quantity :
  quantity ∈ (dict_items m).*1 ↔ is_Some (m !! quantity).
Proof.
  rewrite list_elem_of_fmap. split.
  - intros ([q v] & -> & Hin). apply dict_items_lookup in Hin. eauto.
  - intros [v Hv]. exists (quantity, v). split; [done|]. by apply dict_items_lookup.
Qed.

(** A container that can be written is written as follows. *)
Lemma write_run sel copy absolute_paths compression wall_dtype dtype g group x y z :
  can_write sel g group →
  r_wall g = Some x → t_wall g = Some y → p_wall g = Some z →
  let geometry_id := md5_hexdigest (tobytes x ++ tobytes y ++ tobytes z)%list in
  let geo0 := default new_group (root_Geometry group) in
  let phys0 := default new_group (root_Physics group) in
  run (write sel copy absolute_paths compression wall_dtype dtype) (g, group) =
  ((g, {| root_Geometry :=
            Some (written_geometry geometry_id wall_dtype compression x y z geo0);
          root_Physics :=
            Some (with_members
                    (written_members (dict_items (quantities g)) sel geometry_id
                       copy absolute_paths compression dtype (h5_members phys0))
                    phys0) |}),
   Return tt).
Proof.
  intros (_ & _ & _ & Hw1 & Hw2 & Hw3 & Hquantities) Hx Hy Hz geometry_id geo0 phys0.
  unfold run, write.
  rewrite (write_body_run _ _ _ _ _ _ _ x y z) by done.
  cbn [g_geometry self_ g_physics]. fold geo0 phys0.
  rewrite !not_taken by done.
  rewrite (write_quantities_ok _ _ _ _ _ _ _ x y z); try done.
  - apply dict_items_NoDup.
  - intros quantity value Hin Hsel. apply dict_items_lookup in Hin.
    by apply Hquantities.
Qed.

(** X18. When the container can be written, [write] returns, the mesh is
    unchanged, the geometry group holds the tag sph_pol, the fingerprint and
    the three walls, and the physics group holds every selected quantity
    under its name, a dataset tagged with the same fingerprint or what
    [link_or_copy] leaves for a link, with every other name as it was. *)
Theorem write_fills_container sel copy absolute_paths compression wall_dtype dtype
    g group x y z :
  can_write sel g group →
  r_wall g = Some x → t_wall g = Some y → p_wall g = Some z →
  let geometry_id := md5_hexdigest (tobytes x ++ tobytes y ++ tobytes z)%list in
  let geo0 := default new_group (root_Geometry group) in
  let phys0 := default new_group (root_Physics group) in
  ∃ phys,
    run (write sel copy absolute_paths compression wall_dtype dtype) (g, group) =
    ((g, {| root_Geometry :=
              Some (written_geometry geometry_id wall_dtype compression x y z geo0);
            root_Physics := Some phys |}),
     Return tt) ∧
    h5_attrs phys = h5_attrs phys0 ∧
    (∀ quantity value,
       quantities g !! quantity = Some value → selected sel quantity = true →
       h5_members phys !! quantity =
       Some (quantity_member value geometry_id copy absolute_paths compression dtype)) ∧
    (∀ quantity,
       quantities g !! quantity = None ∨ selected sel quantity = false →
       h5_members phys !! quantity = h5_members phys0 !! quantity).
Proof.
  intros Hcan Hx Hy Hz geometry_id geo0 phys0. eexists. split.
  { by apply write_run. }
  destruct (lookup_written_members (dict_items (quantities g)) sel geometry_id copy
              absolute_paths compression dtype (h5_members phys0)
              (dict_items_NoDup _)) as [Hin Hout].
  split_and!; [done | |].
  - intros quantity value Hq Hsel. apply Hin; [|done]. by apply dict_items_lookup.
  - intros quantity Hq. apply Hout. destruct Hq as [Hq|Hq]; [left|by right].
    rewrite dict_items_keys, Hq. by intros [? ?].
Qed.

Lemma write_body_without_walls sel copy absolute_paths compression wall_dtype dtype w :
  r_wall (self_ w) = None ∨ t_wall (self_ w) = None ∨ p_wall (self_ w) = None →
  write_body sel copy absolute_paths compression wall_dtype dtype w =
  (with_geometry (attrs_set "grid_type" "sph_pol" (g_geometry w)) w,
   Raise (TypeError "object supporting the buffer API required")).
Proof.
  intros Hnone. unfold write_body.
  rewrite on_geometry_assign_bind, bind_eq. unfold on_self at 1.
  cbn [with_geometry self_ g_geometry g_physics].
  pose proof (get_geometry_id_None (self_ w) Hnone) as Hid. unfold run in Hid.
  by rewrite Hid.
Qed.

Lemma write_Return sel copy absolute_paths compression wall_dtype dtype g group result :
  run (write sel copy absolute_paths compression wall_dtype dtype) (g, group)
  = (result, Return tt) →
  can_write sel g group.
Proof.
  intros Hrun.
  destruct (r_wall g) as [x|] eqn:Hx; [|exfalso];
    [destruct (t_wall g) as [y|] eqn:Hy; [|exfalso];
       [destruct (p_wall g) as [z|] eqn:Hz; [|exfalso]|]|].
  2-4: unfold run, write in Hrun;
       rewrite write_body_without_walls in Hrun
         by (cbn [self_]; rewrite ?Hx, ?Hy, ?Hz; auto);
       done.
  unfold run, write in Hrun.
  rewrite (write_body_run _ _ _ _ _ _ _ x y z) in Hrun by done.
  cbn [g_geometry self_ g_physics] in Hrun.
  destruct (bool_decide (is_Some (_ !! "Walls 1"))) eqn:Hw1; [done|].
  destruct (bool_decide (is_Some (_ !! "Walls 2"))) eqn:Hw2; [done|].
  destruct (bool_decide (is_Some (_ !! "Walls 3"))) eqn:Hw3; [done|].
  apply taken_Some in Hw1, Hw2, Hw3.
  destruct (write_quantities _ _ _ _ _ _ _) as [w' [[]|e]] eqn:Hloop; [|done].
  pose proof (λ Hx' Hy' Hz', write_quantities_Return _ _ _ _ _ _ _ _ x y z
                               Hx' Hy' Hz' Hloop) as Hok.
  specialize (Hok Hx Hy Hz).
  split_and!; [eauto..|].
  intros quantity value Hq Hsel. apply (Hok quantity value); [|done].
  by apply dict_items_lookup.
Qed.

(** X19. [write] returns exactly when the walls are set, the names
    'Walls 1', 'Walls 2' and 'Walls 3' are free in the geometry group, and
    every selected quantity has its name free in the physics group and is a
    link or passes [_check_array_dimensions]. *)
Theorem write_returns_iff sel copy absolute_paths compression wall_dtype dtype g group :
  (∃ result,
     run (write sel copy absolute_paths compression wall_dtype dtype) (g, group)
     = (result, Return tt)) ↔
  can_write sel g group.
Proof.
  split.
  - intros [result Hrun]. by eapply write_Return.
  - intros Hcan. pose proof Hcan as ([x Hx] & [y Hy] & [z Hz] & _).
    eexists. by apply (write_run _ _ _ _ _ _ _ _ x y z).
Qed.

(** X20. On a mesh with a wall that is still [None], [write] raises
    [TypeError] from [get_geometry_id]; by then the two groups exist and the
    geometry group is tagged sph_pol, and nothing else has been written. *)
Theorem write_unset_walls sel copy absolute_paths compression wall_dtype dtype g group :
  r_wall g = None ∨ t_wall g = None ∨ p_wall g = None →
  ∃ msg,
    run (write sel copy absolute_paths compression wall_dtype dtype) (g, group) =
    ((g, {| root_Geometry :=
              Some (attrs_set "grid_type" "sph_pol"
                      (default new_group (root_Geometry group)));
            root_Physics := Some (default new_group (root_Physics group)) |}),
     Raise (TypeError msg)).
Proof.
  intros Hnone. eexists. unfold run, write.
  rewrite write_body_without_walls by done.
  by cbn [with_geometry self_ g_geometry g_physics].
Qed.

Lemma written_geometry_again geometry_id wall_dtype compression x y z geo :
  attrs_set "geometry" geometry_id
    (attrs_set "grid_type" "sph_pol"
       (written_geometry geometry_id wall_dtype compression x y z geo))
  = written_geometry geometry_id wall_dtype compression x y z geo.
Proof.
  unfold attrs_set, written_geometry. cbn [h5_attrs h5_members]. f_equal.
  rewrite (insert_id _ "grid_type" "sph_pol").
  - apply insert_insert_eq.
  - rewrite lookup_insert_ne by done. apply lookup_insert_eq.
Qed.

(** X21. After a call of [write] that returned, any further call on the same
    mesh and container raises on 'Walls 1', whose name is taken, and leaves
    the container as the first call left it. *)
Theorem write_again_fails sel copy absolute_paths compression wall_dtype dtype
    sel' copy' absolute_paths' compression' wall_dtype' dtype' g group g' group' :
  run (write sel copy absolute_paths compression wall_dtype dtype) (g, group)
  = ((g', group'), Return tt) →
  run (write sel' copy' absolute_paths' compression' wall_dtype' dtype') (g', group')
  = ((g', group'), Raise (name_exists "Walls 1")).
Proof.
  intros Hrun. pose proof (write_Return _ _ _ _ _ _ _ _ _ Hrun) as Hcan.
  pose proof Hcan as ([x Hx] & [y Hy] & [z Hz] & _).
  rewrite (write_run _ _ _ _ _ _ _ _ x y z) in Hrun by done.
  injection Hrun as <- <-.
  unfold run, write. rewrite (write_body_run _ _ _ _ _ _ _ x y z) by done.
  cbn [g_geometry self_ g_physics root_Geometry root_Physics default].
  unfold Datatypes.id. rewrite bool_decide_true.
  - unfold with_geometry. cbn [g_geometry self_ g_physics].
    by rewrite written_geometry_again.
  - unfold written_geometry. cbn [h5_members].
    rewrite !lookup_insert_ne by done. rewrite lookup_insert_eq. eauto.
Qed.

(** X22. A selected quantity that is not a link and fails
    [_check_array_dimensions] makes [write] raise, but only after the
    geometry group has been written in full. *)
Theorem write_rejected_quantity sel copy absolute_paths compression wall_dtype dtype
    g group x y z quantity value e :
  r_wall g = Some x → t_wall g = Some y → p_wall g = Some z →
  h5_members (default new_group (root_Geometry group)) !! "Walls 1" = None →
  h5_members (default new_group (root_Geometry group)) !! "Walls 2" = None →
  h5_members (default new_group (root_Geometry group)) !! "Walls 3" = None →
  quantities g !! quantity = Some value → selected sel quantity = true →
  (∀ filename path, value ≠ QLink filename path) →
  run (_check_array_dimensions value) g = (g, Raise e) →
  ∃ phys e',
    run (write sel copy absolute_paths compression wall_dtype dtype) (g, group) =
    ((g, {| root_Geometry :=
              Some (written_geometry
                      (md5_hexdigest (tobytes x ++ tobytes y ++ tobytes z)%list)
                      wall_dtype compression x y z
                      (default new_group (root_Geometry group)));
            root_Physics := Some phys |}),
     Raise e').
Proof.
  intros Hx Hy Hz Hw1 Hw2 Hw3 Hq Hsel Hnolink Hcheck.
  unfold run, write. rewrite (write_body_run _ _ _ _ _ _ _ x y z) by done.
  cbn [g_geometry self_ g_physics]. rewrite !not_taken by done.
  set (w1 := with_geometry _ _).
  pose proof (keeps_self_write_quantities (dict_items (quantities g)) sel copy
                absolute_paths compression dtype w1) as Hself.
  pose proof (write_quantities_geometry (dict_items (quantities g)) sel copy
                absolute_paths compression dtype w1) as Hgeo.
  destruct (write_quantities _ _ _ _ _ _ w1) as [w' [[]|e']] eqn:Hloop;
    cbn [fst] in Hself, Hgeo.
  - exfalso.
    pose proof (λ Hx' Hy' Hz', write_quantities_Return _ _ _ _ _ _ _ _ x y z
                                 Hx' Hy' Hz' Hloop quantity value) as Hok.
    destruct (Hok Hx Hy Hz) as [_ [(filename & path & ->)|Hreturn]];
      [by apply dict_items_lookup | done | by eapply Hnolink | ].
    cbn [w1 with_geometry self_] in Hreturn. congruence.
  - exists (g_physics w'), e'. by rewrite Hself, Hgeo.
Qed.

End WritingProofs.

(** ** The theorems on the unit cell *)

Section UnitCell.
Local Open Scope R_scope.

(** The unit cell: one volume, the wedge between its six walls. *)
Lemma volumes_exact_wedge_witness :
  ∃ vol,
    run (set_walls unit_walls unit_walls unit_walls) empty_grid
    = (unit_grid, Return tt) ∧
    volumes unit_grid = Some vol ∧
    has_shape3 vol 1 1 1 ∧
    get3 vol 0 0 0 = Some ((1 ^ 3 - 0 ^ 3) * (cos 0 - cos 1) * (1 - 0) / 3).
Proof.
  destruct (volumes_exact_wedge _ _ _ _ _ unit_grid_run)
    as (vol & Hvol & _ & Hshape & Hcell).
  exists vol. split_and!; [apply unit_grid_run | done | exact Hshape |].
  rewrite (Hcell 0%nat 0%nat 0%nat 0 1 0 1 0 1) by done.
  simpl. by rewrite !Rpow_3.
Defined.

(** The six faces of the outer cell (k, j, i) = (1, 0, 1) of the sphere of
    radius 2 cut in two along every axis. *)
Lemma areas_six_faces_witness :
  ∃ g' ar,
    run (set_walls sphere_r_wall sphere_t_wall sphere_p_wall) empty_grid
    = (g', Return tt) ∧
    areas g' = Some ar ∧ length ar = 6%nat ∧
    get4 ar 0 1 0 1 = Some (1 ^ 2 * (cos 0 - cos (PI / 2)) * (2 * PI - PI)) ∧
    get4 ar 1 1 0 1 = Some (2 ^ 2 * (cos 0 - cos (PI / 2)) * (2 * PI - PI)) ∧
    get4 ar 2 1 0 1 = Some (/ 2 * (2 ^ 2 - 1 ^ 2) * sin 0 * (2 * PI - PI)) ∧
    get4 ar 3 1 0 1 = Some (/ 2 * (2 ^ 2 - 1 ^ 2) * sin (PI / 2) * (2 * PI - PI)) ∧
    get4 ar 4 1 0 1 = Some (/ 2 * (2 ^ 2 - 1 ^ 2) * (PI / 2 - 0)) ∧
    get4 ar 5 1 0 1 = Some (/ 2 * (2 ^ 2 - 1 ^ 2) * (PI / 2 - 0)).
Proof.
  destruct (areas_six_faces sphere_r_wall sphere_t_wall sphere_p_wall empty_grid 0)
    as (g' & ar & Hrun & Har & Hlen & _ & Hcell).
  - pose proof PI_RGT_0. unfold valid_walls. simpl.
    rewrite !Rgtb_true by lra. done.
  - done.
  - intros _. by exists 1.
  - simpl. lia.
  - simpl. lia.
  - exists g', ar.
    destruct (Hcell 1%nat 0%nat 1%nat 1 2 0 (PI / 2) PI (2 * PI))
      as (H0 & H1 & H2 & H3 & H4 & H5); try done.
    simpl in H0, H1, H2, H3, H4, H5. rewrite !Rpow_2 in *.
    split_and!; done.
Defined.

(** A stored 3 x 3 x 3 quantity survives the setting of a 1 x 1 x 1 mesh. *)
Lemma set_walls_keeps_quantities_witness :
  quantities unit_grid = quantities (empty_grid (F:=R)) ∧
  run (set_walls unit_walls unit_walls unit_walls)
    (set_quantities {["density" := QArray (NDArray [3; 3; 3]%Z [])]} empty_grid)
  = (set_quantities {["density" := QArray (NDArray [3; 3; 3]%Z [])]} unit_grid,
     Return tt).
Proof.
  destruct (set_walls_keeps_quantities _ _ _ _ _ unit_grid_run) as [Hq Hany].
  split; [exact Hq | apply Hany].
Defined.

(** On the unit cell a 1 x 1 x 1 array passes and a 2 x 1 x 1 array is
    reported against (1, 1, 1). *)
Lemma check_array_dimensions_shapes_witness :
  shape unit_grid = Some [1; 1; 1]%Z ∧
  run (_check_array_dimensions (QArray (one_cell 7))) unit_grid
  = (unit_grid, Return tt) ∧
  run (_check_array_dimensions (QArray (NDArray [2; 1; 1]%Z [7; 8]))) unit_grid
  = (unit_grid,
     Raise (ValueError
       "Array does not have the right dimensions: (2, 1, 1) instead of (1, 1, 1)")).
Proof.
  destruct (check_array_dimensions_shapes unit_grid 1 1 1 eq_refl)
    as (Hsame & Hother & _ & _).
  split_and!; [done | by apply Hsame | by apply Hother].
Defined.

(** A container tagged sph_pol whose stored fingerprint is wrong. *)
Lemma read_calls_undefined_set_witness :
  attrs_grid_type (Geometry sph_pol_container) = "sph_pol" ∧
  run (read sph_pol_container All) empty_grid =
  (empty_grid,
   Raise (AttributeError "'SphericalPolarGrid' object has no attribute 'set'")).
Proof. split; [done | by apply read_calls_undefined_set]. Defined.

(** A container tagged as a cartesian grid. *)
Lemma read_rejects_other_grid_type_witness :
  attrs_grid_type (Geometry car_container) ≠ "sph_pol" ∧
  run (read car_container All) unit_grid =
  (unit_grid, Raise (ValueError "Grid is not spherical polar")).
Proof. split; [done | by apply read_rejects_other_grid_type]. Defined.

End UnitCell.

(** ** The further theorems on examples *)

Section Examples.
Local Open Scope R_scope.

Lemma sphere_grid_run :
  run (set_walls sphere_r_wall sphere_t_wall sphere_p_wall) empty_grid
  = (sphere_grid, Return tt).
Proof. apply sphere_run. Qed.

(** The sphere has two cells along every axis. *)
Lemma counts_walls_and_centers_witness :
  ∃ rc tc pc,
    nr sphere_grid = Some 2%Z ∧ nt sphere_grid = Some 2%Z ∧
    np sphere_grid = Some 2%Z ∧ shape sphere_grid = Some [2; 2; 2]%Z ∧
    r_wall sphere_grid = Some [0; 1; 2] ∧
    r sphere_grid = Some rc ∧ t sphere_grid = Some tc ∧ p sphere_grid = Some pc ∧
    len rc = 2%Z ∧ len tc = 2%Z ∧ len pc = 2%Z.
Proof.
  destruct (counts_walls_and_centers _ _ _ _ _ sphere_grid_run)
    as (n_r & n_t & n_p & rc & tc & pc & Hnr & Hnt & Hnp & Hshape & _ & _ & _
        & Hwall & _ & _ & _ & _ & _ & Hr & Ht & Hp & Hlr & Hlt & Hlp).
  injection Hnr as <-. injection Hnt as <-. injection Hnp as <-.
  exists rc, tc, pc. split_and!; done.
Defined.

(** The cell of the unit mesh: its centre is at radius 1/2 and angle 1/2. *)
Lemma broadcast_fields_witness :
  ∃ gr_ gz_ gw_,
    gr unit_grid = Some gr_ ∧ gz unit_grid = Some gz_ ∧ gw unit_grid = Some gw_ ∧
    get3 gr_ 0 0 0 = Some (1 / 2) ∧
    get3 gz_ 0 0 0 = Some (1 / 2 * cos ((0 + 1) / 2)) ∧
    get3 gw_ 0 0 0 = Some (1 / 2 * sin ((0 + 1) / 2)).
Proof.
  destruct (broadcast_fields _ _ _ _ _ unit_grid_run)
    as (rc & tc & pc & gr_ & gt_ & gp_ & gz_ & gw_ & Hr & Ht & Hp & Hgr & _ & _
        & Hgz & Hgw & _ & Hcell).
  injection Hr as <-. injection Ht as <-. injection Hp as <-.
  destruct (Hcell 0%nat 0%nat 0%nat (1 / 2) ((0 + 1) / 2) ((0 + 1) / 2))
    as (Hcr & _ & _ & Hcz & Hcw).
  { unfold centers_r. simpl. by rewrite Reqb_refl. }
  { done. }
  { done. }
  exists gr_, gz_, gw_. split_and!; done.
Defined.

(** The three widths of the cell of the unit mesh. *)
Lemma widths_three_directions_witness :
  ∃ wd,
    widths unit_grid = Some wd ∧ length wd = 3%nat ∧
    get4 wd 0 0 0 0 = Some (1 - 0) ∧
    get4 wd 1 0 0 0 = Some (1 / 2 * (1 - 0)) ∧
    get4 wd 2 0 0 0 = Some (1 / 2 * sin ((0 + 1) / 2) * (1 - 0)).
Proof.
  destruct (widths_three_directions _ _ _ _ _ unit_grid_run)
    as (wd & rc & tc & Hwd & Hr & Ht & Hlen & _ & Hcell).
  injection Hr as <-. injection Ht as <-.
  destruct (Hcell 0%nat 0%nat 0%nat 0 1 0 1 0 1 (1 / 2) ((0 + 1) / 2))
    as (Hw0 & Hw1 & Hw2); try done.
  { unfold centers_r. simpl. by rewrite Reqb_refl. }
  exists wd. split_and!; done.
Defined.

(** The two radial cells of the sphere meet at radius 1. *)
Lemma adjacent_cells_share_face_areas_witness :
  ∃ ar,
    areas sphere_grid = Some ar ∧
    is_Some (get4 ar 1 0 0 0) ∧ get4 ar 1 0 0 0 = get4 ar 0 0 0 1 ∧
    get4 ar 3 0 0 0 = get4 ar 2 0 1 0 ∧ get4 ar 5 0 0 0 = get4 ar 4 1 0 0.
Proof.
  destruct (adjacent_cells_share_face_areas _ _ _ _ _ sphere_grid_run)
    as (ar & Har & Hcell).
  destruct (Hcell 0%nat 0%nat 0%nat) as (Hr & Ht & Hp); simpl; eauto.
  destruct Hr as [Hsome Hr]; [simpl; eauto|].
  destruct Ht as [_ Ht]; [simpl; eauto|].
  destruct Hp as [_ Hp]; [simpl; eauto|].
  exists ar. split_and!; done.
Defined.

(** A polar wall array of two dimensions is reported before a radial wall
    array that does not increase. *)
Lemma set_walls_checks_in_order_witness :
  run (set_walls (walls [2; 1]%Z) (PyArray (NDArray [1; 2]%Z [SNum 0; SNum 1]))
         (walls [0; 1]%Z)) empty_grid
  = (empty_grid, Raise (ValueError "t_wall should be a 1-D sequence")).
Proof.
  destruct (set_walls_checks_in_order (walls [2; 1]%Z)
              (PyArray (NDArray [1; 2]%Z [SNum 0; SNum 1])) (walls [0; 1]%Z) empty_grid)
    as (_ & Ht & _).
  by apply Ht.
Defined.

(** The unit cell from a tuple, an array and a list. *)
Lemma set_walls_list_tuple_array_witness :
  run (set_walls (PyTuple [0; 1]) (PyArray (NDArray [2%Z] [0; 1])) (PyList [0; 1]))
    empty_grid
  = (unit_grid, Return tt).
Proof.
  rewrite (set_walls_list_tuple_array _ _ _ [0; 1] [0; 1] [0; 1]) by auto.
  apply unit_grid_run.
Defined.

(** The unit cell set on the sphere. *)
Lemma set_walls_again_witness :
  run (set_walls unit_walls unit_walls unit_walls) sphere_grid = (unit_grid, Return tt).
Proof. exact (set_walls_again _ _ _ _ _ _ _ _ _ sphere_grid_run unit_grid_run). Defined.

(** On the unit cell a list of two arrays of its shape is accepted. *)
Lemma check_array_dimensions_accepts_exactly_witness :
  shape unit_grid = Some [1; 1; 1]%Z ∧
  run (_check_array_dimensions (QList [one_cell 1; one_cell 2])) unit_grid
  = (unit_grid, Return tt).
Proof.
  destruct (check_array_dimensions_accepts_exactly unit_grid 1 1 1
              (QList [one_cell 1; one_cell 2]) eq_refl) as [_ [_ Haccept]].
  split; [done|]. apply Haccept. right. exists [one_cell 1; one_cell 2].
  split_and!; [by left | done | by repeat constructor].
Defined.

(** On a mesh without walls an array of one cell is reported against None. *)
Lemma check_array_dimensions_unset_mesh_witness :
  shape (empty_grid (F:=R)) = None ∧
  run (_check_array_dimensions (QArray (one_cell 1))) empty_grid
  = (empty_grid,
     Raise (ValueError
       "Array does not have the right dimensions: (1, 1, 1) instead of None")).
Proof.
  destruct (check_array_dimensions_unset_mesh (empty_grid (F:=R)) (QArray (one_cell 1))
              eq_refl) as (e & Hrun & ->).
  split; [done | exact Hrun].
Defined.

(** The fingerprint of the unit cell. *)
Lemma fingerprint_after_set_walls_witness :
  run get_geometry_id unit_grid =
  (unit_grid,
   Return (md5_hexdigest (tobytes ([0; 1] ++ [0; 1] ++ [0; 1])%list))).
Proof. exact (fingerprint_after_set_walls _ _ _ _ _ unit_grid_run). Defined.

(** Two meshes of different shapes, with the same seven wall values. *)
Lemma fingerprint_ignores_wall_boundaries_witness :
  ∃ g1 g2 geometry_id,
    run (set_walls (PyList [0; 1; 2]) (PyList [3; 4]) (PyList [5; 6])) empty_grid
    = (g1, Return tt) ∧
    run (set_walls (PyList [0; 1]) (PyList [2; 3; 4]) (PyList [5; 6])) empty_grid
    = (g2, Return tt) ∧
    shape g1 = Some [1; 1; 2]%Z ∧ shape g2 = Some [1; 2; 1]%Z ∧
    run get_geometry_id g1 = (g1, Return geometry_id) ∧
    run get_geometry_id g2 = (g2, Return geometry_id).
Proof.
  assert (run (set_walls (PyList [0; 1; 2]) (PyList [3; 4]) (PyList [5; 6])) empty_grid
          = (walls_set [0; 1; 2] [3; 4] [5; 6] empty_grid, Return tt)) as Hrun1.
  { apply (set_walls_succeeds (PyList [0; 1; 2]) (PyList [3; 4]) (PyList [5; 6]) _ 0);
      simpl; try lia; [|done|eauto].
    unfold valid_walls. simpl. rewrite !Rgtb_true by lra. done. }
  assert (run (set_walls (PyList [0; 1]) (PyList [2; 3; 4]) (PyList [5; 6])) empty_grid
          = (walls_set [0; 1] [2; 3; 4] [5; 6] empty_grid, Return tt)) as Hrun2.
  { apply (set_walls_succeeds (PyList [0; 1]) (PyList [2; 3; 4]) (PyList [5; 6]) _ 0);
      simpl; try lia; [|done|eauto].
    unfold valid_walls. simpl. rewrite !Rgtb_true by lra. done. }
  destruct (fingerprint_ignores_wall_boundaries _ _ _ _ _ _ _ _ _ _ Hrun1 Hrun2 eq_refl)
    as (geometry_id & Hid1 & Hid2).
  eexists _, _, geometry_id.
  split_and!; [exact Hrun1 | exact Hrun2 | reflexivity | reflexivity
              | exact Hid1 | exact Hid2].
Defined.

Lemma density_grid_can_write : can_write All density_grid empty_container.
Proof.
  unfold can_write. split_and!.
  - by exists [0; 1].
  - by exists [0; 1].
  - by exists [0; 1].
  - apply lookup_empty.
  - apply lookup_empty.
  - apply lookup_empty.
  - intros quantity value Hq _.
    unfold density_grid, set_quantities in Hq. cbn [quantities] in Hq.
    apply lookup_singleton_Some in Hq as [<- <-]. split; [apply lookup_empty|].
    right. by apply (check_array_ok _ [1; 1; 1]%Z).
Qed.

(** The unit cell and its density, written to an empty container. *)
Lemma write_fills_container_witness :
  ∃ geo phys,
    run (write All true false true "float" "float") (density_grid, empty_container)
    = ((density_grid, {| root_Geometry := Some geo; root_Physics := Some phys |}),
       Return tt) ∧
    h5_attrs geo !! "grid_type" = Some "sph_pol" ∧
    h5_attrs geo !! "geometry" = Some "d41d8cd98f00b204e9800998ecf8427e" ∧
    h5_members geo !! "Walls 1" = Some (wall_dataset "r" "float" [0; 1] true) ∧
    h5_members phys !! "density"
    = Some (quantity_member (QArray (one_cell 1)) "d41d8cd98f00b204e9800998ecf8427e"
              true false true "float").
Proof.
  destruct (write_fills_container All true false true "float" "float" density_grid
              empty_container [0; 1] [0; 1] [0; 1] density_grid_can_write
              eq_refl eq_refl eq_refl) as (phys & Hrun & _ & Hin & _).
  eexists _, phys. split; [exact Hrun|].
  unfold written_geometry. cbn [h5_attrs h5_members]. split_and!.
  - rewrite lookup_insert_ne by discriminate. apply lookup_insert_eq.
  - apply lookup_insert_eq.
  - rewrite lookup_insert_ne by discriminate.
    rewrite lookup_insert_ne by discriminate. apply lookup_insert_eq.
  - apply (Hin "density"); [apply lookup_singleton_eq | done].
Defined.

(** A mesh without walls, written to an empty container. *)
Lemma write_unset_walls_witness :
  ∃ msg,
    run (write All true false true "float" "float") (unset_grid, empty_container)
    = ((unset_grid,
        {| root_Geometry := Some (attrs_set "grid_type" "sph_pol" new_group);
           root_Physics := Some new_group |}),
       Raise (TypeError msg)).
Proof.
  exact (write_unset_walls All true false true "float" "float" unset_grid
           empty_container (or_introl eq_refl)).
Defined.

Lemma density_grid_write_run :
  ∃ group',
    run (write All true false true "float" "float") (density_grid, empty_container)
    = ((density_grid, group'), Return tt).
Proof.
  eexists.
  exact (write_run All true false true "float" "float" density_grid empty_container
           [0; 1] [0; 1] [0; 1] density_grid_can_write eq_refl eq_refl eq_refl).
Qed.

(** The unit cell written twice. *)
Lemma write_again_fails_witness :
  ∃ group',
    run (write All true false true "float" "float") (density_grid, empty_container)
    = ((density_grid, group'), Return tt) ∧
    run (write (Names []) false false false "float" "float") (density_grid, group')
    = ((density_grid, group'), Raise (name_exists "Walls 1")).
Proof.
  destruct density_grid_write_run as (group' & Hrun).
  exists group'. split; [exact Hrun|].
  exact (write_again_fails _ _ _ _ _ _ _ _ _ _ _ _ _ _ _ _ Hrun).
Defined.

(** A density of two cells on the mesh of one cell: the walls are written,
    the density is not. *)
Lemma write_rejected_quantity_witness :
  ∃ phys e,
    run (write All true false true "float" "float") (misshapen_grid, empty_container)
    = ((misshapen_grid,
        {| root_Geometry :=
             Some (written_geometry "d41d8cd98f00b204e9800998ecf8427e" "float" true
                     [0; 1] [0; 1] [0; 1] new_group);
           root_Physics := Some phys |}),
       Raise e).
Proof.
  destruct (write_rejected_quantity All true false true "float" "float" misshapen_grid
              empty_container [0; 1] [0; 1] [0; 1] "density"
              (QArray (NDArray [2; 1; 1]%Z [1; 2]))
              (ValueError
                 "Array does not have the right dimensions: (2, 1, 1) instead of (1, 1, 1)")
              eq_refl eq_refl eq_refl (lookup_empty _) (lookup_empty _) (lookup_empty _))
    as (phys & e & Hrun).
  - apply lookup_singleton_eq.
  - reflexivity.
  - discriminate.
  - apply (check_array_bad _ [1; 1; 1]%Z); [reflexivity | discriminate].
  - exists phys, e. exact Hrun.
Defined.

End Examples.

(** ** Doubles *)

Section Doubles.

(** The unit cell, whose inner wall is zero, with azimuthal walls 1, 2, 4;
    and a cell between the radial walls 1, 2, 4, where the centres are
    geometric means. *)
Lemma centers_geometric_and_midpoint_witness :
  (is_finite 1 = true ∧ (0 =? 0)%float = true ∧ (1 =? 0)%float = false) ∧
  ∀ libm : Libm,
    (∃ g' rc tc pc,
       run (set_walls unit_walls64 unit_walls64 doubling_walls) empty_grid
       = (g', Return tt) ∧
       r g' = Some rc ∧ t g' = Some tc ∧ p g' = Some pc ∧
       rc !! 0%nat = Some 0.5%float ∧ is_finite 0.5 = true ∧
       tc !! 0%nat = Some 0.5%float ∧
       pc !! 0%nat = Some 1.5%float ∧ pc !! 1%nat = Some 3%float) ∧
    (∃ g' rc,
       run (set_walls doubling_walls unit_walls64 unit_walls64) empty_grid
       = (g', Return tt) ∧
       r g' = Some rc ∧
       rc !! 0%nat = Some (libm_pow 10 ((libm_log10 1 + libm_log10 2) / 2)) ∧
       rc !! 1%nat = Some (libm_pow 10 ((libm_log10 2 + libm_log10 4) / 2)))%float.
Proof.
  split; [done|]. intros libm. split.
  - destruct (centers_geometric_and_midpoint unit_walls64 unit_walls64
                doubling_walls empty_grid 0%float)
      as (g' & rc & tc & pc & Hrun & Hr & Ht & Hp & _ & Hzero & Hmid_t & Hmid_p);
      [done | done | by eexists | simpl; lia | simpl; lia |].
    destruct (Hzero 1%float eq_refl eq_refl) as [Hr0 Hfinite].
    exists g', rc, tc, pc.
    split_and!; [exact Hrun | exact Hr | exact Ht | exact Hp | exact Hr0 | done
                | exact (Hmid_t 0%nat 0%float 1%float eq_refl eq_refl)
                | exact (Hmid_p 0%nat 1%float 2%float eq_refl eq_refl)
                | exact (Hmid_p 1%nat 2%float 4%float eq_refl eq_refl)].
  - destruct (centers_geometric_and_midpoint doubling_walls unit_walls64
                unit_walls64 empty_grid 1%float)
      as (g' & rc & _ & _ & Hrun & Hr & _ & _ & Hlog & _);
      [done | done | done | simpl; lia | simpl; lia |].
    exists g', rc.
    split_and!; [exact Hrun | exact Hr
                | exact (Hlog 0%nat 1%float 2%float eq_refl eq_refl (λ _, eq_refl))
                | apply (Hlog 1%nat 2%float 4%float eq_refl eq_refl); done].
Defined.

(** C2, where it fails.  The radial walls [0., inf] are 1-D and strictly
    increasing, so [set_walls] accepts them and returns; the inner wall is
    zero, and the first centre is inf / 2, which is infinite, whatever the C
    library computes. *)
Lemma first_center_infinite :
  is_finite infinity = false ∧
  ∀ libm : Libm,
    valid_walls outer_wall_at_infinity unit_walls64 unit_walls64 = true ∧
    ∃ g' rc,
      run (set_walls outer_wall_at_infinity unit_walls64 unit_walls64) empty_grid
      = (g', Return tt) ∧
      r g' = Some rc ∧ rc !! 0%nat = Some infinity.
Proof.
  split; [done|]. intros libm.
  assert (valid_walls outer_wall_at_infinity unit_walls64 unit_walls64 = true)
    as Hvalid by done.
  split; [done|].
  eexists _, _. split.
  - apply (set_walls_succeeds outer_wall_at_infinity unit_walls64 unit_walls64
             empty_grid 0%float Hvalid); [done | by eexists | simpl; lia..].
  - split; [done|].
    rewrite (lookup_centers_r_zero _ 0%float infinity) by done.
    reflexivity.
Qed.


End Doubles.

Section DoubleExamples.
Local Existing Instance nan_libm.

(** The unit cell on doubles: its first radial centre is the finite 0.5. *)
Lemma float64_first_center_finite_witness :
  ∃ g' rc center,
    run (set_walls (PyList [0; 1]%float) (PyList [0; 1]%float) (PyList [0; 1]%float))
      empty_grid = (g', Return tt) ∧
    r g' = Some rc ∧ rc !! 0%nat = Some center ∧ is_finite center = true.
Proof.
  assert (run (set_walls (PyList [0; 1]%float) (PyList [0; 1]%float)
                 (PyList [0; 1]%float)) empty_grid
          = (walls_set [0; 1]%float [0; 1]%float [0; 1]%float empty_grid, Return tt))
    as Hrun.
  { apply (set_walls_succeeds (PyList [0; 1]%float) (PyList [0; 1]%float)
             (PyList [0; 1]%float) _ 0%float);
      [reflexivity | reflexivity | intros _; by eexists | simpl; lia | simpl; lia]. }
  eexists _, _, _. split; [exact Hrun|]. split; [reflexivity|]. split; [reflexivity|].
  exact (float64_first_center_finite _ _ _ _ _ _ 0%float 1%float _ Hrun
           eq_refl eq_refl eq_refl eq_refl eq_refl eq_refl).
Defined.

End DoubleExamples.

(** ** The methods run on expressions *)

Section Evaluation.

(** The unit cell [0,1] x [0,1] x [0,1]: the call returns, the zero inner
    wall gives the centre 1/2, and the single volume is the wedge formula. *)
Example set_walls_unit_cell :
  let result := run (set_walls (walls [0; 1]) (walls [0; 1]) (walls [0; 1])) empty_grid in
  result.2 = Return tt ∧
  shape result.1 = Some [1; 1; 1] ∧
  r result.1 = Some [SDiv (SNum 1) (SNum 2)] ∧
  t result.1 = Some [SDiv (SAdd (SNum 0) (SNum 1)) (SNum 2)] ∧
  volumes result.1 =
  Some [[[SDiv (SMul (SMul (SSub (SPow (SNum 1) (SNum 3)) (SPow (SNum 0) (SNum 3)))
                           (SSub (SCos (SNum 0)) (SCos (SNum 1))))
                     (SSub (SNum 1) (SNum 0)))
               (SNum 3)]]].
Proof. vm_compute. done. Qed.

(** Two radial cells away from the origin: both centres are geometric
    means; the shape lists the azimuthal count first. *)
Example set_walls_two_radial_cells :
  let result := run (set_walls (walls [1; 2; 4]) (walls [0; 1]) (walls [0; 1; 2; 3])) empty_grid in
  result.2 = Return tt ∧
  shape result.1 = Some [3; 1; 2] ∧
  r result.1 =
  Some [SPow (SNum 10) (SDiv (SAdd (SLog10 (SNum 1)) (SLog10 (SNum 2))) (SNum 2));
        SPow (SNum 10) (SDiv (SAdd (SLog10 (SNum 2)) (SLog10 (SNum 4))) (SNum 2))] ∧
  (length <$> volumes result.1) = Some 3%nat ∧
  (length <$> areas result.1) = Some 6%nat ∧
  (length <$> widths result.1) = Some 3%nat.
Proof. vm_compute. done. Qed.

(** Walls that repeat a value, and walls given as a 2-D array, raise on the
    object as it was. *)
Example set_walls_not_increasing :
  run (set_walls (walls [1; 1]) (walls [0; 1]) (walls [0; 1])) empty_grid =
  (empty_grid, Raise (ValueError "r_wall should be monotonically increasing")).
Proof. vm_compute. done. Qed.

Example set_walls_not_1d :
  run (set_walls (walls [0; 1])
         (PyArray (NDArray [2; 1] [SNum 0; SNum 1])) (walls [0; 1])) empty_grid =
  (empty_grid, Raise (ValueError "t_wall should be a 1-D sequence")).
Proof. vm_compute. done. Qed.

(** A lone radial wall at zero passes the checks and raises on line 84, with
    the counts, the shape, the walls and [r] assigned and nothing else. *)
Example set_walls_lone_zero_wall :
  let result := run (set_walls (walls [0]) (walls [0; 1]) (walls [0; 1])) empty_grid in
  result.2 = Raise (IndexError "index out of bounds") ∧
  nr result.1 = Some 0 ∧ shape result.1 = Some [1; 1; 0] ∧
  r_wall result.1 = Some [SNum 0] ∧ r result.1 = Some [] ∧
  t result.1 = None ∧ volumes result.1 = None.
Proof. vm_compute. done. Qed.

(** No azimuthal wall: [np.zeros] raises on line 120 after the volumes are
    assigned. *)
Example set_walls_no_azimuthal_wall :
  let result := run (set_walls (walls [1; 2]) (walls [0; 1]) (walls [])) empty_grid in
  result.2 = Raise (ValueError "negative dimensions are not allowed") ∧
  np result.1 = Some (-1) ∧ volumes result.1 = Some [] ∧ areas result.1 = None.
Proof. vm_compute. done. Qed.

(** The check of a quantity on the unit cell: the messages give both
    shapes. *)
Example check_array_dimensions_messages :
  let mesh := (run (set_walls (walls [0; 1]) (walls [0; 1]) (walls [0; 1])) empty_grid).1 in
  let cell v := NDArray [1; 1; 1] [SNum v] in
  run (_check_array_dimensions (QArray (cell 5))) mesh = (mesh, Return tt) ∧
  run (_check_array_dimensions (QList [cell 5; cell 6])) mesh = (mesh, Return tt) ∧
  run (stack_items (shape mesh) [cell 5; cell 6]) mesh =
  (mesh, Return (NDArray [2; 1; 1; 1] [SNum 5; SNum 6])) ∧
  run (_check_array_dimensions (QArray (NDArray [2] [SNum 5; SNum 6]))) mesh =
  (mesh, Raise (ValueError
     "Array does not have the right dimensions: (2,) instead of (1, 1, 1)")) ∧
  run (_check_array_dimensions
         (QTuple [cell 5; NDArray [1; 2; 1] [SNum 5; SNum 6]])) mesh =
  (mesh, Raise (ValueError
     "Arrays in list do not have the right dimensions: (1, 2, 1) instead of (1, 1, 1)")) ∧
  run (_check_array_dimensions (QArray (cell 5))) empty_grid =
  (empty_grid, Raise (ValueError
     "Array does not have the right dimensions: (1, 1, 1) instead of None")) ∧
  run (_check_array_dimensions (QLink "other.h5" "/density")) mesh =
  (mesh, Raise (ValueError "Array should be a list or a Numpy array")).
Proof. vm_compute. done. Qed.

End Evaluation.
